(** * Receipt persistence and update protocol (go-dutch-ios, Cloud Functions)

    A shallow embedding of the server side of the repository:
      - functions/lib/auth.js            (verifyAuthToken)
      - functions/lib/mongodb.js         (connectToDatabase, createReceiptDocument,
                                          getReceiptById, updateReceiptById)
      - functions/src/saveReceipt.js     (validateReceiptData, saveReceipt)
      - functions/src/loadReceiptById.js (loadReceiptById)
      - functions/src/updateReceiptById.js (updateReceiptById)
      - functions/src/processReceipt.js  (processReceipt)

    JavaScript values are an inductive type; the asynchronous handlers are
    written in a state-and-exception monad over a [World] that holds the
    'receipts' collection, the module-level connection cache and the oracles
    the code consults (network, wall clock, ObjectId generator, identity
    provider, extraction service, the server's verdict on a write).  The
    four handlers are exported through onRequest with [cors: true], and so
    they are here.  Log lines and the per-request correlation id only feed
    the logger and are left out. *)

From stdpp Require Import base option list strings numbers gmap.
From Stdlib Require Import Ascii String ZArith NArith Lia DecimalString.

Local Open Scope string_scope.

(* ================================================================== *)
(** ** ObjectId: the 96-bit identifier of the bson package             *)
(* ================================================================== *)

Module ObjectId.

(** An ObjectId is a 12-byte value; it is kept as the number its bytes
    spell, big-endian, below [2^96]. *)
Definition t := N.

Definition modulus : N := (2 ^ 96)%N.

(** The digits toString writes. *)
Definition lower_digits : string := "0123456789abcdef".

Definition hex_digit (d : N) : ascii :=
  default "f"%char (String.get (N.to_nat d) lower_digits).

(** The place of a character in an alphabet, counted from [i]. *)
Fixpoint position (c : ascii) (alphabet : string) (i : N) : option N :=
  match alphabet with
  | "" => None
  | String d r => if Ascii.eqb c d then Some i else position c r (i + 1)%N
  end.

(** checkForHexRegExp = /^[0-9a-fA-F]{24}$/ : both cases are accepted. *)
Definition hex_value (c : ascii) : option N :=
  match position c lower_digits 0%N with
  | Some d => Some d
  | None => position c "ABCDEF" 10%N
  end.

(** [k] lower-case hex digits of [n], most significant first. *)
Fixpoint hex_of (k : nat) (n : N) : string :=
  match k with
  | O => ""
  | S k' => hex_of k' (n / 16)%N ++ String (hex_digit (n mod 16)%N) ""
  end.

Fixpoint hex_read (acc : N) (s : string) : option N :=
  match s with
  | "" => Some acc
  | String c r =>
      match hex_value c with
      | Some d => hex_read (acc * 16 + d)%N r
      | None => None
      end
  end.

(** ObjectId.prototype.toString / toHexString. *)
Definition toString (o : t) : string := hex_of 24 (o mod modulus)%N.

(** [new ObjectId(id)] for a string [id]: 24 hex characters, or it throws
    (here: [None]).  This is the rule of bson 6; older major versions also
    took any string of 12 characters as the raw bytes. *)
Definition parse (s : string) : option t :=
  if Nat.eqb (String.length s) 24 then hex_read 0%N s else None.

End ObjectId.

(* ================================================================== *)
(** ** Results of a computation that may throw                         *)
(* ================================================================== *)

(** [Ret a]: normal completion.  [Throw msg]: a JavaScript exception whose
    [message] is [msg].  [Beyond]: the run asked the MongoDB driver for
    something this development does not describe (an update path with a dot
    or a dollar sign, a caller-chosen [_id] that is not an ObjectId); no
    handler catches it, and the statements about what a save or an update
    writes carry the hypotheses that keep such a run out. *)
Inductive outcome (A : Type) : Type :=
| Ret (a : A)
| Throw (msg : string)
| Beyond.
Arguments Ret {A} a.
Arguments Throw {A} msg.
Arguments Beyond {A}.

#[global] Instance outcome_ret : MRet outcome := fun A a => Ret a.

#[global] Instance outcome_bind : MBind outcome := fun A B f o =>
  match o with
  | Ret a => f a
  | Throw e => Throw e
  | Beyond => Beyond
  end.

(* ================================================================== *)
(** ** JavaScript values                                               *)
(* ================================================================== *)

Module JS.

(** A number is an IEEE 754 double.  A finite one is kept as a decimal
    [m * 10^e], the digits Number.prototype.toString prints for it (the
    shortest decimal that reads back as the double): 4.5 is [Decimal 45 (-1)],
    450 is [Decimal 450 0].  The handlers never compute with numbers; they
    test them, print them in an error message, and hand them on.  Zero is not
    told from minus zero. *)
Inductive number : Type :=
| Decimal (m e : Z)
| Infinity (negative : bool)
| NaN.

(** An integer as a number. *)
Definition int (z : Z) : number := Decimal z 0.
Coercion int : Z >-> number.
Bind Scope Z_scope with number.

Definition is_zero (x : number) : bool :=
  match x with
  | Decimal m _ => (m =? 0)%Z
  | _ => false
  end.

Definition is_finite (x : number) : bool :=
  match x with
  | Decimal _ _ => true
  | _ => false
  end.

(** A string is the sequence of its UTF-16 code units; the code units of
    this development are below 256.  An object is the list of its own
    enumerable properties in insertion order; when a name occurs twice the
    later binding is the one that counts, as in JSON.parse. *)
#[warnings="-register-all"] Inductive value : Type :=
| VUndefined
| VNull
| VBool (b : bool)
| VNum (x : number)
| VStr (s : string)
| VDate (ms : Z)
| VOid (o : ObjectId.t)
| VArr (xs : list value)
| VObj (fs : list (string * value)).

Definition fields := list (string * value).

(** ToBoolean. *)
Definition truthy (v : value) : bool :=
  match v with
  | VUndefined | VNull => false
  | VBool b => b
  | VNum x =>
      match x with
      | NaN => false
      | _ => negb (is_zero x)
      end
  | VStr s => negb (String.eqb s "")
  | VDate _ | VOid _ | VArr _ | VObj _ => true
  end.

(** [typeof v === 'object'] *)
Definition typeof_object (v : value) : bool :=
  match v with
  | VNull | VDate _ | VOid _ | VArr _ | VObj _ => true
  | _ => false
  end.

Definition isArray (v : value) : bool :=
  match v with VArr _ => true | _ => false end.

Definition nullish (v : value) : bool :=
  match v with VUndefined | VNull => true | _ => false end.

Fixpoint lookup_field (k : string) (fs : fields) : option value :=
  match fs with
  | [] => None
  | (k', v) :: r =>
      match lookup_field k r with
      | Some x => Some x
      | None => if String.eqb k' k then Some v else None
      end
  end.

Definition has_field (k : string) (fs : fields) : bool :=
  existsb (fun p => String.eqb (fst p) k) fs.

(** [o[k] = v] on an object: the value is replaced where the property
    already is, a new property goes last. *)
Definition set_field (k : string) (v : value) (fs : fields) : fields :=
  if has_field k fs
  then map (fun p => if String.eqb (fst p) k then (fst p, v) else p) fs
  else (fs ++ [(k, v)])%list.

Definition remove_field (k : string) (fs : fields) : fields :=
  List.filter (fun p => negb (String.eqb (fst p) k)) fs.

Definition field (k : string) (fs : fields) : value :=
  default VUndefined (lookup_field k fs).

(** [v.k] for the property names the handlers read (none of them is an
    index, [length] or another built-in member): a TypeError on
    [undefined] and [null], [undefined] on other values that are not
    objects. *)
Definition get_prop (v : value) (k : string) : outcome value :=
  match v with
  | VUndefined =>
      Throw ("Cannot read properties of undefined (reading '" ++ k ++ "')")
  | VNull =>
      Throw ("Cannot read properties of null (reading '" ++ k ++ "')")
  | VObj fs => Ret (field k fs)
  | _ => Ret VUndefined
  end.

(** *** Number.prototype.toString *)

Definition decimal_digits (n : N) : string :=
  DecimalString.NilZero.string_of_uint (N.to_uint n).

Definition reverse (s : string) : string :=
  string_of_list_ascii (rev (list_ascii_of_string s)).

(** The digits without the zeros they start with, and how many there
    were. *)
Fixpoint strip_zeros (s : string) : string * Z :=
  match s with
  | String "0" r => let '(t, j) := strip_zeros r in (t, j + 1)%Z
  | _ => (s, 0%Z)
  end.

Fixpoint zeros (n : nat) : string :=
  match n with
  | O => ""
  | S n' => String "0" (zeros n')
  end.

(** Number::toString of the language specification, for the digits [ds]
    and the exponent [n] of the value [0.ds * 10^n]. *)
Definition Number_toString (x : number) : string :=
  match x with
  | NaN => "NaN"
  | Infinity negative => if negative then "-Infinity" else "Infinity"
  | Decimal m e =>
      if (m =? 0)%Z then "0"
      else
        let '(rs, j) := strip_zeros (reverse (decimal_digits (Z.abs_N m))) in
        let ds := reverse rs in
        let k := Z.of_nat (String.length ds) in
        let n := (k + e + j)%Z in
        (if (m <? 0)%Z then "-" else "")
        ++ (if ((k <=? n) && (n <=? 21))%Z then ds ++ zeros (Z.to_nat (n - k))
            else if ((0 <? n) && (n <=? 21))%Z
            then String.substring 0 (Z.to_nat n) ds ++ "."
                 ++ String.substring (Z.to_nat n) (Z.to_nat (k - n)) ds
            else if ((-6 <? n) && (n <=? 0))%Z
            then "0." ++ zeros (Z.to_nat (- n)) ++ ds
            else
              let x := (n - 1)%Z in
              let exponent := (if (x <? 0)%Z then "-" else "+")
                              ++ decimal_digits (Z.abs_N x) in
              match ds with
              | String d "" => String d "" ++ "e" ++ exponent
              | String d r => String d "" ++ "." ++ r ++ "e" ++ exponent
              | "" => ""
              end)
  end.

(** [v.k = x] in strict mode (the sources are ES modules): a TypeError on
    primitives, with the text Node gives it.  A named property put on an
    array, a Date or an ObjectId is not written by JSON.stringify nor by the
    BSON serializer, so the value is returned as it was. *)
Definition set_prop (v : value) (k : string) (x : value) : outcome value :=
  match v with
  | VUndefined =>
      Throw ("Cannot set properties of undefined (setting '" ++ k ++ "')")
  | VNull =>
      Throw ("Cannot set properties of null (setting '" ++ k ++ "')")
  | VBool b =>
      Throw ("Cannot create property '" ++ k ++ "' on boolean '"
             ++ (if b then "true" else "false") ++ "'")
  | VNum n =>
      Throw ("Cannot create property '" ++ k ++ "' on number '"
             ++ Number_toString n ++ "'")
  | VStr s =>
      Throw ("Cannot create property '" ++ k ++ "' on string '" ++ s ++ "'")
  | VObj fs => Ret (VObj (set_field k x fs))
  | VDate _ | VOid _ | VArr _ => Ret v
  end.

Definition index_name (i : nat) : string :=
  DecimalString.NilZero.string_of_uint (Nat.to_uint i).

(** The strings of one code unit that a string is spread into. *)
Definition chars (s : string) : list value :=
  map (fun c => VStr (String c "")) (list_ascii_of_string s).

(** The own enumerable properties copied by [{...v}]. *)
Definition spread_props (v : value) : fields :=
  match v with
  | VObj fs => fs
  | VArr xs => imap (fun i x => (index_name i, x)) xs
  | VStr s => imap (fun i x => (index_name i, x)) (chars s)
  | _ => []
  end.

(** The elements produced by [[...v]]. *)
Definition spread_elems (v : value) : outcome (list value) :=
  match v with
  | VArr xs => Ret xs
  | VStr s => Ret (chars s)
  | _ => Throw "object is not iterable"
  end.

(** *** Date.prototype.toISOString *)

Fixpoint digits (w : nat) (n : Z) : string :=
  match w with
  | O => ""
  | S w' =>
      digits w' (n / 10)%Z
      ++ String (ascii_of_nat (48 + Z.to_nat (n mod 10)%Z)) ""
  end.

(** Day number since 1970-01-01 to (year, month, day), proleptic
    Gregorian calendar. *)
Definition civil (days : Z) : Z * Z * Z :=
  let z := (days + 719468)%Z in
  let era := (z / 146097)%Z in
  let doe := (z - era * 146097)%Z in
  let yoe := ((doe - doe / 1460 + doe / 36524 - doe / 146096) / 365)%Z in
  let doy := (doe - (365 * yoe + yoe / 4 - yoe / 100))%Z in
  let mp := ((5 * doy + 2) / 153)%Z in
  let d := (doy - (153 * mp + 2) / 5 + 1)%Z in
  let m := (if mp <? 10 then mp + 3 else mp - 9)%Z in
  let y := (yoe + era * 400 + (if m <=? 2 then 1 else 0))%Z in
  (y, m, d).

Definition toISOString (ms : Z) : string :=
  let day := (ms / 86400000)%Z in
  let r := (ms mod 86400000)%Z in
  let '(y, m, d) := civil day in
  let year :=
    if ((0 <=? y) && (y <=? 9999))%Z then digits 4 y
    else (if (y <? 0)%Z then "-" else "+") ++ digits 6 (Z.abs y) in
  year ++ "-" ++ digits 2 m ++ "-" ++ digits 2 d ++ "T"
  ++ digits 2 (r / 3600000)%Z ++ ":"
  ++ digits 2 ((r / 60000) mod 60)%Z ++ ":"
  ++ digits 2 ((r / 1000) mod 60)%Z ++ "."
  ++ digits 3 (r mod 1000)%Z ++ "Z".

(** [JSON.parse(JSON.stringify(v))]: a Date becomes its ISO string, an
    ObjectId its hex string (both through toJSON), a number that is not
    finite becomes [null], an [undefined] property is dropped and an
    [undefined] array element becomes [null]. *)
Fixpoint json_clone (v : value) : value :=
  match v with
  | VNum x => if is_finite x then v else VNull
  | VDate ms => VStr (toISOString ms)
  | VOid o => VStr (ObjectId.toString o)
  | VArr xs =>
      VArr (map (fun x => match x with
                          | VUndefined => VNull
                          | _ => json_clone x
                          end) xs)
  | VObj fs =>
      VObj ((fix go (l : fields) : fields :=
               match l with
               | [] => []
               | (k, x) :: r =>
                   match x with
                   | VUndefined => go r
                   | _ => (k, json_clone x) :: go r
                   end
               end) fs)
  | _ => v
  end.

(** What the driver's BSON serializer writes and a later read gives back
    (default options, ignoreUndefined off), for a value it takes:
    [undefined] is stored as [null].  The values it refuses are those of
    [bson_error] below. *)
Fixpoint toBSON (v : value) : value :=
  match v with
  | VUndefined => VNull
  | VArr xs => VArr (map toBSON xs)
  | VObj fs =>
      VObj ((fix go (l : fields) : fields :=
               match l with
               | [] => []
               | (k, x) :: r => (k, toBSON x) :: go r
               end) fs)
  | _ => v
  end.

Definition toBSON_fields (fs : fields) : fields :=
  map (fun p => (fst p, toBSON (snd p))) fs.

(** A field name with a NUL character in it. *)
Definition has_nul (k : string) : bool :=
  existsb (fun c => Ascii.eqb c zero) (list_ascii_of_string k).

Definition null_bytes (k : string) : string :=
  "key " ++ k ++ " must not contain null bytes".

Definition unsupported_bson : string :=
  "Unsupported BSON version, bson types must be from bson 6.x.x".

(** The error the driver's BSON serializer (bson 6) throws on a value of a
    command, if it throws: an object whose [_bsontype] is neither
    [undefined] nor [null] is taken for a BSON type of another version of
    the package, and a field name must not hold a NUL character.  The
    properties are visited in order, embedded values before the properties
    that follow them. *)
Fixpoint bson_error (v : value) : option string :=
  match v with
  | VArr xs =>
      (fix go (l : list value) : option string :=
         match l with
         | [] => None
         | x :: r =>
             match bson_error x with
             | Some e => Some e
             | None => go r
             end
         end) xs
  | VObj fs =>
      if negb (nullish (field "_bsontype" fs)) then Some unsupported_bson
      else
        (fix go (l : fields) : option string :=
           match l with
           | [] => None
           | (k, x) :: r =>
               if has_nul k then Some (null_bytes k)
               else
                 match bson_error x with
                 | Some e => Some e
                 | None => go r
                 end
           end) fs
  | _ => None
  end.
Arguments bson_error v : simpl never.


End JS.
Export JS.

(** A promise of an outside service, once settled. *)
Inductive settled : Type :=
| Fulfilled (v : value)
| Rejected (msg : string).

(** [await p] *)
Definition await (p : settled) : outcome value :=
  match p with
  | Fulfilled v => Ret v
  | Rejected msg => Throw msg
  end.


(* ================================================================== *)
(** ** The world the functions run in                                  *)
(* ================================================================== *)

(** What a run does to the store and to the extraction service, latest
    first. *)
Inductive event : Type :=
| EvPing
| EvClose
| EvConnect
| EvFindOne (o : ObjectId.t)
| EvInsertOne (o : ObjectId.t)
| EvUpdateOne (o : ObjectId.t)
| EvGenerateContent.

Record World : Type := mkWorld {
  (** the 'receipts' collection: [_id] to the other fields of the document *)
  receipts : gmap N fields;
  (** [cachedClient && cachedDb] of lib/mongodb.js *)
  cached : bool;
  (** the network: whether the [n]-th ping or connect gets through *)
  net : nat -> bool;
  probes : nat;
  (** the wall clock: the time value of the [n]-th [new Date()] *)
  clock : nat -> Z;
  ticks : nat;
  (** the driver's ObjectId generator *)
  pks : nat -> N;
  minted : nat;
  (** [getAuth().verifyIdToken]: the decoded token, or a rejection *)
  verifyIdToken : string -> settled;
  (** the extraction service behind processReceiptWithGemini: the parsed
      answer for an image and a MIME type, or a failure *)
  extraction : value -> value -> settled;
  (** the server's verdict on a document it is asked to store: the error
      it answers with (a document that is too large or nested too deep, a
      validation rule of the collection, a write that times out), [None]
      when it takes the document *)
  refusal : fields -> option string;
  journal : list event
}.

Definition with_receipts (r : gmap N fields) (w : World) : World :=
  mkWorld r (cached w) (net w) (probes w) (clock w) (ticks w) (pks w)
          (minted w) (verifyIdToken w) (extraction w) (refusal w) (journal w).

Definition with_cached (c : bool) (w : World) : World :=
  mkWorld (receipts w) c (net w) (probes w) (clock w) (ticks w) (pks w)
          (minted w) (verifyIdToken w) (extraction w) (refusal w) (journal w).

Definition with_probes (n : nat) (w : World) : World :=
  mkWorld (receipts w) (cached w) (net w) n (clock w) (ticks w) (pks w)
          (minted w) (verifyIdToken w) (extraction w) (refusal w) (journal w).

Definition with_ticks (n : nat) (w : World) : World :=
  mkWorld (receipts w) (cached w) (net w) (probes w) (clock w) n (pks w)
          (minted w) (verifyIdToken w) (extraction w) (refusal w) (journal w).

Definition with_minted (n : nat) (w : World) : World :=
  mkWorld (receipts w) (cached w) (net w) (probes w) (clock w) (ticks w)
          (pks w) n (verifyIdToken w) (extraction w) (refusal w) (journal w).

Definition with_journal (j : list event) (w : World) : World :=
  mkWorld (receipts w) (cached w) (net w) (probes w) (clock w) (ticks w)
          (pks w) (minted w) (verifyIdToken w) (extraction w) (refusal w) j.

(* ================================================================== *)
(** ** The monad of the asynchronous functions                         *)
(* ================================================================== *)

(** A state change made before an exception is thrown stays made. *)
Definition M (A : Type) : Type := World -> outcome A * World.

#[global] Instance M_ret : MRet M := fun A a w => (Ret a, w).

#[global] Instance M_bind : MBind M := fun A B f m w =>
  match m w with
  | (Ret a, w') => f a w'
  | (Throw e, w') => (Throw e, w')
  | (Beyond, w') => (Beyond, w')
  end.

Definition throw {A} (msg : string) : M A := fun w => (Throw msg, w).

Definition beyond {A} : M A := fun w => (Beyond, w).

Definition lift {A} (o : outcome A) : M A := fun w => (o, w).

(** [try { body } catch (error) { handler(error.message) }] *)
Definition try_catch {A} (body : M A) (handler : string -> M A) : M A :=
  fun w =>
    match body w with
    | (Throw e, w') => handler e w'
    | r => r
    end.

Definition gets {A} (f : World -> A) : M A := fun w => (Ret (f w), w).

Definition modify (f : World -> World) : M unit := fun w => (Ret tt, f w).

Definition record (e : event) : M unit :=
  modify (fun w => with_journal (e :: journal w) w).

(** [new Date()] *)
Definition new_Date : M value :=
  n ← gets ticks;
  t ← gets clock;
  modify (with_ticks (S n));;
  mret (VDate (t n)).

Definition probe : M bool :=
  n ← gets probes;
  up ← gets net;
  modify (with_probes (S n));;
  mret (up n).

(* ================================================================== *)
(** ** The MongoDB driver, as lib/mongodb.js uses it                   *)
(* ================================================================== *)

Module Driver.

(** [cachedDb.command({ ping: 1 })]: true when the server answers. *)
Definition ping : M bool := record EvPing;; probe.

(** [client.connect()] *)
Definition connect : M unit :=
  record EvConnect;;
  ok ← probe;
  if ok : bool then mret tt else throw "connect ECONNREFUSED".

(** [cachedClient.close()], whose own errors the caller ignores. *)
Definition close : M unit := record EvClose.

(** The driver's primary-key factory: the next 96-bit value. *)
Definition createPk : M ObjectId.t :=
  n ← gets minted;
  g ← gets pks;
  modify (with_minted (S n));;
  mret (g n mod ObjectId.modulus)%N.

(** A document as a read returns it: [_id] first. *)
Definition document (o : ObjectId.t) (fs : fields) : value :=
  VObj (("_id", VOid o) :: fs).

(** [collection.findOne({ _id: o })] *)
Definition findOne (o : ObjectId.t) : M value :=
  record (EvFindOne o);;
  c ← gets receipts;
  mret (match c !! o with
        | Some fs => document o fs
        | None => VNull
        end).

(** [collection.findOne({ _id: o }, { projection: { createdAt: 1 } })] *)
Definition findOne_createdAt (o : ObjectId.t) : M value :=
  record (EvFindOne o);;
  c ← gets receipts;
  mret (match c !! o with
        | Some fs =>
            match lookup_field "createdAt" fs with
            | Some x => document o [("createdAt", x)]
            | None => document o []
            end
        | None => VNull
        end).

Definition write (o : ObjectId.t) (fs : fields) : M unit :=
  modify (fun w => with_receipts (<[o := fs]> (receipts w)) w).

(** The driver serializes a command before it sends it: a document the
    serializer refuses never leaves the process. *)
Definition serialize (doc : fields) : M fields :=
  match bson_error (VObj doc) with
  | Some e => throw e
  | None => mret (toBSON_fields doc)
  end.

(** The server's verdict on the document a write would store. *)
Definition validate (doc : fields) : M unit :=
  verdict ← gets refusal;
  match verdict doc with
  | Some e => throw e
  | None => mret tt
  end.

Definition insert_at (o : ObjectId.t) (doc : fields) : M ObjectId.t :=
  serialize doc;;
  record (EvInsertOne o);;
  c ← gets receipts;
  let stored := toBSON_fields (remove_field "_id" doc) in
  match c !! o with
  | Some _ => throw "E11000 duplicate key error collection: receipts"
  | None => validate stored;; write o stored;; mret o
  end.

(** [collection.insertOne(doc)], giving [result.insertedId].  A document
    without an [_id] of its own gets one from the key factory.  A document
    that brings an [_id] of another kind than an ObjectId (a string, a
    number) is stored under it by the real driver; such documents are never
    found by the reads of lib/mongodb.js, which ask for an ObjectId, and
    this development does not describe them. *)
Definition insertOne (doc : fields) : M ObjectId.t :=
  match field "_id" doc with
  | VUndefined | VNull => o ← createPk; insert_at o doc
  | VOid o => insert_at o doc
  | _ => beyond
  end.

(** A field name that [$set] takes as a top-level field: no dot, no leading
    dollar sign.  With a dot the real [$set] writes inside an embedded
    document; this development does not describe such an update. *)
Definition top_level (k : string) : bool :=
  negb (existsb (fun c => Ascii.eqb c "."%char) (list_ascii_of_string k))
  && negb (String.prefix "$" k).

(** The document after [$set]: a field that is there gets its new value in
    place, a new field is added after the others.  The order in which the
    server adds several new fields is its own; no statement below depends on
    the order of the fields of a stored document. *)
Definition apply_set (upd doc : fields) : fields :=
  fold_left (fun d p => set_field (fst p) (snd p) d) upd doc.

Definition immutable_id : string :=
  "Performing an update on the path '_id' would modify the immutable field '_id'".

(** The write of an update that matched. *)
Definition replace (o : ObjectId.t) (fs : fields) : M nat :=
  validate fs;; write o fs;; mret 1.

(** [collection.updateOne({ _id: o }, { $set: upd })], giving
    [result.matchedCount].  [modifiedCount] only selects a log line in the
    caller and is not computed. *)
Definition updateOne (o : ObjectId.t) (upd : fields) : M nat :=
  serialize upd;;
  record (EvUpdateOne o);;
  c ← gets receipts;
  match c !! o with
  | None => mret 0
  | Some fs =>
      if negb (forallb top_level (map fst upd)) then beyond
      else if has_field "" upd
      then throw "An empty update path is not valid."
      else if has_field "_id" upd
      then
        match field "_id" upd with
        | VOid o' =>
            if (o' =? o)%N
            then replace o (apply_set (toBSON_fields (remove_field "_id" upd)) fs)
            else throw immutable_id
        | _ => throw immutable_id
        end
      else replace o (apply_set (toBSON_fields upd) fs)
  end.

End Driver.

(* ================================================================== *)
(** ** functions/lib/mongodb.js                                        *)
(* ================================================================== *)

Module Mongodb.

(** The cached handle is pinged before reuse; a stale one is closed and
    dropped, and one fresh connection is attempted. *)
Definition connectToDatabase : M unit :=
  try_catch
    (c ← gets cached;
     alive ← (if c : bool
              then ok ← Driver.ping;
                   if ok : bool then mret true
                   else Driver.close;; modify (with_cached false);; mret false
              else mret false);
     if alive : bool then mret tt
     else Driver.connect;; modify (with_cached true))
    (fun e =>
       c ← gets cached;
       (if c : bool
        then Driver.close;; modify (with_cached false)
        else mret tt);;
       throw ("MongoDB connection failed: " ++ e)).

(** [createReceiptDocument(receiptData)].  [result.insertedId] is an
    ObjectId, hence truthy: the 'Failed to get insertedId' branch is not
    taken. *)
Definition createReceiptDocument (receiptData : value) : M string :=
  try_catch
    (connectToDatabase;;
     createdAt ← new_Date;
     updatedAt ← new_Date;
     let documentToInsert :=
       set_field "updatedAt" updatedAt
         (set_field "createdAt" createdAt (spread_props receiptData)) in
     insertedId ← Driver.insertOne documentToInsert;
     mret (ObjectId.toString insertedId))
    (fun e => throw e).

(** [getReceiptById(id)]; [id] is a string, so [typeof id !== 'string']
    is false and [!id] says that it is empty. *)
Definition getReceiptById (id : string) : M value :=
  try_catch
    (if String.eqb id "" then throw "Invalid receipt ID"
     else
       connectToDatabase;;
       match ObjectId.parse id with
       | None => mret VNull
       | Some objectId =>
           document ← Driver.findOne objectId;
           if negb (truthy document) then mret VNull else mret document
       end)
    (fun e => throw e).

(** [existingDoc?.createdAt] *)
Definition optional_createdAt (existingDoc : value) : outcome value :=
  if nullish existingDoc then Ret VUndefined
  else get_prop existingDoc "createdAt".

(** [updateReceiptById(id, updateData)] *)
Definition updateReceiptById (id : string) (updateData : value) : M bool :=
  try_catch
    (if String.eqb id "" then throw "Invalid receipt ID"
     else if negb (truthy updateData) || negb (typeof_object updateData)
     then throw "Invalid update data"
     else
       connectToDatabase;;
       match ObjectId.parse id with
       | None => mret false
       | Some objectId =>
           updatedAt ← new_Date;
           let set0 := set_field "updatedAt" updatedAt (spread_props updateData) in
           existingDoc ← Driver.findOne_createdAt objectId;
           createdAt ← lift (optional_createdAt existingDoc);
           let set1 :=
             if truthy createdAt then set_field "createdAt" createdAt set0
             else set0 in
           matchedCount ← Driver.updateOne objectId set1;
           if Nat.eqb matchedCount 0 then mret false else mret true
       end)
    (fun _ => mret false).

End Mongodb.

(* ================================================================== *)
(** ** Requests and responses                                          *)
(* ================================================================== *)

Record Request : Type := mkRequest {
  method : string;
  (** [request.headers.authorization] *)
  authorization : option string;
  url : string;
  body : value
}.

Record Response : Type := mkResponse {
  status : nat;
  json : value
}.

(** [response.status(code).json({ error: msg, success: false })] *)
Definition failure (code : nat) (msg : string) : Response :=
  mkResponse code (VObj [("error", VStr msg); ("success", VBool false)]).

(** [String.prototype.split(sep)] for a separator that is not empty:
    [skip] counts the characters of a matched separator still to pass,
    [cur] is the piece read so far. *)
Fixpoint split_go (sep : string) (skip : nat) (cur : string) (s : string)
  : list string :=
  match s with
  | "" => [cur]
  | String c r =>
      match skip with
      | S k => split_go sep k cur r
      | O =>
          if String.prefix sep s
          then cur :: split_go sep (String.length sep - 1) "" r
          else split_go sep 0 (cur ++ String c "") r
      end
  end.

Definition split (sep s : string) : list string := split_go sep 0 "" s.

(** [request.url.split('/').filter(Boolean).pop()] *)
Definition url_id (u : string) : option string :=
  last (List.filter (fun p => negb (String.eqb p "")) (split "/" u)).


(* ================================================================== *)
(** ** functions/lib/auth.js                                           *)
(* ================================================================== *)

Module Auth.

(** [authHeader.split('Bearer ')[1]]; the header starts with the separator,
    so the split has a second piece. *)
Definition bearer (authHeader : string) : string :=
  nth 1 (split "Bearer " authHeader) "".

(** [verifyAuthToken(request)]: the subject's id, or [null]. *)
Definition verifyAuthToken (request : Request) : M value :=
  try_catch
    (match authorization request with
     | None => mret VNull
     | Some authHeader =>
         if negb (truthy (VStr authHeader))
            || negb (String.prefix "Bearer " authHeader)
         then mret VNull
         else
           let idToken := bearer authHeader in
           if String.eqb idToken "" then mret VNull
           else
             verify ← gets verifyIdToken;
             decodedToken ← lift (await (verify idToken));
             if negb (truthy decodedToken) then mret VNull
             else
               uid ← lift (get_prop decodedToken "uid");
               if negb (truthy uid) then mret VNull else mret uid
     end)
    (fun _ => mret VNull).

End Auth.

(* ================================================================== *)
(** ** functions/src: the four handlers                                *)
(* ================================================================== *)

Module Functions.

Import Auth.

Definition method_not_allowed : Response := failure 405 "Method not allowed".

Definition unauthorized : Response :=
  failure 401 "Unauthorized: Authentication required".

(** saveReceipt.js: [!part.items || !Array.isArray(part.items)] for a
    [part] that is present. *)
Definition lacks_items (part : value) : outcome bool :=
  items ← get_prop part "items";
  mret (negb (truthy items) || negb (isArray items)).

(** saveReceipt.js: validateReceiptData(data) *)
Definition validateReceiptData (data : value) : outcome bool :=
  originalData ← get_prop data "originalData";
  processedData ← get_prop data "processedData";
  shareData ← get_prop data "shareData";
  if negb (truthy originalData) && negb (truthy processedData)
     && negb (truthy shareData)
  then mret false
  else
    bad ← (if truthy processedData then lacks_items processedData
           else mret false);
    if bad : bool then mret false
    else
      bad ← (if truthy shareData then lacks_items shareData else mret false);
      if bad : bool then mret false else mret true.

(** saveReceipt.js: the 'Add processing metadata if not provided' step.
    The supplied metadata object is the one the payload refers to, so the
    assignment of its [userId] shows in the payload. *)
Definition stamp_metadata (userId receiptData : value) : M value :=
  processingMetadata ← lift (get_prop receiptData "processingMetadata");
  if negb (truthy processingMetadata)
  then
    processedAt ← new_Date;
    lift (set_prop receiptData "processingMetadata"
            (VObj [("processedAt", processedAt);
                   ("source", VStr "mobile_app");
                   ("userId", userId)]))
  else
    stamped ← lift (set_prop processingMetadata "userId" userId);
    lift (set_prop receiptData "processingMetadata" stamped).

(** saveReceipt.js: the handler. *)
Definition saveReceipt (request : Request) : M Response :=
  try_catch
    (if negb (String.eqb (method request) "POST") then mret method_not_allowed
     else
       userId ← verifyAuthToken request;
       if negb (truthy userId) then mret unauthorized
       else
         let receiptData := body request in
         if negb (truthy receiptData)
         then mret (failure 400 "Receipt data is required")
         else
           valid ← lift (validateReceiptData receiptData);
           if negb valid
           then mret (failure 400
                  "Invalid receipt data structure. Missing required fields")
           else
             receiptData ← stamp_metadata userId receiptData;
             created ← try_catch
                         (documentId ← Mongodb.createReceiptDocument receiptData;
                          mret (inl documentId))
                         (fun e => mret (inr (failure 500
                                     ("Database operation failed: " ++ e))));
             match created with
             | inr resp => mret resp
             | inl documentId =>
                 if String.eqb documentId ""
                 then mret (failure 500 "Failed to create receipt document")
                 else mret (mkResponse 200
                              (VObj [("id", VStr documentId);
                                     ("success", VBool true)]))
             end)
    (fun e => mret (failure 500 ("Failed to save receipt data: " ++ e))).

(** loadReceiptById.js: 'Add document ID to relevant data structures',
    for one of [shareData] and [processedData]. *)
Definition inject_id (k id : string) (responseData : value) : outcome value :=
  part ← get_prop responseData k;
  if truthy part
  then part' ← set_prop part "documentId" (VStr id);
       set_prop responseData k part'
  else mret responseData.

(** loadReceiptById.js: the handler. *)
Definition loadReceiptById (request : Request) : M Response :=
  try_catch
    (if negb (String.eqb (method request) "GET") then mret method_not_allowed
     else
       userId ← verifyAuthToken request;
       if negb (truthy userId) then mret unauthorized
       else
         match url_id (url request) with
         | None => mret (failure 400 "Receipt ID is required")
         | Some id =>
             receiptData ← Mongodb.getReceiptById id;
             if negb (truthy receiptData)
             then mret (failure 404 "Receipt not found")
             else
               let responseData := json_clone receiptData in
               responseData ← lift (inject_id "shareData" id responseData);
               responseData ← lift (inject_id "processedData" id responseData);
               responseData ← lift (set_prop responseData "documentId" (VStr id));
               responseData ← lift (set_prop responseData "success" (VBool true));
               mret (mkResponse 200 responseData)
         end)
    (fun e => mret (failure 500 ("Failed to load receipt: " ++ e))).

(** updateReceiptById.js: 'Ensure processingMetadata.userId is preserved or
    set if doesn't exist'.  The properties of each object literal are
    evaluated in the order they are written. *)
Definition merge_metadata (userId existingReceipt updateData : value)
  : M value :=
  supplied ← lift (get_prop updateData "processingMetadata");
  if negb (truthy supplied)
  then
    existing ← lift (get_prop existingReceipt "processingMetadata");
    let base := spread_props (if truthy existing then existing else VObj []) in
    updatedAt ← new_Date;
    uid ← lift (get_prop supplied "userId");
    trail ← lift (get_prop supplied "updatedBy");
    updatedBy ← (if truthy trail
                 then xs ← lift (spread_elems trail);
                      mret (VArr (xs ++ [userId])%list)
                 else mret (VArr [userId]));
    lift (set_prop updateData "processingMetadata"
            (VObj (set_field "updatedBy" updatedBy
                     (set_field "userId" uid
                        (set_field "updatedAt" updatedAt base)))))
  else
    updatedAt ← new_Date;
    lift (set_prop updateData "processingMetadata"
            (VObj (set_field "updatedBy" (VArr [userId])
                     (set_field "userId" userId
                        (set_field "updatedAt" updatedAt
                           (spread_props supplied)))))).

(** updateReceiptById.js: the handler. *)
Definition updateReceiptById (request : Request) : M Response :=
  try_catch
    (if negb (String.eqb (method request) "PUT") then mret method_not_allowed
     else
       userId ← verifyAuthToken request;
       if negb (truthy userId) then mret unauthorized
       else
         match url_id (url request) with
         | None => mret (failure 400 "Receipt ID is required")
         | Some id =>
             let updateData := body request in
             if negb (truthy updateData)
             then mret (failure 400 "Update data is required")
             else
               existingReceipt ← Mongodb.getReceiptById id;
               if negb (truthy existingReceipt)
               then mret (failure 404 "Receipt not found")
               else
                 updateData ← merge_metadata userId existingReceipt updateData;
                 updated ← try_catch
                             (success ← Mongodb.updateReceiptById id updateData;
                              mret (inl success))
                             (fun e => mret (inr (failure 500
                                         ("Database operation failed: " ++ e))));
                 match updated with
                 | inr resp => mret resp
                 | inl false => mret (failure 500 "Failed to update receipt")
                 | inl true =>
                     mret (mkResponse 200
                             (VObj [("id", VStr id); ("success", VBool true)]))
                 end
         end)
    (fun e => mret (failure 500 ("Failed to update receipt: " ++ e))).

(** processReceipt.js: processReceiptWithGemini(base64Image, mimeType).
    The call to the model and the parsing of its answer are the extraction
    service of the world. *)
Definition processReceiptWithGemini (base64Image mimeType : value) : M value :=
  try_catch
    (record EvGenerateContent;;
     extract ← gets extraction;
     lift (await (extract base64Image mimeType)))
    (fun e => throw e).

(** processReceipt.js, line 162:
    [const { image: base64Image, type = 'image/jpeg' } = request.body];
    the default is taken by [undefined] only. *)
Definition destructure (body : value) : outcome (value * value) :=
  match body with
  | VUndefined =>
      Throw "Cannot destructure property 'image' of 'request.body' as it is undefined."
  | VNull =>
      Throw "Cannot destructure property 'image' of 'request.body' as it is null."
  | _ =>
      base64Image ← get_prop body "image";
      given ← get_prop body "type";
      mret (base64Image,
            match given with
            | VUndefined => VStr "image/jpeg"
            | _ => given
            end)
  end.

(** processReceipt.js: the handler. *)
Definition processReceipt (request : Request) : M Response :=
  try_catch
    (if negb (String.eqb (method request) "POST") then mret method_not_allowed
     else
       userId ← verifyAuthToken request;
       if negb (truthy userId) then mret unauthorized
       else
         '(base64Image, type) ← lift (destructure (body request));
         if negb (truthy base64Image)
         then mret (failure 400 "No image provided")
         else
           result ← processReceiptWithGemini base64Image type;
           result ← lift (set_prop result "userId" userId);
           result ← lift (set_prop result "success" (VBool true));
           mret (mkResponse 200 result))
    (fun e => mret (failure 500
                (if String.eqb e "" then "Unknown error during receipt processing"
                 else e))).

End Functions.

(* ================================================================== *)
(** ** The four endpoints and the vocabulary of the statements         *)
(* ================================================================== *)

(** index.js exports the four handlers. *)
Inductive endpoint : Type := Process | Save | Load | Update.

(** The function each export hands to onRequest. *)
Definition callback (ep : endpoint) : Request -> M Response :=
  match ep with
  | Process => Functions.processReceipt
  | Save => Functions.saveReceipt
  | Load => Functions.loadReceiptById
  | Update => Functions.updateReceiptById
  end.

(** [String.prototype.toUpperCase] on the letters a to z.  Of the other
    code units below 256 only the sharp s becomes letters of the alphabet
    (two of them, SS), so the comparison with 'OPTIONS' below comes out as
    in the language. *)
Definition upper (c : ascii) : ascii :=
  let n := nat_of_ascii c in
  if (97 <=? n)%nat && (n <=? 122)%nat then ascii_of_nat (n - 32) else c.

Fixpoint toUpperCase (s : string) : string :=
  match s with
  | "" => ""
  | String c r => String (upper c) (toUpperCase r)
  end.

(** The request is one the cors layer answers itself. *)
Definition preflight (request : Request) : bool :=
  String.eqb (toUpperCase (method request)) "OPTIONS".

(** What the cors layer answers: 204, and no body. *)
Definition no_content : Response := mkResponse 204 VUndefined.

(** [onRequest({ cors: true, ... }, callback)] of firebase-functions: every
    export is wrapped so.  The cors layer answers a request whose method is
    OPTIONS by itself and does not call the callback; it hands every other
    request on. *)
Definition onRequest (callback : Request -> M Response) (request : Request)
  : M Response :=
  if preflight request then mret no_content else callback request.

(** The four endpoints, as they are exported. *)
Definition handler (ep : endpoint) : Request -> M Response :=
  onRequest (callback ep).

(** The method each handler compares [request.method] with. *)
Definition verb (ep : endpoint) : string :=
  match ep with
  | Process | Save => "POST"
  | Load => "GET"
  | Update => "PUT"
  end.

(** The subject the identity verifier finds for a request, [null] when it
    finds none. *)
Definition subject (request : Request) (w : World) : value :=
  match fst (Auth.verifyAuthToken request w) with
  | Ret v => v
  | _ => VNull
  end.

(** The request carries a valid bearer credential. *)
Definition authenticated (request : Request) (w : World) : bool :=
  truthy (subject request w).

(** This call of connectToDatabase gets a connection. *)
Definition reachable (w : World) : bool :=
  match fst (Mongodb.connectToDatabase w) with
  | Ret _ => true
  | _ => false
  end.

(** Every ping and connect from now on gets through. *)
Definition online (w : World) : Prop :=
  forall n, probes w <= n -> net w n = true.

(** The own property [k] of an object, [undefined] elsewhere. *)
Definition property (k : string) (v : value) : value :=
  match v with
  | VObj fs => field k fs
  | _ => VUndefined
  end.

(** A property of a response body. *)
Definition answer (k : string) (r : Response) : value := property k (json r).

(** [success: true] / [success: false] of a response body. *)
Definition success (r : Response) : value := answer "success" r.


(** A value that is falsy, or that a property can be put on (an object or
    an array): the handlers leave the first alone and write on the
    second. *)
Definition falsy_or_object (v : value) : bool :=
  negb (truthy v)
  || match v with
     | VObj _ | VArr _ => true
     | _ => false
     end.

(** The structural rule of section 3 of the specification, in its words:
    at least one of [originalData], [processedData], [shareData] is
    present, and each of [processedData], [shareData] that is present
    carries an [items] sequence. *)
Definition present (k : string) (data : value) : bool :=
  truthy (property k data).

Definition carries_items (part : value) : bool :=
  isArray (property "items" part).

Definition structurally_valid (data : value) : bool :=
  (present "originalData" data || present "processedData" data
   || present "shareData" data)
  && (negb (present "processedData" data)
      || carries_items (property "processedData" data))
  && (negb (present "shareData" data)
      || carries_items (property "shareData" data)).

(** The document stored under an identifier string, if any. *)
Definition stored (id : string) (w : World) : option fields :=
  match ObjectId.parse id with
  | Some o => receipts w !! o
  | None => None
  end.


(* ================================================================== *)
(** ** A concrete world and concrete requests                          *)
(* ================================================================== *)

Module Sample.

(** An identity provider that knows one token. *)
Definition provider (token : string) : settled :=
  if String.eqb token "alice-token"
  then Fulfilled (VObj [("uid", VStr "alice")])
  else Rejected "Decoding Firebase ID token failed".

(** An empty collection, no cached connection, a network that answers, a
    clock that advances one millisecond per reading. *)
Definition world : World :=
  mkWorld ∅ false (fun _ => true) 0
    (fun n => 1700000000000 + Z.of_nat n)%Z 0
    (fun n => 24912482966938930280208240657 + N.of_nat n)%N 0
    provider (fun _ _ => Rejected "extraction unavailable") (fun _ => None) [].

(** The same with a store that cannot be reached. *)
Definition offline : World :=
  mkWorld ∅ false (fun _ => false) 0
    (fun n => 1700000000000 + Z.of_nat n)%Z 0
    (fun n => 24912482966938930280208240657 + N.of_nat n)%N 0
    provider (fun _ _ => Rejected "extraction unavailable") (fun _ => None) [].

(** The same with a clock that stands still. *)
Definition frozen : World :=
  mkWorld ∅ false (fun _ => true) 0 (fun _ => 1700000000000%Z) 0
    (fun n => 24912482966938930280208240657 + N.of_nat n)%N 0
    provider (fun _ _ => Rejected "extraction unavailable") (fun _ => None) [].

Definition receipt_id : string := "507f1f77bcf86cd799439011".

(** The payload of the example of section 8 of the specification (the
    total in cents). *)
Definition latte : value :=
  VObj [("processedData",
         VObj [("items",
                VArr [VObj [("name", VStr "Latte"); ("quantity", VNum 1);
                            ("total", VNum 450)]]);
               ("meta_data", VObj [("restaurant", VStr "Cafe X")])])].

Definition post (payload : value) : Request :=
  mkRequest "POST" (Some "Bearer alice-token") "/" payload.

Definition get (id : string) : Request :=
  mkRequest "GET" (Some "Bearer alice-token") ("/" ++ id) VUndefined.

Definition put (id : string) (patch : value) : Request :=
  mkRequest "PUT" (Some "Bearer alice-token") ("/" ++ id) patch.

(** The world after the latte receipt has been saved in [w]. *)
Definition saved (w : World) : World :=
  snd (Functions.saveReceipt (post latte) w).

End Sample.

(* ================================================================== *)
(** ** Derived notions used by the statements and their proofs         *)
(* ================================================================== *)

(** The property list of a cloned object. *)
Fixpoint clone_fields (l : fields) : fields :=
  match l with
  | [] => []
  | (k, x) :: r =>
      match x with
      | VUndefined => clone_fields r
      | _ => (k, json_clone x) :: clone_fields r
      end
  end.

(** What verifyAuthToken answers, read off the header and the identity
    provider. *)
Definition verdict (request : Request) (w : World) : value :=
  match authorization request with
  | None => VNull
  | Some h =>
      if negb (truthy (VStr h)) || negb (String.prefix "Bearer " h) then VNull
      else if String.eqb (Auth.bearer h) "" then VNull
      else
        match verifyIdToken w (Auth.bearer h) with
        | Rejected _ => VNull
        | Fulfilled d =>
            if negb (truthy d) then VNull
            else
              match get_prop d "uid" with
              | Ret uid => if negb (truthy uid) then VNull else uid
              | _ => VNull
              end
        end
  end.

(** What a connection attempt leaves alone. *)
Definition same_data (w w' : World) : Prop :=
  receipts w' = receipts w /\ clock w' = clock w /\ ticks w' = ticks w
  /\ pks w' = pks w /\ minted w' = minted w
  /\ verifyIdToken w' = verifyIdToken w /\ extraction w' = extraction w
  /\ refusal w' = refusal w
  /\ net w' = net w /\ probes w <= probes w'.

(** The answer of a read that reaches the store. *)
Definition lookup_document (id : string) (w : World) : value :=
  match ObjectId.parse id with
  | Some o =>
      match receipts w !! o with
      | Some fs => Driver.document o fs
      | None => VNull
      end
  | None => VNull
  end.

(** The [$set] document the adapter builds: the patch, [updatedAt]
    refreshed, [createdAt] restored when the stored one is truthy. *)
Definition update_document (now created updateData : value) : fields :=
  let set0 := set_field "updatedAt" now (spread_props updateData) in
  if truthy created then set_field "createdAt" created set0 else set0.

(** The stored fields after an update that matched [fs]. *)
Definition merged (now : value) (fs : fields) (updateData : value) : fields :=
  Driver.apply_set
    (toBSON_fields
       (remove_field "_id" (update_document now (field "createdAt" fs) updateData)))
    fs.

(** The write of the update goes through: the driver can serialize the
    [$set] document and the server takes the document that results. *)
Definition accepted (w : World) (now : value) (fs : fields) (updateData : value)
  : bool :=
  match bson_error
          (VObj (update_document now (field "createdAt" fs) updateData)) with
  | Some _ => false
  | None =>
      match refusal w (merged now fs updateData) with
      | Some _ => false
      | None => true
      end
  end.

(** The [$set] document is one the driver model applies to document [o]. *)
Definition applicable (o : ObjectId.t) (upd : fields) : bool :=
  forallb Driver.top_level (map fst upd)
  && negb (has_field "" upd)
  && (negb (has_field "_id" upd)
      || match field "_id" upd with
         | VOid o' => (o' =? o)%N
         | _ => false
         end).

(** A field name the driver model takes as a top-level field of the
    document other than its identifier. *)
Definition plain_name (k : string) : bool :=
  Driver.top_level k && negb (String.eqb k "") && negb (String.eqb k "_id").

(** A patch whose own property names are all such names. *)
Definition plain_patch (updateData : value) : bool :=
  forallb plain_name (map fst (spread_props updateData)).

(** The computation [m] keeps the property [Q] of the collection, however
    it ends. *)
Definition keeps (Q : gmap N fields -> Prop) {A} (m : M A) : Prop :=
  forall w r w', Q (receipts w) -> m w = (r, w') -> Q (receipts w').

(** Document [o] is stored and its [createdAt] is [c]. *)
Definition created_at (o : ObjectId.t) (c : value) (coll : gmap N fields) : Prop :=
  exists fs, coll !! o = Some fs /\ field "createdAt" fs = c.

(** Document [o] is stored and has the property [P]. *)
Definition document_has (o : ObjectId.t) (P : fields -> Prop)
  (coll : gmap N fields) : Prop :=
  exists fs, coll !! o = Some fs /\ P fs.



(** The calls a later caller can make: the three operations of the store
    adapter and the four handlers. *)
Inductive call : Type :=
| CreateReceiptDocument (receiptData : value)
| GetReceiptById (id : string)
| UpdateReceiptById (id : string) (updateData : value)
| Handle (ep : endpoint) (request : Request).

(** The world after a call, and after a sequence of calls. *)
Definition perform (c : call) (w : World) : World :=
  match c with
  | CreateReceiptDocument receiptData =>
      snd (Mongodb.createReceiptDocument receiptData w)
  | GetReceiptById id => snd (Mongodb.getReceiptById id w)
  | UpdateReceiptById id updateData =>
      snd (Mongodb.updateReceiptById id updateData w)
  | Handle ep request => snd (handler ep request w)
  end.

Definition run (cs : list call) (w : World) : World :=
  fold_left (fun w c => perform c w) cs w.

(** The document handed to insertOne: the payload with both timestamps. *)
Definition created_document (createdAt updatedAt receiptData : value) : fields :=
  set_field "updatedAt" updatedAt
    (set_field "createdAt" createdAt (spread_props receiptData)).

(** The metadata the update handler writes when the patch brings its own. *)
Definition supplied_metadata (userId now supplied : value) : value :=
  VObj (set_field "updatedBy" (VArr [userId])
          (set_field "userId" userId
             (set_field "updatedAt" now (spread_props supplied)))).

(** The metadata it writes when the patch's [processingMetadata] is falsy
    but not absent: [userId] is read from that falsy value. *)
Definition inherited_metadata (userId now existing : value) : value :=
  VObj (set_field "updatedBy" (VArr [userId])
          (set_field "userId" VUndefined
             (set_field "updatedAt" now
                (spread_props (if truthy existing then existing else VObj []))))).

(** The metadata the save handler writes when the payload has none. *)
Definition fresh_metadata (userId processedAt : value) : value :=
  VObj [("processedAt", processedAt); ("source", VStr "mobile_app");
        ("userId", userId)].

(** The driver can serialize the document and the server takes it. *)
Definition storable (w : World) (doc : fields) : bool :=
  match bson_error (VObj doc) with
  | Some _ => false
  | None =>
      match refusal w (toBSON_fields (remove_field "_id" doc)) with
      | Some _ => false
      | None => true
      end
  end.

(** The [processingMetadata] the save handler stores for a request: the
    payload's own with [userId] put on it, or a new one. *)
Definition stamped_metadata (request : Request) (w : World) : value :=
  let supplied := property "processingMetadata" (body request) in
  if truthy supplied
  then match set_prop supplied "userId" (verdict request w) with
       | Ret stamped => stamped
       | _ => supplied
       end
  else fresh_metadata (verdict request w) (VDate (clock w (ticks w))).

(** The document the save handler hands to insertOne for a request: the
    payload with that metadata and both timestamps.  The clock has been
    read once more when the metadata is new. *)
Definition saved_document (request : Request) (w : World) : fields :=
  let t := if truthy (property "processingMetadata" (body request))
           then ticks w else S (ticks w) in
  created_document (VDate (clock w t)) (VDate (clock w (S t)))
    (VObj (set_field "processingMetadata" (stamped_metadata request w)
             (spread_props (body request)))).

(** The key the key factory gives out next. *)
Definition next_key (w : World) : ObjectId.t :=
  (pks w (minted w) mod ObjectId.modulus)%N.

(** The answer of the save handler to a document id. *)
Definition saved_answer (documentId : string) : Response :=
  mkResponse 200 (VObj [("id", VStr documentId); ("success", VBool true)]).

(** loadReceiptById.js, lines 79-98: the body of the answer built from the
    document that was read. *)
Definition load_response (id : string) (receiptData : value) : outcome value :=
  r ← Functions.inject_id "shareData" id (json_clone receiptData);
  r ← Functions.inject_id "processedData" id r;
  r ← set_prop r "documentId" (VStr id);
  set_prop r "success" (VBool true).

(** The properties of a cloned document: the identifier as a string, then
    the clones of the stored properties. *)
Definition cloned (o : ObjectId.t) (fs : fields) : fields :=
  ("_id", VStr (ObjectId.toString o)) :: clone_fields fs.


(** ** Notions of the further properties                             *)

(** [s.includes(sep)] *)
Fixpoint occurs (sep s : string) : bool :=
  String.prefix sep s
  || match s with
     | "" => false
     | String _ r => occurs sep r
     end.

(** *** The client: app/services/auth.ts *)

Module Client.

(** [user.getIdToken()], once settled. *)
Inductive id_token : Type :=
| Issued (token : string)
| Denied (msg : string).

(** A Firebase user, as auth.ts uses one. *)
Record User : Type := mkUser {
  uid : string;
  getIdToken : id_token
}.

(** auth.ts: getAuthToken(), for the [auth.currentUser] given; [null] is
    [None]. *)
Definition getAuthToken (currentUser : option User) : option string :=
  match currentUser with
  | None => None
  | Some user =>
      match getIdToken user with
      | Issued token => Some token
      | Denied _ => None
      end
  end.

(** auth.ts: addAuthHeader(options); [options] defaults to [{}]. *)
Definition addAuthHeader (currentUser : option User) (given : value)
  : outcome value :=
  let options := match given with
                 | VUndefined => VObj []
                 | _ => given
                 end in
  match getAuthToken currentUser with
  | None => mret options
  | Some token =>
      if negb (truthy (VStr token)) then mret options
      else
        headers ← get_prop options "headers";
        mret (VObj (set_field "headers"
                      (VObj (set_field "Authorization"
                               (VStr ("Bearer " ++ token))
                               (spread_props
                                  (if truthy headers then headers
                                   else VObj []))))
                      (spread_props options)))
  end.

(** The header [name] of the options handed to fetch. *)
Definition header (name : string) (init : value) : option string :=
  match property name (property "headers" init) with
  | VStr h => Some h
  | _ => None
  end.

End Client.

(** The statuses the handlers answer with, other than 200. *)
Definition refused (r : Response) : Prop :=
  In (status r) [400; 401; 404; 405; 500] /\ success r = VBool false.

(** The collection [c] is [c0], or [c0] with the document stored under the
    identifier [id] replaced. *)
Definition rewrites (id : string) (c0 c : gmap N fields) : Prop :=
  c = c0
  \/ exists o fs fs',
       ObjectId.parse id = Some o /\ c0 !! o = Some fs /\ c = <[o := fs']> c0.

(** The MIME type handed to the extraction: [type = 'image/jpeg'] of the
    destructuring, a default that only [undefined] takes. *)
Definition mime_type (body : value) : value :=
  let given := property "type" body in
  match given with
  | VUndefined => VStr "image/jpeg"
  | _ => given
  end.

(** The answer of the process handler to an exception:
    [error.message || 'Unknown error during receipt processing']. *)
Definition process_failure (e : string) : Response :=
  failure 500
    (if String.eqb e "" then "Unknown error during receipt processing" else e).

(** A world whose extraction service reads every image as a receipt without
    items that names a user of its own. *)
Definition extracting : World :=
  mkWorld ∅ false (fun _ => true) 0
    (fun n => 1700000000000 + Z.of_nat n)%Z 0
    (fun n => 24912482966938930280208240657 + N.of_nat n)%N 0
    Sample.provider
    (fun _ _ => Fulfilled (VObj [("items", VArr []); ("userId", VStr "model")]))
    (fun _ => None) [].

(** A truthy value on which a property cannot be created, and which the
    JSON clone of the load gives back as it is. *)
Definition truthy_primitive (v : value) : bool :=
  truthy v
  && match v with
     | VBool _ | VStr _ => true
     | VNum x => is_finite x
     | _ => false
     end.

(** The start of the TypeError of an assignment of [documentId] to a
    primitive. *)
Definition cannot_create : string := "Cannot create property 'documentId' on ".

(* ================================================================== *)
(** * Properties                                                       *)
(* ================================================================== *)

Local Open Scope list_scope.

(** ** The model on concrete inputs                                    *)

Example toISOString_epoch : toISOString 0 = "1970-01-01T00:00:00.000Z".
Proof. reflexivity. Qed.

Example toISOString_2023 : toISOString 1700000000000 = "2023-11-14T22:13:20.000Z".
Proof. reflexivity. Qed.

Example toISOString_before : toISOString (-1) = "1969-12-31T23:59:59.999Z".
Proof. reflexivity. Qed.

Example toISOString_leap : toISOString 951782400000 = "2000-02-29T00:00:00.000Z".
Proof. reflexivity. Qed.

Example Number_toString_examples :
  Number_toString 450 = "450"
  /\ Number_toString (Decimal 45 (-1)) = "4.5"
  /\ Number_toString (Decimal (-125) (-2)) = "-1.25"
  /\ Number_toString (Decimal 4500 (-1)) = "450"
  /\ Number_toString (Decimal 1 (-6)) = "0.000001"
  /\ Number_toString (Decimal 1 (-7)) = "1e-7"
  /\ Number_toString (Decimal 1 20) = "100000000000000000000"
  /\ Number_toString (Decimal 1 21) = "1e+21"
  /\ Number_toString (Decimal 12 20) = "1.2e+21"
  /\ Number_toString 0 = "0"
  /\ Number_toString (Infinity true) = "-Infinity".
Proof. repeat split; reflexivity. Qed.

Example parse_hex :
  ObjectId.parse "507F1f77bcf86cd799439011" = Some 24912482966938930280208240657%N
  /\ ObjectId.toString 24912482966938930280208240657%N = "507f1f77bcf86cd799439011".
Proof. split; vm_compute; reflexivity. Qed.

Example split_bearer :
  split "Bearer " "Bearer abc" = [""; "abc"]
  /\ split "Bearer " "Bearer " = [""; ""]
  /\ split "Bearer " "Bearer aBearer b" = [""; "a"; "b"]
  /\ split "/" "/api/507f/" = [""; "api"; "507f"; ""].
Proof. repeat split; reflexivity. Qed.

Example url_id_examples :
  url_id "/507f1f77bcf86cd799439011" = Some "507f1f77bcf86cd799439011"
  /\ url_id "/" = None /\ url_id "" = None /\ url_id "/a/b/" = Some "b".
Proof. repeat split; reflexivity. Qed.


(** ** ObjectId: printing and parsing                                  *)

Lemma hex_value_digit (d : N) :
  (d < 16)%N -> ObjectId.hex_value (ObjectId.hex_digit d) = Some d.
Proof.
  intros Hd. destruct d as [|p]; [reflexivity|].
  do 4 (destruct p as [p|p|]; try reflexivity; try lia).
Qed.

Lemma hex_read_app (s1 s2 : string) : forall acc,
  ObjectId.hex_read acc (s1 ++ s2)%string
  = match ObjectId.hex_read acc s1 with
    | Some a => ObjectId.hex_read a s2
    | None => None
    end.
Proof.
  induction s1 as [|c s1 IH]; intros acc; simpl; [reflexivity|].
  destruct (ObjectId.hex_value c); [apply IH | reflexivity].
Qed.

Lemma hex_read_of (k : nat) : forall n acc,
  ObjectId.hex_read acc (ObjectId.hex_of k n)
  = Some (acc * 16 ^ N.of_nat k + n mod 16 ^ N.of_nat k)%N.
Proof.
  induction k as [|k IH]; intros n acc.
  - simpl. rewrite N.mod_1_r. f_equal. lia.
  - cbn [ObjectId.hex_of]. rewrite hex_read_app, IH. cbn [ObjectId.hex_read].
    rewrite hex_value_digit by (apply N.mod_lt; lia).
    f_equal. rewrite Nat2N.inj_succ, N.pow_succ_r'.
    rewrite (N.Div0.mod_mul_r n 16 (16 ^ N.of_nat k)). lia.
Qed.

Lemma string_length_app (a b : string) :
  String.length (a ++ b)%string = String.length a + String.length b.
Proof. induction a as [|c a IH]; simpl; [reflexivity | rewrite IH; reflexivity]. Qed.

Lemma length_hex_of (k : nat) : forall n,
  String.length (ObjectId.hex_of k n) = k.
Proof.
  induction k as [|k IH]; intros n; [reflexivity|].
  cbn [ObjectId.hex_of]. rewrite string_length_app, IH. simpl. lia.
Qed.

Lemma parse_toString (o : ObjectId.t) :
  ObjectId.parse (ObjectId.toString o) = Some (o mod ObjectId.modulus)%N.
Proof.
  unfold ObjectId.parse, ObjectId.toString.
  rewrite length_hex_of, Nat.eqb_refl, hex_read_of.
  f_equal. change (16 ^ N.of_nat 24)%N with ObjectId.modulus.
  rewrite N.Div0.mod_mod. lia.
Qed.

Lemma toString_not_empty (o : ObjectId.t) :
  String.eqb (ObjectId.toString o) "" = false.
Proof.
  apply String.eqb_neq. intros H.
  apply (f_equal String.length) in H.
  unfold ObjectId.toString in H. rewrite length_hex_of in H. discriminate.
Qed.

Lemma parse_empty : ObjectId.parse "" = None.
Proof. reflexivity. Qed.

(** ** Objects as property lists                                       *)

Lemma lookup_field_app (k : string) (a b : fields) :
  lookup_field k (a ++ b)
  = match lookup_field k b with
    | Some x => Some x
    | None => lookup_field k a
    end.
Proof.
  induction a as [|[k' v] a IH]; simpl.
  - destruct (lookup_field k b); reflexivity.
  - rewrite IH. destruct (lookup_field k b); reflexivity.
Qed.

Lemma has_field_lookup (k : string) (fs : fields) :
  has_field k fs = false <-> lookup_field k fs = None.
Proof.
  unfold has_field. induction fs as [|[k' v] fs IH]; simpl; [tauto|].
  destruct (String.eqb k' k); simpl.
  - split; [discriminate|]. destruct (lookup_field k fs); discriminate.
  - rewrite IH. destruct (lookup_field k fs); split; congruence.
Qed.

Lemma has_field_true (k : string) (fs : fields) :
  has_field k fs = true <-> exists v, lookup_field k fs = Some v.
Proof.
  destruct (has_field k fs) eqn:E.
  - split; [intros _|reflexivity].
    destruct (lookup_field k fs) as [v|] eqn:L; [eauto|].
    apply has_field_lookup in L. congruence.
  - apply has_field_lookup in E. rewrite E.
    split; [discriminate | intros [v Hv]; discriminate].
Qed.

Lemma lookup_field_overwrite (k : string) (v : value) (fs : fields) :
  lookup_field k
    (map (fun p => if String.eqb (fst p) k then (fst p, v) else p) fs)
  = if has_field k fs then Some v else None.
Proof.
  unfold has_field. induction fs as [|[k' x] fs IH]; simpl; [reflexivity|].
  rewrite IH. destruct (String.eqb k' k) eqn:K; simpl.
  - rewrite K. destruct (existsb _ fs); reflexivity.
  - rewrite K. destruct (existsb _ fs); reflexivity.
Qed.

Lemma lookup_field_set_eq (k : string) (v : value) (fs : fields) :
  lookup_field k (set_field k v fs) = Some v.
Proof.
  unfold set_field. destruct (has_field k fs) eqn:E.
  - rewrite lookup_field_overwrite, E. reflexivity.
  - rewrite lookup_field_app. simpl. rewrite String.eqb_refl. reflexivity.
Qed.

Lemma lookup_field_set_ne (k k' : string) (v : value) (fs : fields) :
  k <> k' -> lookup_field k' (set_field k v fs) = lookup_field k' fs.
Proof.
  intros Hne. unfold set_field. destruct (has_field k fs).
  - induction fs as [|[k0 x] fs IH]; simpl; [reflexivity|].
    rewrite IH. destruct (String.eqb k0 k) eqn:K; simpl; [|reflexivity].
    apply String.eqb_eq in K. subst k0.
    destruct (String.eqb k k') eqn:K'; [|reflexivity].
    apply String.eqb_eq in K'. contradiction.
  - rewrite lookup_field_app. simpl.
    destruct (String.eqb k k') eqn:K'; [|reflexivity].
    apply String.eqb_eq in K'. contradiction.
Qed.

Lemma field_set_eq (k : string) (v : value) (fs : fields) :
  field k (set_field k v fs) = v.
Proof. unfold field. rewrite lookup_field_set_eq. reflexivity. Qed.

Lemma field_set_ne (k k' : string) (v : value) (fs : fields) :
  k <> k' -> field k' (set_field k v fs) = field k' fs.
Proof. intros. unfold field. rewrite lookup_field_set_ne; auto. Qed.

Lemma has_field_set (k k' : string) (v : value) (fs : fields) :
  has_field k' (set_field k v fs) = String.eqb k k' || has_field k' fs.
Proof.
  destruct (String.eqb_spec k k') as [->|Hne].
  - simpl. apply has_field_true. eexists. apply lookup_field_set_eq.
  - simpl. destruct (has_field k' fs) eqn:E.
    + apply has_field_true in E as [x Hx]. apply has_field_true.
      exists x. rewrite lookup_field_set_ne; auto.
    + apply has_field_lookup in E. apply has_field_lookup.
      rewrite lookup_field_set_ne; auto.
Qed.

Lemma lookup_field_remove_eq (k : string) (fs : fields) :
  lookup_field k (remove_field k fs) = None.
Proof.
  unfold remove_field. induction fs as [|[k' v] fs IH]; [reflexivity|].
  simpl. destruct (String.eqb k' k) eqn:K; simpl; [exact IH|].
  rewrite IH, K. reflexivity.
Qed.

Lemma lookup_field_remove_ne (k k' : string) (fs : fields) :
  k <> k' -> lookup_field k' (remove_field k fs) = lookup_field k' fs.
Proof.
  intros Hne. unfold remove_field.
  induction fs as [|[k0 v] fs IH]; [reflexivity|]. simpl.
  destruct (String.eqb k0 k) eqn:K; simpl.
  - rewrite IH. apply String.eqb_eq in K. subst k0.
    destruct (lookup_field k' fs); [reflexivity|].
    destruct (String.eqb k k') eqn:K'; [|reflexivity].
    apply String.eqb_eq in K'. contradiction.
  - rewrite IH. reflexivity.
Qed.

Lemma lookup_field_toBSON (k : string) (fs : fields) :
  lookup_field k (toBSON_fields fs) = toBSON <$> lookup_field k fs.
Proof.
  induction fs as [|[k' v] fs IH]; [reflexivity|]. simpl.
  rewrite IH. destruct (lookup_field k fs); simpl; [reflexivity|].
  destruct (String.eqb k' k); reflexivity.
Qed.

Lemma lookup_apply_set (k : string) (upd : fields) : forall doc,
  lookup_field k (Driver.apply_set upd doc)
  = match lookup_field k upd with
    | Some x => Some x
    | None => lookup_field k doc
    end.
Proof.
  unfold Driver.apply_set.
  induction upd as [|[k' v] upd IH]; intros doc; simpl; [reflexivity|].
  rewrite IH. destruct (lookup_field k upd); [reflexivity|].
  destruct (String.eqb_spec k' k) as [->|Hne].
  - apply lookup_field_set_eq.
  - apply lookup_field_set_ne. assumption.
Qed.

(** ** Induction on values                                             *)

Section value_induction.
Variable P : value -> Prop.
Hypothesis Hundefined : P VUndefined.
Hypothesis Hnull : P VNull.
Hypothesis Hbool : forall b, P (VBool b).
Hypothesis Hnum : forall n, P (VNum n).
Hypothesis Hstr : forall s, P (VStr s).
Hypothesis Hdate : forall ms, P (VDate ms).
Hypothesis Hoid : forall o, P (VOid o).
Hypothesis Harr : forall xs, Forall P xs -> P (VArr xs).
Hypothesis Hobj : forall fs, Forall (fun p => P (snd p)) fs -> P (VObj fs).

End value_induction.

Lemma json_clone_obj (fs : fields) :
  json_clone (VObj fs) = VObj (clone_fields fs).
Proof. reflexivity. Qed.

Lemma toBSON_obj (fs : fields) : toBSON (VObj fs) = VObj (toBSON_fields fs).
Proof.
  simpl. f_equal. induction fs as [|[k x] fs IH]; [reflexivity|].
  simpl. rewrite IH. reflexivity.
Qed.





Lemma truthy_toBSON (v : value) : truthy (toBSON v) = truthy v.
Proof. destruct v; reflexivity. Qed.






(** ** Running the monad                                               *)

Lemma bind_ret {A B} (m : M A) (f : A -> M B) (w w' : World) (a : A) :
  m w = (Ret a, w') -> (m ≫= f) w = f a w'.
Proof. intros H. unfold mbind, M_bind. rewrite H. reflexivity. Qed.

Lemma bind_throw {A B} (m : M A) (f : A -> M B) (w w' : World) (e : string) :
  m w = (Throw e, w') -> (m ≫= f) w = (Throw e, w').
Proof. intros H. unfold mbind, M_bind. rewrite H. reflexivity. Qed.

Lemma bind_beyond {A B} (m : M A) (f : A -> M B) (w w' : World) :
  m w = (Beyond, w') -> (m ≫= f) w = (Beyond, w').
Proof. intros H. unfold mbind, M_bind. rewrite H. reflexivity. Qed.

Lemma try_ret {A} (m : M A) (h : string -> M A) (w w' : World) (a : A) :
  m w = (Ret a, w') -> try_catch m h w = (Ret a, w').
Proof. intros H. unfold try_catch. rewrite H. reflexivity. Qed.

Lemma try_throw {A} (m : M A) (h : string -> M A) (w w' : World) (e : string) :
  m w = (Throw e, w') -> try_catch m h w = h e w'.
Proof. intros H. unfold try_catch. rewrite H. reflexivity. Qed.

Lemma try_beyond {A} (m : M A) (h : string -> M A) (w w' : World) :
  m w = (Beyond, w') -> try_catch m h w = (Beyond, w').
Proof. intros H. unfold try_catch. rewrite H. reflexivity. Qed.

(** ** The identity verifier                                           *)

Lemma verifyAuthToken_run (request : Request) (w : World) :
  Auth.verifyAuthToken request w = (Ret (verdict request w), w).
Proof.
  unfold Auth.verifyAuthToken, verdict, try_catch.
  destruct (authorization request) as [h|]; [|reflexivity].
  destruct (negb (truthy (VStr h)) || negb (String.prefix "Bearer " h));
    [reflexivity|].
  destruct (String.eqb (Auth.bearer h) ""); [reflexivity|].
  unfold mbind, M_bind, gets, lift. simpl.
  destruct (verifyIdToken w (Auth.bearer h)) as [d|e]; simpl; [|reflexivity].
  destruct (truthy d) eqn:Td; simpl; [|reflexivity].
  destruct d; try discriminate; simpl; try reflexivity.
  destruct (truthy (field "uid" fs)); reflexivity.
Qed.

Lemma subject_verdict (request : Request) (w : World) :
  subject request w = verdict request w.
Proof. unfold subject. rewrite verifyAuthToken_run. reflexivity. Qed.

(** C8. verifyAuthToken never throws to its caller and leaves the world as
    it was.  It answers [null] when the Authorization header is absent, does
    not start with "Bearer ", carries an empty token, or when the identity
    provider rejects the token (whatever the error) or gives a token without
    a [uid]; when the provider accepts the token it answers the [uid] of the
    decoded token. *)
Theorem verifyAuthToken_never_throws (request : Request) (w : World) :
  exists v : value,
    Auth.verifyAuthToken request w = (Ret v, w)
    /\ (authorization request = None -> v = VNull)
    /\ (forall h, authorization request = Some h ->
          String.prefix "Bearer " h = false -> v = VNull)
    /\ (forall h, authorization request = Some h ->
          Auth.bearer h = "" -> v = VNull)
    /\ (forall h e, authorization request = Some h ->
          verifyIdToken w (Auth.bearer h) = Rejected e -> v = VNull)
    /\ (forall h d, authorization request = Some h ->
          verifyIdToken w (Auth.bearer h) = Fulfilled d ->
          truthy d = false \/ (exists uid, get_prop d "uid" = Ret uid
                                           /\ truthy uid = false) ->
          v = VNull)
    /\ (forall h d uid, authorization request = Some h ->
          String.prefix "Bearer " h = true ->
          Auth.bearer h <> "" ->
          verifyIdToken w (Auth.bearer h) = Fulfilled d ->
          get_prop d "uid" = Ret uid ->
          truthy uid = true ->
          v = uid).
Proof.
  exists (verdict request w). split; [apply verifyAuthToken_run|].
  unfold verdict.
  repeat split.
  - intros ->. reflexivity.
  - intros h -> ->. rewrite orb_true_r. reflexivity.
  - intros h -> ->. simpl. destruct (_ || _); reflexivity.
  - intros h e -> ->. destruct (_ || _); [reflexivity|].
    destruct (String.eqb _ _); reflexivity.
  - intros h d -> -> Hd. destruct (_ || _); [reflexivity|].
    destruct (String.eqb _ _); [reflexivity|].
    destruct Hd as [->|(uid & -> & ->)]; [reflexivity|].
    destruct (negb (truthy d)); reflexivity.
  - intros h d uid -> Hp Hb -> Hu Tu.
    assert (Th : truthy (VStr h) = true).
    { destruct h; [discriminate Hp | reflexivity]. }
    rewrite Th, Hp. simpl.
    apply String.eqb_neq in Hb. rewrite Hb.
    assert (Td : truthy d = true).
    { destruct d; simpl in Hu; try reflexivity; try discriminate;
        inversion Hu; subst; discriminate. }
    rewrite Td, Hu, Tu. reflexivity.
Qed.

(** ** Requests without a valid credential                             *)

Lemma authenticated_verdict (request : Request) (w : World) :
  authenticated request w = truthy (verdict request w).
Proof. unfold authenticated. rewrite subject_verdict. reflexivity. Qed.

(** Every handler starts with the method check and the verifier. *)
Ltac enter_handler :=
  unfold try_catch;
  match goal with
  | |- context [String.eqb (method ?r) ?m] =>
      destruct (String.eqb (method r) m) eqn:?; simpl; [|reflexivity]
  end;
  erewrite bind_ret by apply verifyAuthToken_run.

(** C9, as the code has it.  A request whose bearer credential is absent
    or invalid leaves the world exactly as it was (no store operation, no
    extraction call, the collection unchanged) at each of the four
    endpoints.  When its method is OPTIONS the cors layer of onRequest
    answers it, 204 with no body, and the handler does not run.  Otherwise
    it is answered 401 with [success: false] when it uses the endpoint's
    method, and 405 with [success: false] with another method, the method
    being checked before the credential. *)
Theorem unauthenticated_request_is_refused
  (ep : endpoint) (request : Request) (w : World) :
  authenticated request w = false ->
  handler ep request w
  = (Ret (if preflight request then no_content
          else if String.eqb (method request) (verb ep)
          then Functions.unauthorized
          else Functions.method_not_allowed), w)
  /\ status no_content = 204
  /\ json no_content = VUndefined
  /\ status Functions.unauthorized = 401
  /\ json Functions.unauthorized
     = VObj [("error", VStr "Unauthorized: Authentication required");
             ("success", VBool false)]
  /\ status Functions.method_not_allowed = 405
  /\ json Functions.method_not_allowed
     = VObj [("error", VStr "Method not allowed"); ("success", VBool false)].
Proof.
  intros Hauth. rewrite authenticated_verdict in Hauth.
  split; [|repeat split; reflexivity].
  unfold handler, onRequest.
  destruct (preflight request); [reflexivity|].
  destruct ep; simpl;
    [unfold Functions.processReceipt | unfold Functions.saveReceipt
    | unfold Functions.loadReceiptById | unfold Functions.updateReceiptById];
    enter_handler; rewrite Hauth; reflexivity.
Qed.

(** ** connectToDatabase                                               *)

Lemma connect_cases (w : World) :
  exists w', same_data w w'
    /\ (Mongodb.connectToDatabase w = (Ret tt, w')
        \/ exists e, Mongodb.connectToDatabase w = (Throw e, w')).
Proof.
  unfold Mongodb.connectToDatabase, try_catch, Driver.ping, Driver.connect,
    Driver.close, probe, record, modify, gets, throw, same_data,
    mbind, M_bind, mret, M_ret.
  simpl.
  destruct (cached w) eqn:C; simpl;
    destruct (net w (probes w)); simpl; rewrite ?C; simpl;
    try (eexists; split; [|left; reflexivity]; simpl; repeat split; lia);
    try (eexists; split; [|right; eexists; reflexivity];
         simpl; repeat split; lia).
  destruct (net w (S (probes w))); simpl.
  - eexists. split; [|left; reflexivity]. simpl. repeat split; lia.
  - eexists. split; [|right; eexists; reflexivity]. simpl. repeat split; lia.
Qed.

Lemma reachable_connects (w : World) :
  reachable w = true ->
  exists w', Mongodb.connectToDatabase w = (Ret tt, w') /\ same_data w w'.
Proof.
  unfold reachable. intros H.
  destruct (connect_cases w) as (w' & Hs & [E|[e E]]); rewrite E in H.
  - eauto.
  - discriminate.
Qed.

Lemma unreachable_throws (w : World) :
  reachable w = false ->
  exists e w', Mongodb.connectToDatabase w = (Throw e, w') /\ same_data w w'.
Proof.
  unfold reachable. intros H.
  destruct (connect_cases w) as (w' & Hs & [E|[e E]]); rewrite E in H.
  - discriminate.
  - eauto.
Qed.

Lemma online_reachable (w : World) : online w -> reachable w = true.
Proof.
  intros Hon. unfold reachable, Mongodb.connectToDatabase, try_catch,
    Driver.ping, Driver.connect, Driver.close, probe, record, modify, gets,
    throw, mbind, M_bind, mret, M_ret.
  pose proof (Hon (probes w) (le_n _)) as Hup.
  simpl. destruct (cached w) eqn:C; simpl; rewrite Hup; reflexivity.
Qed.

Lemma online_same_data (w w' : World) :
  online w -> same_data w w' -> online w'.
Proof.
  intros Hon (_ & _ & _ & _ & _ & _ & _ & _ & Hnet & Hp) n Hn.
  rewrite Hnet. apply Hon. lia.
Qed.

(** ** getReceiptById                                                  *)

Lemma getReceiptById_empty (w : World) :
  Mongodb.getReceiptById "" w = (Throw "Invalid receipt ID", w).
Proof. reflexivity. Qed.

Lemma getReceiptById_unreachable (id : string) (w : World) :
  id <> "" -> reachable w = false ->
  exists e w', Mongodb.getReceiptById id w = (Throw e, w') /\ same_data w w'.
Proof.
  intros Hid Hr. apply String.eqb_neq in Hid.
  destruct (unreachable_throws w Hr) as (e & w' & E & Hs).
  exists e, w'. split; [|exact Hs].
  unfold Mongodb.getReceiptById. rewrite Hid.
  erewrite try_throw; [reflexivity|].
  erewrite bind_throw by exact E. reflexivity.
Qed.

Lemma getReceiptById_reachable (id : string) (w : World) :
  id <> "" -> reachable w = true ->
  exists w', Mongodb.getReceiptById id w = (Ret (lookup_document id w), w')
             /\ same_data w w'.
Proof.
  intros Hid Hr. apply String.eqb_neq in Hid.
  destruct (reachable_connects w Hr) as (w1 & E & Hs).
  unfold Mongodb.getReceiptById, lookup_document. rewrite Hid.
  destruct Hs as (Hrec & Hs).
  destruct (ObjectId.parse id) as [o|].
  - eexists. split.
    + erewrite try_ret; [reflexivity|].
      erewrite bind_ret by exact E.
      unfold Driver.findOne, record, modify, gets, mbind, M_bind, mret, M_ret.
      simpl. rewrite Hrec.
      destruct (receipts w !! o); reflexivity.
    + simpl. destruct (receipts w !! o); simpl; split; assumption.
  - exists w1. split; [|split; assumption].
    erewrite try_ret; [reflexivity|].
    erewrite bind_ret by exact E. reflexivity.
Qed.

Lemma getReceiptById_frame (id : string) (w w' : World) (r : outcome value) :
  Mongodb.getReceiptById id w = (r, w') -> same_data w w'.
Proof.
  intros H. destruct (String.eqb_spec id "") as [->|Hid].
  - rewrite getReceiptById_empty in H. inversion H; subst.
    unfold same_data. repeat split; lia.
  - destruct (reachable w) eqn:Hr.
    + destruct (getReceiptById_reachable id w Hid Hr) as (w1 & E & Hs).
      rewrite E in H. inversion H; subst. exact Hs.
    + destruct (getReceiptById_unreachable id w Hid Hr) as (e & w1 & E & Hs).
      rewrite E in H. inversion H; subst. exact Hs.
Qed.

(** C7 fails on the empty identifier: it cannot be parsed, and the adapter
    throws instead of answering "not found". *)
Lemma getReceiptById_throws_on_empty_id :
  ObjectId.parse "" = None
  /\ Mongodb.getReceiptById "" Sample.world
     = (Throw "Invalid receipt ID", Sample.world).
Proof. split; reflexivity. Qed.

(** C7, as the code has it.  For an identifier that is not empty and a
    store that can be reached, getReceiptById answers [null] (no exception)
    when the identifier does not parse or no document matches, and the full
    document otherwise, and writes nothing.  The empty identifier is
    rejected with the exception 'Invalid receipt ID', and a store that
    cannot be reached with a connection error; both are rethrown. *)
Theorem getReceiptById_not_found_is_null (id : string) (w : World) :
  (id = "" -> Mongodb.getReceiptById id w = (Throw "Invalid receipt ID", w))
  /\ (id <> "" -> reachable w = false ->
      exists e w', Mongodb.getReceiptById id w = (Throw e, w')
                   /\ receipts w' = receipts w)
  /\ (id <> "" -> reachable w = true ->
      exists v w',
        Mongodb.getReceiptById id w = (Ret v, w')
        /\ receipts w' = receipts w
        /\ (ObjectId.parse id = None -> v = VNull)
        /\ (forall o, ObjectId.parse id = Some o ->
              receipts w !! o = None -> v = VNull)
        /\ (forall o fs, ObjectId.parse id = Some o ->
              receipts w !! o = Some fs -> v = Driver.document o fs)).
Proof.
  split; [|split].
  - intros ->. apply getReceiptById_empty.
  - intros Hid Hr.
    destruct (getReceiptById_unreachable id w Hid Hr) as (e & w' & E & Hs & _).
    eauto.
  - intros Hid Hr.
    destruct (getReceiptById_reachable id w Hid Hr) as (w' & E & Hs & _).
    exists (lookup_document id w), w'. split; [exact E|]. split; [exact Hs|].
    unfold lookup_document. repeat split.
    + intros ->. reflexivity.
    + intros o -> ->. reflexivity.
    + intros o fs -> ->. reflexivity.
Qed.

Lemma getReceiptById_not_found_is_null_witness :
  exists v w',
    Mongodb.getReceiptById "not-an-object-id" Sample.world = (Ret v, w')
    /\ receipts w' = receipts Sample.world
    /\ (ObjectId.parse "not-an-object-id" = None -> v = VNull)
    /\ (forall o, ObjectId.parse "not-an-object-id" = Some o ->
          receipts Sample.world !! o = None -> v = VNull)
    /\ (forall o fs, ObjectId.parse "not-an-object-id" = Some o ->
          receipts Sample.world !! o = Some fs -> v = Driver.document o fs).
Proof.
  apply (getReceiptById_not_found_is_null "not-an-object-id" Sample.world).
  - discriminate.
  - reflexivity.
Defined.

(** ** updateReceiptById of lib/mongodb.js                             *)

Lemma remove_field_absent (k : string) (fs : fields) :
  has_field k fs = false -> remove_field k fs = fs.
Proof.
  unfold has_field, remove_field.
  induction fs as [|[k' v] fs IH]; [reflexivity|]. simpl.
  destruct (String.eqb k' k); simpl; [discriminate|].
  intros H. rewrite IH by assumption. reflexivity.
Qed.

Lemma serialize_run (doc : fields) (w : World) :
  Driver.serialize doc w
  = match bson_error (VObj doc) with
    | Some e => (Throw e, w)
    | None => (Ret (toBSON_fields doc), w)
    end.
Proof. unfold Driver.serialize. destruct (bson_error (VObj doc)); reflexivity. Qed.

Lemma replace_run (o : ObjectId.t) (fs : fields) (w : World) :
  Driver.replace o fs w
  = match refusal w fs with
    | Some e => (Throw e, w)
    | None => (Ret 1, with_receipts (<[o := fs]> (receipts w)) w)
    end.
Proof.
  unfold Driver.replace, Driver.validate, Driver.write, modify, gets, throw,
    mbind, M_bind, mret, M_ret. simpl.
  destruct (refusal w fs); reflexivity.
Qed.

Lemma insert_at_run (o : ObjectId.t) (doc : fields) (w : World) :
  Driver.insert_at o doc w
  = match bson_error (VObj doc) with
    | Some e => (Throw e, w)
    | None =>
        let w1 := with_journal (EvInsertOne o :: journal w) w in
        let stored := toBSON_fields (remove_field "_id" doc) in
        match receipts w !! o with
        | Some _ =>
            (Throw "E11000 duplicate key error collection: receipts", w1)
        | None =>
            match refusal w stored with
            | Some e => (Throw e, w1)
            | None =>
                (Ret o, with_receipts (<[o := stored]> (receipts w)) w1)
            end
        end
    end.
Proof.
  unfold Driver.insert_at. unfold mbind at 1, M_bind at 1.
  rewrite serialize_run.
  destruct (bson_error (VObj doc)); [reflexivity|].
  unfold Driver.validate, Driver.write, record, modify, gets, throw,
    mbind, M_bind, mret, M_ret. simpl.
  destruct (receipts w !! o); [reflexivity|].
  change (refusal (with_journal (EvInsertOne o :: journal w) w))
    with (refusal w).
  destruct (refusal w _); reflexivity.
Qed.

Lemma updateOne_run (o : ObjectId.t) (upd : fields) (w : World) :
  Driver.updateOne o upd w
  = match bson_error (VObj upd) with
    | Some e => (Throw e, w)
    | None =>
        let w1 := with_journal (EvUpdateOne o :: journal w) w in
        match receipts w !! o with
        | None => (Ret 0, w1)
        | Some fs =>
            if negb (forallb Driver.top_level (map fst upd)) then (Beyond, w1)
            else if applicable o upd
            then
              let fs' := Driver.apply_set
                           (toBSON_fields (remove_field "_id" upd)) fs in
              match refusal w fs' with
              | Some e => (Throw e, w1)
              | None =>
                  (Ret 1, with_receipts (<[o := fs']> (receipts w)) w1)
              end
            else (Throw (if has_field "" upd
                         then "An empty update path is not valid."
                         else Driver.immutable_id), w1)
        end
    end.
Proof.
  unfold Driver.updateOne. unfold mbind at 1, M_bind at 1.
  rewrite serialize_run.
  destruct (bson_error (VObj upd)); [reflexivity|].
  unfold applicable, record, modify, gets, throw, beyond,
    mbind, M_bind, mret, M_ret.
  simpl. destruct (receipts w !! o) as [fs|]; [|reflexivity].
  destruct (forallb Driver.top_level (map fst upd)); simpl; [|reflexivity].
  destruct (has_field "" upd); simpl; [reflexivity|].
  destruct (has_field "_id" upd) eqn:Hid; simpl.
  - destruct (field "_id" upd); try reflexivity.
    destruct (o0 =? o)%N; [|reflexivity].
    rewrite replace_run. simpl.
    destruct (refusal w _); reflexivity.
  - rewrite (remove_field_absent _ _ Hid). rewrite replace_run. simpl.
    destruct (refusal w _); reflexivity.
Qed.

Lemma findOne_createdAt_run (o : ObjectId.t) (w : World) :
  exists v,
    Driver.findOne_createdAt o w
    = (Ret v, with_journal (EvFindOne o :: journal w) w)
    /\ Mongodb.optional_createdAt v
       = Ret (match receipts w !! o with
              | Some fs => field "createdAt" fs
              | None => VUndefined
              end).
Proof.
  unfold Driver.findOne_createdAt, record, modify, gets,
    mbind, M_bind, mret, M_ret. simpl.
  eexists. split; [reflexivity|].
  destruct (receipts w !! o) as [fs|]; [|reflexivity].
  unfold field. destruct (lookup_field "createdAt" fs); reflexivity.
Qed.

(** The adapter's run once the guards are passed and the store is
    reached. *)
Lemma updateReceiptById_run
  (id : string) (updateData : value) (w w1 : World) (o : ObjectId.t) :
  truthy updateData = true -> typeof_object updateData = true ->
  ObjectId.parse id = Some o ->
  Mongodb.connectToDatabase w = (Ret tt, w1) ->
  Mongodb.updateReceiptById id updateData w
  = let now := VDate (clock w1 (ticks w1)) in
    let w0 := with_journal (EvFindOne o :: journal w1)
                (with_ticks (S (ticks w1)) w1) in
    let w2 := with_journal (EvUpdateOne o :: EvFindOne o :: journal w1)
                (with_ticks (S (ticks w1)) w1) in
    let created := match receipts w1 !! o with
                   | Some fs => field "createdAt" fs
                   | None => VUndefined
                   end in
    let upd := update_document now created updateData in
    match bson_error (VObj upd) with
    | Some _ => (Ret false, w0)
    | None =>
        match receipts w1 !! o with
        | None => (Ret false, w2)
        | Some fs =>
            if negb (forallb Driver.top_level (map fst upd)) then (Beyond, w2)
            else if applicable o upd
            then
              match refusal w1 (merged now fs updateData) with
              | Some _ => (Ret false, w2)
              | None =>
                  (Ret true,
                   with_receipts
                     (<[o := merged now fs updateData]> (receipts w1)) w2)
              end
            else (Ret false, w2)
        end
    end.
Proof.
  intros Ht Ho Hp Hc.
  assert (Hid : String.eqb id "" = false).
  { destruct id; [discriminate Hp | reflexivity]. }
  unfold Mongodb.updateReceiptById. rewrite Hid, Ht, Ho. simpl.
  unfold try_catch. erewrite bind_ret by exact Hc. rewrite Hp.
  unfold new_Date. unfold mbind at 1, M_bind at 1, gets at 1.
  unfold mbind at 1, M_bind at 1, gets at 1.
  unfold mbind at 1, M_bind at 1, modify at 1.
  unfold mbind at 1, M_bind at 1. unfold mret at 1, M_ret at 1.
  unfold mbind at 1, M_bind at 1.
  destruct (findOne_createdAt_run o (with_ticks (S (ticks w1)) w1))
    as (v & Ef & Ec).
  rewrite Ef. unfold mbind at 1, M_bind at 1, lift at 1. rewrite Ec.
  unfold mbind at 1, M_bind at 1. rewrite updateOne_run. simpl.
  unfold merged, update_document.
  destruct (receipts w1 !! o) as [fs|].
  - match goal with
    | |- context [bson_error ?d] => destruct (bson_error d); [reflexivity|]
    end.
    match goal with
    | |- context [negb (forallb Driver.top_level ?l)] =>
        destruct (negb (forallb Driver.top_level l)); [reflexivity|]
    end.
    match goal with
    | |- context [applicable o ?u] =>
        destruct (applicable o u); [|reflexivity]
    end.
    match goal with
    | |- context [refusal w1 ?d] => destruct (refusal w1 d); reflexivity
    end.
  - match goal with
    | |- context [bson_error ?d] => destruct (bson_error d); reflexivity
    end.
Qed.

Lemma updateReceiptById_invalid_patch (id : string) (updateData : value) (w : World) :
  truthy updateData = false \/ typeof_object updateData = false ->
  Mongodb.updateReceiptById id updateData w = (Ret false, w).
Proof.
  intros H. unfold Mongodb.updateReceiptById.
  destruct (String.eqb id ""); [reflexivity|].
  assert (E : negb (truthy updateData) || negb (typeof_object updateData) = true)
    by (destruct H as [-> | ->]; [reflexivity | apply orb_true_r]).
  rewrite E. reflexivity.
Qed.

Lemma updateReceiptById_empty_id (updateData : value) (w : World) :
  Mongodb.updateReceiptById "" updateData w = (Ret false, w).
Proof. reflexivity. Qed.

Lemma updateReceiptById_unreachable (id : string) (updateData : value) (w : World) :
  reachable w = false ->
  exists w', Mongodb.updateReceiptById id updateData w = (Ret false, w')
             /\ same_data w w'.
Proof.
  intros Hr. destruct (unreachable_throws w Hr) as (e & w' & E & Hs).
  unfold Mongodb.updateReceiptById.
  destruct (String.eqb id "").
  { exists w. split; [reflexivity|]. unfold same_data. repeat split; lia. }
  destruct (negb (truthy updateData) || negb (typeof_object updateData)).
  { exists w. split; [reflexivity|]. unfold same_data. repeat split; lia. }
  exists w'. split; [|exact Hs].
  unfold try_catch. erewrite bind_throw by exact E. reflexivity.
Qed.

Lemma updateReceiptById_unparsed (id : string) (updateData : value) (w : World) :
  ObjectId.parse id = None ->
  exists w', Mongodb.updateReceiptById id updateData w = (Ret false, w')
             /\ same_data w w'.
Proof.
  intros Hp. destruct (reachable w) eqn:Hr;
    [|apply updateReceiptById_unreachable; assumption].
  destruct (reachable_connects w Hr) as (w1 & E & Hs).
  unfold Mongodb.updateReceiptById.
  destruct (String.eqb id "").
  { exists w. split; [reflexivity|]. unfold same_data. repeat split; lia. }
  destruct (negb (truthy updateData) || negb (typeof_object updateData)).
  { exists w. split; [reflexivity|]. unfold same_data. repeat split; lia. }
  exists w1. split; [|exact Hs].
  unfold try_catch. erewrite bind_ret by exact E. rewrite Hp. reflexivity.
Qed.

(** Everything the adapter can do to the collection. *)
Lemma updateReceiptById_effect
  (id : string) (updateData : value) (w w' : World) (r : outcome bool) :
  Mongodb.updateReceiptById id updateData w = (r, w') ->
  clock w' = clock w /\ ticks w <= ticks w'
  /\ ((r <> Ret true /\ receipts w' = receipts w)
      \/ exists o fs,
           r = Ret true /\ ObjectId.parse id = Some o
           /\ receipts w !! o = Some fs
           /\ truthy updateData = true /\ typeof_object updateData = true
           /\ ticks w' = S (ticks w)
           /\ applicable o (update_document (VDate (clock w (ticks w)))
                              (field "createdAt" fs) updateData) = true
           /\ receipts w'
              = <[o := merged (VDate (clock w (ticks w))) fs updateData]>
                  (receipts w)).
Proof.
  intros H.
  destruct (truthy updateData) eqn:Ht.
  2:{ rewrite updateReceiptById_invalid_patch in H by (left; assumption).
      inversion H; subst. repeat split; try lia. left. split; congruence. }
  destruct (typeof_object updateData) eqn:Ho.
  2:{ rewrite updateReceiptById_invalid_patch in H by (right; assumption).
      inversion H; subst. repeat split; try lia. left. split; congruence. }
  destruct (reachable w) eqn:Hr.
  2:{ destruct (updateReceiptById_unreachable id updateData w Hr)
        as (w1 & E & Hs).
      rewrite E in H. inversion H; subst.
      destruct Hs as (? & ? & ? & _). repeat split; try congruence; try lia.
      left. split; congruence. }
  destruct (ObjectId.parse id) as [o|] eqn:Hp.
  2:{ destruct (updateReceiptById_unparsed id updateData w Hp) as (w1 & E & Hs).
      rewrite E in H. inversion H; subst.
      destruct Hs as (? & ? & ? & _). repeat split; try congruence; try lia.
      left. split; congruence. }
  destruct (reachable_connects w Hr) as (w1 & E & Hs).
  rewrite (updateReceiptById_run id updateData w w1 o Ht Ho Hp E) in H.
  destruct Hs as (Hrec & Hclock & Hticks & _).
  cbv zeta in H. rewrite Hrec, Hclock, Hticks in H.
  destruct (bson_error _).
  { inversion H; subst. simpl. repeat split; try congruence; try lia.
    left. split; congruence. }
  destruct (receipts w !! o) as [fs|] eqn:Hfs.
  2:{ inversion H; subst. simpl. repeat split; try congruence; try lia.
      left. split; congruence. }
  destruct (negb (forallb Driver.top_level _)).
  { inversion H; subst. simpl. repeat split; try congruence; try lia.
    left. split; congruence. }
  destruct (applicable o _) eqn:Ha.
  2:{ inversion H; subst. simpl. repeat split; try congruence; try lia.
      left. split; congruence. }
  destruct (refusal w1 _).
  { inversion H; subst. simpl. repeat split; try congruence; try lia.
    left. split; congruence. }
  inversion H; subst. simpl. repeat split; try congruence; try lia.
  right. exists o, fs. repeat split; try assumption; try lia; try reflexivity.
Qed.

Lemma forallb_names_set (P : string -> bool) (k : string) (v : value) (fs : fields) :
  P k = true -> forallb P (map fst fs) = true ->
  forallb P (map fst (set_field k v fs)) = true.
Proof.
  intros Hk H. unfold set_field. destruct (has_field k fs).
  - rewrite map_map.
    erewrite map_ext; [exact H|].
    intros [k' x]. simpl. destruct (String.eqb k' k); reflexivity.
  - rewrite map_app, forallb_app, H. simpl. rewrite Hk. reflexivity.
Qed.

Lemma forallb_names_absent (P : string -> bool) (k : string) (fs : fields) :
  forallb P (map fst fs) = true -> P k = false -> has_field k fs = false.
Proof.
  intros H Hk. unfold has_field.
  induction fs as [|[k' x] fs IH]; [reflexivity|].
  simpl in *. apply andb_true_iff in H as [H1 H2].
  rewrite IH by assumption. rewrite orb_false_r.
  apply String.eqb_neq. intros ->. congruence.
Qed.

Lemma forallb_weaken (P Q : string -> bool) (l : list string) :
  (forall k, P k = true -> Q k = true) ->
  forallb P l = true -> forallb Q l = true.
Proof.
  intros HPQ. induction l as [|k l IH]; [reflexivity|]. simpl.
  intros H. apply andb_true_iff in H as [H1 H2].
  rewrite (HPQ _ H1), IH by assumption. reflexivity.
Qed.

Lemma applicable_plain (o : ObjectId.t) (now created updateData : value) :
  plain_patch updateData = true ->
  applicable o (update_document now created updateData) = true.
Proof.
  unfold plain_patch. intros H.
  assert (Hp : forallb plain_name
                 (map fst (update_document now created updateData)) = true).
  { unfold update_document. cbv zeta.
    destruct (truthy created);
      repeat (apply forallb_names_set; [reflexivity|]); exact H. }
  unfold applicable.
  rewrite (forallb_weaken plain_name Driver.top_level _) by
    (unfold plain_name; intros k Hk;
     apply andb_true_iff in Hk as [Hk _];
     apply andb_true_iff in Hk as [Hk _]; exact Hk) || exact Hp.
  rewrite (forallb_names_absent plain_name "" _ Hp) by reflexivity.
  rewrite (forallb_names_absent plain_name "_id" _ Hp) by reflexivity.
  reflexivity.
Qed.

Lemma lookup_update_document (k : string) (now created updateData : value) :
  lookup_field k (update_document now created updateData)
  = if String.eqb k "createdAt" && truthy created then Some created
    else if String.eqb k "updatedAt" then Some now
    else lookup_field k (spread_props updateData).
Proof.
  unfold update_document. cbv zeta.
  destruct (truthy created).
  - destruct (String.eqb_spec k "createdAt") as [->|Hne]; simpl.
    + apply lookup_field_set_eq.
    + rewrite lookup_field_set_ne by congruence.
      destruct (String.eqb_spec k "updatedAt") as [->|Hne'].
      * apply lookup_field_set_eq.
      * apply lookup_field_set_ne. congruence.
  - rewrite andb_false_r.
    destruct (String.eqb_spec k "updatedAt") as [->|Hne'].
    + apply lookup_field_set_eq.
    + apply lookup_field_set_ne. congruence.
Qed.

Lemma lookup_merged (k : string) (now : value) (fs : fields) (updateData : value) :
  lookup_field k (merged now fs updateData)
  = if String.eqb k "_id" then lookup_field k fs
    else if String.eqb k "createdAt" && truthy (field "createdAt" fs)
    then Some (toBSON (field "createdAt" fs))
    else if String.eqb k "updatedAt" then Some (toBSON now)
    else match lookup_field k (spread_props updateData) with
         | Some v => Some (toBSON v)
         | None => lookup_field k fs
         end.
Proof.
  unfold merged. rewrite lookup_apply_set, lookup_field_toBSON.
  destruct (String.eqb_spec k "_id") as [->|Hne].
  - rewrite lookup_field_remove_eq. reflexivity.
  - rewrite lookup_field_remove_ne by congruence.
    rewrite lookup_update_document.
    destruct (String.eqb k "createdAt" && truthy (field "createdAt" fs));
      [reflexivity|].
    destruct (String.eqb k "updatedAt"); [reflexivity|].
    destruct (lookup_field k (spread_props updateData)); reflexivity.
Qed.

(** C1 fails on a patch that is not an object: the identifier parses and
    the document is there, yet the adapter's own guard ('Invalid update
    data') makes it answer [false]. *)
Lemma updateReceiptById_refuses_null_patch :
  exists fs,
    stored Sample.receipt_id (Sample.saved Sample.world) = Some fs
    /\ Mongodb.updateReceiptById Sample.receipt_id VNull
         (Sample.saved Sample.world)
       = (Ret false, Sample.saved Sample.world).
Proof. eexists. split; [vm_compute; reflexivity | reflexivity]. Qed.

(** C1 fails, too, on a patch that the driver cannot send: a field name
    with a NUL character in it is refused by the BSON serializer, and the
    adapter's catch turns the error into [false]. *)
Example updateReceiptById_refuses_a_name_with_nul :
  plain_patch (VObj [(String "a" (String zero "b"), VNum 1)]) = true
  /\ fst (Mongodb.updateReceiptById Sample.receipt_id
            (VObj [(String "a" (String zero "b"), VNum 1)])
            (Sample.saved Sample.world)) = Ret false
  /\ fst (Mongodb.updateReceiptById Sample.receipt_id
            (VObj [("a", VObj [(String "x" (String zero "y"), VNum 1)])])
            (Sample.saved Sample.world)) = Ret false
  /\ fst (Mongodb.updateReceiptById Sample.receipt_id
            (VObj [("a", VObj [("_bsontype", VStr "ObjectId")])])
            (Sample.saved Sample.world)) = Ret false.
Proof. repeat split; vm_compute; reflexivity. Qed.

(** C1, as the code has it.  updateReceiptById answers [false], and writes
    nothing, when the identifier does not parse, when no document matches,
    when the patch is not an object, when the store cannot be reached, and
    when the write is refused: by the driver, whose BSON serializer throws
    on the [$set] document, or by the server.  Otherwise, for a patch whose
    property names are top-level field names other than [_id], it answers
    [true] (whether or not a value changed) and replaces the document by the
    merge: [updatedAt] is the time read at the update, a truthy stored
    [createdAt] is put back whatever the patch says, every other property
    of the patch overwrites the stored one of the same name (as the BSON
    serializer writes it), and the properties the patch does not name are as
    they were.  No other document is touched. *)
Theorem updateReceiptById_merges (id : string) (updateData : value) (w : World) :
  (ObjectId.parse id = None ->
     exists w', Mongodb.updateReceiptById id updateData w = (Ret false, w')
                /\ receipts w' = receipts w)
  /\ (stored id w = None ->
     exists w', Mongodb.updateReceiptById id updateData w = (Ret false, w')
                /\ receipts w' = receipts w)
  /\ (truthy updateData = false \/ typeof_object updateData = false ->
     Mongodb.updateReceiptById id updateData w = (Ret false, w))
  /\ (reachable w = false ->
     exists w', Mongodb.updateReceiptById id updateData w = (Ret false, w')
                /\ receipts w' = receipts w)
  /\ (forall o fs,
       ObjectId.parse id = Some o -> receipts w !! o = Some fs ->
       plain_patch updateData = true ->
       accepted w (VDate (clock w (ticks w))) fs updateData = false ->
       exists w', Mongodb.updateReceiptById id updateData w = (Ret false, w')
                  /\ receipts w' = receipts w)
  /\ (forall o fs,
       ObjectId.parse id = Some o -> receipts w !! o = Some fs ->
       truthy updateData = true -> typeof_object updateData = true ->
       plain_patch updateData = true -> reachable w = true ->
       let now := VDate (clock w (ticks w)) in
       accepted w now fs updateData = true ->
       exists w' fs',
         Mongodb.updateReceiptById id updateData w = (Ret true, w')
         /\ receipts w' = <[o := fs']> (receipts w)
         /\ field "updatedAt" fs' = now
         /\ (truthy (field "createdAt" fs) = true ->
             field "createdAt" fs' = toBSON (field "createdAt" fs))
         /\ (forall k v,
               k <> "updatedAt" ->
               k <> "createdAt" \/ truthy (field "createdAt" fs) = false ->
               lookup_field k (spread_props updateData) = Some v ->
               lookup_field k fs' = Some (toBSON v))
         /\ (forall k,
               k <> "updatedAt" ->
               k <> "createdAt" \/ truthy (field "createdAt" fs) = false ->
               lookup_field k (spread_props updateData) = None ->
               lookup_field k fs' = lookup_field k fs)).
Proof.
  split; [|split; [|split; [|split; [|split]]]].
  - intros Hp.
    destruct (updateReceiptById_unparsed id updateData w Hp) as (w' & E & Hs & _).
    eauto.
  - unfold stored. intros Hs.
    destruct (Mongodb.updateReceiptById id updateData w) as [r w'] eqn:E.
    destruct (updateReceiptById_effect _ _ _ _ _ E)
      as (_ & _ & [[Hr Hrec]|(o & fs & -> & Hp & Hfs & _)]).
    + exists w'. split; [|exact Hrec].
      destruct (ObjectId.parse id) as [o|] eqn:Hp.
      * destruct (truthy updateData) eqn:Ht.
        2:{ rewrite updateReceiptById_invalid_patch in E by (left; assumption).
            congruence. }
        destruct (typeof_object updateData) eqn:Ho.
        2:{ rewrite updateReceiptById_invalid_patch in E by (right; assumption).
            congruence. }
        destruct (reachable w) eqn:Hre.
        2:{ destruct (updateReceiptById_unreachable id updateData w Hre)
              as (w1 & E1 & _). congruence. }
        destruct (reachable_connects w Hre) as (w1 & Ec & Hrec1 & _).
        rewrite (updateReceiptById_run id updateData w w1 o Ht Ho Hp Ec) in E.
        cbv zeta in E. rewrite Hrec1, Hs in E.
        destruct (bson_error _) in E; congruence.
      * destruct (updateReceiptById_unparsed id updateData w Hp) as (w1 & E1 & _).
        congruence.
    + rewrite Hp, Hfs in Hs. discriminate.
  - apply updateReceiptById_invalid_patch.
  - intros Hr.
    destruct (updateReceiptById_unreachable id updateData w Hr)
      as (w' & E & Hs & _).
    eauto.
  - intros o fs Hp Hfs Hplain Hacc.
    destruct (truthy updateData) eqn:Ht.
    2:{ exists w. split; [|reflexivity].
        apply updateReceiptById_invalid_patch. left. assumption. }
    destruct (typeof_object updateData) eqn:Ho.
    2:{ exists w. split; [|reflexivity].
        apply updateReceiptById_invalid_patch. right. assumption. }
    destruct (reachable w) eqn:Hr.
    2:{ destruct (updateReceiptById_unreachable id updateData w Hr)
          as (w' & E & Hs & _). eauto. }
    destruct (reachable_connects w Hr) as (w1 & Ec & Hrec & Hclock & Hticks & _ & _ & _ & _ & Href & _).
    rewrite (updateReceiptById_run id updateData w w1 o Ht Ho Hp Ec).
    cbv zeta. rewrite Hrec, Hfs, Hclock, Hticks, Href.
    unfold accepted in Hacc.
    destruct (bson_error _).
    { eexists. split; [reflexivity|]. simpl. exact Hrec. }
    assert (Ha := applicable_plain o (VDate (clock w (ticks w)))
                    (field "createdAt" fs) updateData Hplain).
    assert (Htop : forallb Driver.top_level
                     (map fst (update_document (VDate (clock w (ticks w)))
                                 (field "createdAt" fs) updateData)) = true).
    { unfold applicable in Ha.
      apply andb_true_iff in Ha as [Ha _].
      apply andb_true_iff in Ha as [Ha _]. exact Ha. }
    rewrite Htop, Ha. simpl.
    destruct (refusal w _); [|discriminate].
    eexists. split; [reflexivity|]. simpl. exact Hrec.
  - intros o fs Hp Hfs Ht Ho Hplain Hr now Hacc.
    destruct (reachable_connects w Hr) as (w1 & Ec & Hrec & Hclock & Hticks & _ & _ & _ & _ & Href & _).
    rewrite (updateReceiptById_run id updateData w w1 o Ht Ho Hp Ec).
    cbv zeta. rewrite Hrec, Hfs, Hclock, Hticks, Href.
    assert (Ha := applicable_plain o now (field "createdAt" fs) updateData Hplain).
    assert (Htop : forallb Driver.top_level
                     (map fst (update_document now (field "createdAt" fs)
                                 updateData)) = true).
    { unfold applicable in Ha.
      apply andb_true_iff in Ha as [Ha _].
      apply andb_true_iff in Ha as [Ha _]. exact Ha. }
    unfold accepted in Hacc. fold now.
    destruct (bson_error _); [discriminate|].
    rewrite Htop, Ha. simpl.
    destruct (refusal w _); [discriminate|].
    eexists. exists (merged now fs updateData).
    split; [reflexivity|]. simpl. split; [reflexivity|].
    repeat split.
    + unfold field at 1. rewrite lookup_merged. simpl.
      destruct (truthy (field "createdAt" fs)); reflexivity.
    + intros Tc. unfold field at 1. rewrite lookup_merged. simpl.
      rewrite Tc. reflexivity.
    + intros k v Hu Hc Hk. rewrite lookup_merged, Hk.
      assert (Hid : String.eqb k "_id" = false).
      { apply String.eqb_neq. intros ->.
        assert (has_field "_id" (spread_props updateData) = false)
          by (eapply forallb_names_absent; [exact Hplain | reflexivity]).
        apply has_field_lookup in H. congruence. }
      rewrite Hid. apply String.eqb_neq in Hu. rewrite Hu.
      destruct Hc as [Hc| ->].
      * apply String.eqb_neq in Hc. rewrite Hc. reflexivity.
      * rewrite andb_false_r. reflexivity.
    + intros k Hu Hc Hk. rewrite lookup_merged, Hk.
      apply String.eqb_neq in Hu. rewrite Hu.
      destruct (String.eqb k "_id"); [reflexivity|].
      destruct Hc as [Hc| ->].
      * apply String.eqb_neq in Hc. rewrite Hc. reflexivity.
      * rewrite andb_false_r. reflexivity.
Qed.

Lemma updateReceiptById_merges_witness :
  exists w' fs',
    Mongodb.updateReceiptById Sample.receipt_id
      (VObj [("note", VStr "paid"); ("createdAt", VStr "1999")])
      (Sample.saved Sample.world) = (Ret true, w')
    /\ stored Sample.receipt_id w' = Some fs'
    /\ field "createdAt" fs' = VDate 1700000000001
    /\ field "note" fs' = VStr "paid".
Proof.
  destruct (updateReceiptById_merges Sample.receipt_id
              (VObj [("note", VStr "paid"); ("createdAt", VStr "1999")])
              (Sample.saved Sample.world)) as (_ & _ & _ & _ & _ & H).
  edestruct H as (w' & fs' & E & Hrec & _ & Hc & Hk & _).
  - vm_compute. reflexivity.
  - vm_compute. reflexivity.
  - reflexivity.
  - reflexivity.
  - reflexivity.
  - reflexivity.
  - vm_compute. reflexivity.
  - exists w', fs'. split; [exact E|].
    unfold stored. rewrite Hrec.
    split; [vm_compute; reflexivity|].
    split.
    + rewrite Hc by (vm_compute; reflexivity). vm_compute. reflexivity.
    + unfold field. rewrite (Hk "note" (VStr "paid")); try reflexivity;
        try discriminate. left. discriminate.
Defined.

(** ** What a computation keeps true of the collection                 *)

Section keeps.
Variable Q : gmap N fields -> Prop.

Lemma keeps_ret {A} (a : A) : keeps Q (mret a).
Proof. intros w r w' H E. inversion E; subst. exact H. Qed.

Lemma keeps_throw {A} (e : string) : keeps Q (@throw A e).
Proof. intros w r w' H E. inversion E; subst. exact H. Qed.

Lemma keeps_beyond {A} : keeps Q (@beyond A).
Proof. intros w r w' H E. inversion E; subst. exact H. Qed.

Lemma keeps_lift {A} (o : outcome A) : keeps Q (lift o).
Proof. intros w r w' H E. inversion E; subst. exact H. Qed.

Lemma keeps_gets {A} (f : World -> A) : keeps Q (gets f).
Proof. intros w r w' H E. inversion E; subst. exact H. Qed.

Lemma keeps_modify (f : World -> World) :
  (forall w, receipts (f w) = receipts w) -> keeps Q (modify f).
Proof. intros Hf w r w' H E. inversion E; subst. rewrite Hf. exact H. Qed.

Lemma keeps_bind {A B} (m : M A) (f : A -> M B) :
  keeps Q m -> (forall a, keeps Q (f a)) -> keeps Q (m ≫= f).
Proof.
  intros Hm Hf w r w' H E. unfold mbind, M_bind in E.
  destruct (m w) as [[a|e|] w1] eqn:Em.
  - eapply Hf; [|exact E]. eapply Hm; eauto.
  - inversion E; subst. eapply Hm; eauto.
  - inversion E; subst. eapply Hm; eauto.
Qed.

Lemma keeps_try {A} (m : M A) (h : string -> M A) :
  keeps Q m -> (forall e, keeps Q (h e)) -> keeps Q (try_catch m h).
Proof.
  intros Hm Hh w r w' H E. unfold try_catch in E.
  destruct (m w) as [[a|e|] w1] eqn:Em.
  - inversion E; subst. eapply Hm; eauto.
  - eapply Hh; [|exact E]. eapply Hm; eauto.
  - inversion E; subst. eapply Hm; eauto.
Qed.

Lemma keeps_same_data {A} (m : M A) :
  (forall w r w', m w = (r, w') -> same_data w w') -> keeps Q m.
Proof.
  intros Hm w r w' H E. destruct (Hm _ _ _ E) as (-> & _). exact H.
Qed.

Lemma keeps_record (e : event) : keeps Q (record e).
Proof. apply keeps_modify. reflexivity. Qed.

Lemma keeps_new_Date : keeps Q new_Date.
Proof.
  unfold new_Date.
  repeat (apply keeps_bind; [|intros ?]);
    try apply keeps_gets; try apply keeps_ret.
  apply keeps_modify. reflexivity.
Qed.

Lemma keeps_connect : keeps Q Mongodb.connectToDatabase.
Proof.
  apply keeps_same_data. intros w r w' E.
  destruct (connect_cases w) as (w1 & Hs & [E1|[e E1]]);
    rewrite E1 in E; inversion E; subst; exact Hs.
Qed.

Lemma keeps_getReceiptById (id : string) : keeps Q (Mongodb.getReceiptById id).
Proof. apply keeps_same_data. intros w r w'. apply getReceiptById_frame. Qed.

Lemma keeps_verifyAuthToken (request : Request) :
  keeps Q (Auth.verifyAuthToken request).
Proof.
  intros w r w' H E. rewrite verifyAuthToken_run in E.
  inversion E; subst. exact H.
Qed.

End keeps.

(** One step of symbolic reasoning on a [keeps] goal that needs nothing
    about the collection. *)
Ltac keeps_pure :=
  first
    [ apply keeps_ret | apply keeps_throw | apply keeps_beyond
    | apply keeps_lift | apply keeps_gets | apply keeps_record
    | apply keeps_new_Date | apply keeps_connect
    | apply keeps_getReceiptById | apply keeps_verifyAuthToken
    | apply keeps_bind; [|intros ?] | apply keeps_try; [|intros ?]
    | match goal with
      | |- keeps _ (if ?b then _ else _) => destruct b
      | |- keeps _ (match ?x with _ => _ end) => destruct x
      end ].

(** ** What the calls keep true of a stored document                   *)

Section document_has.
Variables (o : ObjectId.t) (P : fields -> Prop).
Hypothesis P_merged :
  forall now fs updateData, P fs -> P (merged now fs updateData).

Lemma keeps_createPk : keeps (document_has o P) Driver.createPk.
Proof.
  unfold Driver.createPk.
  repeat (apply keeps_bind; [|intros ?]);
    try apply keeps_gets; try apply keeps_ret.
  apply keeps_modify. reflexivity.
Qed.

Lemma keeps_insert_at (o' : ObjectId.t) (doc : fields) :
  keeps (document_has o P) (Driver.insert_at o' doc).
Proof.
  intros w r w' (fs & Hfs & Hc) E.
  exists fs. split; [|exact Hc]. clear Hc.
  rewrite insert_at_run in E. cbv zeta in E.
  destruct (bson_error _); [inversion E; subst; assumption|].
  destruct (receipts w !! o') eqn:Ho'; [inversion E; subst; assumption|].
  destruct (refusal w _); inversion E; subst; simpl; [assumption|].
  rewrite lookup_insert_ne; [assumption|]. congruence.
Qed.

Lemma keeps_insertOne (doc : fields) :
  keeps (document_has o P) (Driver.insertOne doc).
Proof.
  unfold Driver.insertOne.
  destruct (field "_id" doc);
    try apply keeps_beyond; try apply keeps_insert_at;
    (apply keeps_bind; [apply keeps_createPk | intros ?; apply keeps_insert_at]).
Qed.

Lemma keeps_createReceiptDocument (receiptData : value) :
  keeps (document_has o P) (Mongodb.createReceiptDocument receiptData).
Proof.
  unfold Mongodb.createReceiptDocument.
  repeat first [apply keeps_insertOne | keeps_pure].
Qed.

Lemma keeps_updateReceiptById (id : string) (updateData : value) :
  keeps (document_has o P) (Mongodb.updateReceiptById id updateData).
Proof.
  intros w r w' (fs & Hfs & Hc) E.
  destruct (updateReceiptById_effect _ _ _ _ _ E)
    as (_ & _ & [[_ Hrec]|(o' & fs' & _ & _ & Hfs' & _ & _ & _ & _ & Hrec)]);
    rewrite Hrec.
  - exists fs. split; assumption.
  - destruct (N.eq_dec o' o) as [Heq|Hne].
    + rewrite Heq in *. rewrite Hfs in Hfs'.
      assert (Hsame : fs = fs') by congruence. rewrite <- Hsame.
      eexists. split; [apply lookup_insert_eq|].
      apply P_merged. exact Hc.
    + exists fs. split; [|assumption].
      rewrite lookup_insert_ne; assumption.
Qed.

Ltac keeps_document :=
  repeat first
    [ apply keeps_updateReceiptById | apply keeps_createReceiptDocument
    | keeps_pure ].

Lemma keeps_handler (ep : endpoint) (request : Request) :
  keeps (document_has o P) (handler ep request).
Proof.
  unfold handler, onRequest.
  destruct (preflight request); [apply keeps_ret|].
  destruct ep; simpl.
  - unfold Functions.processReceipt, Functions.processReceiptWithGemini.
    keeps_document.
  - unfold Functions.saveReceipt, Functions.stamp_metadata. keeps_document.
  - unfold Functions.loadReceiptById. keeps_document.
  - unfold Functions.updateReceiptById, Functions.merge_metadata.
    keeps_document.
Qed.

Lemma document_has_perform (k : call) (w : World) :
  document_has o P (receipts w) -> document_has o P (receipts (perform k w)).
Proof.
  intros H. destruct k as [d|id|id d|ep request]; simpl.
  - destruct (Mongodb.createReceiptDocument d w) as [r w'] eqn:E.
    exact (keeps_createReceiptDocument d w r w' H E).
  - destruct (Mongodb.getReceiptById id w) as [r w'] eqn:E.
    exact (keeps_getReceiptById _ id w r w' H E).
  - destruct (Mongodb.updateReceiptById id d w) as [r w'] eqn:E.
    exact (keeps_updateReceiptById id d w r w' H E).
  - destruct (handler ep request w) as [r w'] eqn:E.
    exact (keeps_handler ep request w r w' H E).
Qed.

Lemma document_has_run (cs : list call) : forall w,
  document_has o P (receipts w) -> document_has o P (receipts (run cs w)).
Proof.
  unfold run. induction cs as [|k cs IH]; intros w H; [exact H|].
  simpl. apply IH. apply document_has_perform. exact H.
Qed.

End document_has.

(** ** createdAt is set once                                           *)

Lemma created_at_merged (c now : value) (fs : fields) (updateData : value) :
  truthy c = true -> toBSON c = c ->
  field "createdAt" fs = c ->
  field "createdAt" (merged now fs updateData) = c.
Proof.
  intros c_truthy c_stored H. unfold field at 1. rewrite lookup_merged, H.
  simpl. rewrite c_truthy, c_stored. reflexivity.
Qed.

(** [c] is truthy, and is a value the store gives back as it was written. *)
Lemma created_at_run (o : ObjectId.t) (c : value) :
  truthy c = true -> toBSON c = c ->
  forall (cs : list call) (w : World),
    created_at o c (receipts w) -> created_at o c (receipts (run cs w)).
Proof.
  intros Ht Hs cs w H.
  apply (document_has_run o (fun fs => field "createdAt" fs = c)); [|exact H].
  intros now fs updateData. apply created_at_merged; assumption.
Qed.

(** ** createReceiptDocument                                           *)

Lemma new_Date_run (w : World) :
  new_Date w = (Ret (VDate (clock w (ticks w))), with_ticks (S (ticks w)) w).
Proof. reflexivity. Qed.

(** ** Time does not run backwards                                     *)

























Lemma createReceiptDocument_run (receiptData : value) (w w0 : World) :
  Mongodb.connectToDatabase w = (Ret tt, w0) ->
  Mongodb.createReceiptDocument receiptData w
  = let doc := created_document (VDate (clock w0 (ticks w0)))
                 (VDate (clock w0 (S (ticks w0)))) receiptData in
    match Driver.insertOne doc (with_ticks (S (S (ticks w0))) w0) with
    | (Ret o, w') => (Ret (ObjectId.toString o), w')
    | (Throw e, w') => (Throw e, w')
    | (Beyond, w') => (Beyond, w')
    end.
Proof.
  intros Hc. unfold Mongodb.createReceiptDocument, try_catch.
  erewrite bind_ret by exact Hc.
  erewrite bind_ret by apply new_Date_run.
  erewrite bind_ret by apply new_Date_run.
  simpl. unfold created_document, mbind, M_bind, mret, M_ret, throw.
  destruct (Driver.insertOne _ _) as [[o|e|] w']; reflexivity.
Qed.

Lemma createReceiptDocument_unreachable (receiptData : value) (w : World) :
  reachable w = false ->
  exists e w', Mongodb.createReceiptDocument receiptData w = (Throw e, w')
               /\ same_data w w'.
Proof.
  intros Hr. destruct (unreachable_throws w Hr) as (e & w' & E & Hs).
  exists e, w'. split; [|exact Hs].
  unfold Mongodb.createReceiptDocument, try_catch.
  erewrite bind_throw by exact E. reflexivity.
Qed.

(** What a successful creation has done. *)
Lemma createReceiptDocument_ret
  (receiptData : value) (w w1 : World) (id : string) :
  Mongodb.createReceiptDocument receiptData w = (Ret id, w1) ->
  exists o,
    id = ObjectId.toString o
    /\ reachable w = true
    /\ receipts w !! o = None
    /\ receipts w1
       = <[o := toBSON_fields
                  (remove_field "_id"
                     (created_document (VDate (clock w (ticks w)))
                        (VDate (clock w (S (ticks w)))) receiptData))]>
           (receipts w)
    /\ clock w1 = clock w /\ ticks w1 = S (S (ticks w))
    /\ (field "_id" (spread_props receiptData) = VOid o
        \/ (nullish (field "_id" (spread_props receiptData)) = true
            /\ o = (pks w (minted w) mod ObjectId.modulus)%N)).
Proof.
  intros H. destruct (reachable w) eqn:Hr.
  2:{ destruct (createReceiptDocument_unreachable receiptData w Hr)
        as (e & w' & E & _). congruence. }
  destruct (reachable_connects w Hr)
    as (w0 & Ec & Hrec & Hclock & Hticks & Hpks & Hminted & _).
  rewrite (createReceiptDocument_run receiptData w w0 Ec) in H.
  cbv zeta in H. rewrite Hclock, Hticks in H.
  set (doc := created_document _ _ receiptData) in *.
  assert (Hid : field "_id" doc = field "_id" (spread_props receiptData)).
  { unfold doc, created_document. rewrite !field_set_ne by discriminate.
    reflexivity. }
  unfold Driver.insertOne in H. rewrite Hid in H.
  destruct (field "_id" (spread_props receiptData)) eqn:Hf;
    try discriminate;
    unfold Driver.createPk, gets, modify, mbind, M_bind, mret, M_ret in H;
    simpl in H; rewrite ?Hpks, ?Hminted in H;
    rewrite insert_at_run in H; cbv zeta in H; simpl in H;
    rewrite Hrec in H;
    (destruct (bson_error (VObj doc)) eqn:Hb; simpl in H; [discriminate H|]).
  all: destruct (receipts w !! _) eqn:Hk in H; [discriminate H|].
  all: destruct (refusal w0 _) in H; [discriminate H|].
  all: inversion H; subst; eexists; simpl.
  all: repeat (split; [first [exact Hk | congruence | reflexivity]|]).
  all: first [left; reflexivity | right; split; reflexivity].
Qed.

Lemma created_at_created
  (o : ObjectId.t) (t : Z) (updatedAt receiptData : value) (coll : gmap N fields) :
  created_at o (VDate t)
    (<[o := toBSON_fields
              (remove_field "_id"
                 (created_document (VDate t) updatedAt receiptData))]> coll).
Proof.
  eexists. split; [apply lookup_insert_eq|].
  unfold field, created_document.
  rewrite lookup_field_toBSON, lookup_field_remove_ne by discriminate.
  rewrite lookup_field_set_ne by discriminate.
  rewrite lookup_field_set_eq. reflexivity.
Qed.

(** C2. createReceiptDocument stores as [createdAt] the time read at the
    creation.  A stored document whose [createdAt] is truthy (a date, as
    creation sets it, or any other value the store gives back as written)
    keeps exactly that [createdAt] through every later sequence of calls:
    updateReceiptById of the adapter with any identifier and any patch (one
    with a [createdAt] key included), the update handler and the other
    three handlers with any request, and the other operations of the
    adapter. *)
Theorem createdAt_is_never_overwritten :
  (forall (receiptData : value) (w w1 : World) (id : string),
     Mongodb.createReceiptDocument receiptData w = (Ret id, w1) ->
     exists o,
       id = ObjectId.toString o
       /\ created_at o (VDate (clock w (ticks w))) (receipts w1))
  /\ (forall (w : World) (o : ObjectId.t) (c : value) (cs : list call),
       truthy c = true -> toBSON c = c ->
       created_at o c (receipts w) ->
       created_at o c (receipts (run cs w))).
Proof.
  split.
  - intros receiptData w w1 id H.
    destruct (createReceiptDocument_ret _ _ _ _ H)
      as (o & Hid & _ & _ & Hrec & _).
    exists o. split; [exact Hid|]. rewrite Hrec. apply created_at_created.
  - intros w o c cs Ht Hs H. apply created_at_run; assumption.
Qed.

Lemma createdAt_is_never_overwritten_witness :
  exists o,
    Sample.receipt_id = ObjectId.toString o
    /\ forall cs : list call,
         created_at o (VDate 1700000000000)
           (receipts
              (run cs (snd (Mongodb.createReceiptDocument Sample.latte
                              Sample.world)))).
Proof.
  assert (E : fst (Mongodb.createReceiptDocument Sample.latte Sample.world)
              = Ret Sample.receipt_id) by (vm_compute; reflexivity).
  destruct createdAt_is_never_overwritten as [Hcreate Hkeep].
  destruct (Hcreate Sample.latte Sample.world
              (snd (Mongodb.createReceiptDocument Sample.latte Sample.world))
              Sample.receipt_id) as (o & Hid & Hc).
  - rewrite <- E. apply surjective_pairing.
  - exists o. split; [exact Hid|].
    intros cs. apply Hkeep; [reflexivity | reflexivity | exact Hc].
Defined.

Example createdAt_survives_a_patch_that_names_it :
  exists fs,
    stored Sample.receipt_id
      (run [Handle Save (Sample.post Sample.latte);
            UpdateReceiptById Sample.receipt_id
              (VObj [("createdAt", VStr "1999-01-01T00:00:00.000Z")]);
            Handle Update
              (Sample.put Sample.receipt_id
                 (VObj [("createdAt", VNum 0);
                        ("processingMetadata", VObj [])]))]
         Sample.world) = Some fs
    /\ field "createdAt" fs = VDate 1700000000001
    /\ field "updatedAt" fs = VDate 1700000000005.
Proof. eexists. split; [vm_compute; reflexivity | split; reflexivity]. Qed.

(** C9 fails on a request that does not use the endpoint's method: a GET
    without credential to the save endpoint is answered 405, not 401. *)
Lemma get_without_credential_to_save_is_405 :
  authenticated (mkRequest "GET" None "/" VUndefined) Sample.world = false
  /\ fst (handler Save (mkRequest "GET" None "/" VUndefined) Sample.world)
     = Ret (mkResponse 405
              (VObj [("error", VStr "Method not allowed");
                     ("success", VBool false)])).
Proof. split; reflexivity. Qed.

Lemma unauthenticated_request_is_refused_witness :
  authenticated
    (mkRequest "PUT" (Some "Bearer forged") "/507f1f77bcf86cd799439011"
       (VObj [("createdAt", VNum 0)])) Sample.world = false
  /\ handler Update
       (mkRequest "PUT" (Some "Bearer forged") "/507f1f77bcf86cd799439011"
          (VObj [("createdAt", VNum 0)])) Sample.world
     = (Ret Functions.unauthorized, Sample.world).
Proof.
  split; [reflexivity|].
  exact (proj1 (unauthenticated_request_is_refused Update
                  (mkRequest "PUT" (Some "Bearer forged")
                     "/507f1f77bcf86cd799439011"
                     (VObj [("createdAt", VNum 0)])) Sample.world eq_refl)).
Defined.

(** The preflight of a browser carries no credential: every endpoint answers
    it 204 with an empty body, in any spelling of the method, and the
    callback does not run. *)
Example preflight_without_credential_is_204 :
  handler Save (mkRequest "OPTIONS" None "/" VUndefined) Sample.world
  = (Ret (mkResponse 204 VUndefined), Sample.world)
  /\ handler Update (mkRequest "options" None "/507f1f77bcf86cd799439011"
                       VUndefined) Sample.offline
     = (Ret (mkResponse 204 VUndefined), Sample.offline)
  /\ handler Load (mkRequest "OPTIONS" (Some "Bearer token-of-ada") "/"
                     VUndefined) Sample.world
     = (Ret (mkResponse 204 VUndefined), Sample.world).
Proof. repeat split; reflexivity. Qed.

(** ** The update handler                                              *)

Lemma stored_parse (id : string) (w : World) (fs : fields) :
  stored id w = Some fs ->
  exists o, ObjectId.parse id = Some o /\ receipts w !! o = Some fs /\ id <> "".
Proof.
  unfold stored. destruct (ObjectId.parse id) as [o|] eqn:Hp; [|discriminate].
  intros H. exists o. repeat split; try assumption.
  intros ->. discriminate Hp.
Qed.

Lemma lookup_document_stored (id : string) (w : World) (fs : fields) (o : ObjectId.t) :
  ObjectId.parse id = Some o -> receipts w !! o = Some fs ->
  lookup_document id w = Driver.document o fs.
Proof. intros Hp Hfs. unfold lookup_document. rewrite Hp, Hfs. reflexivity. Qed.

Lemma merge_metadata_missing (userId updateData : value) (efs : fields) (w : World) :
  get_prop updateData "processingMetadata" = Ret VUndefined ->
  Functions.merge_metadata userId (VObj efs) updateData w
  = (Throw "Cannot read properties of undefined (reading 'userId')",
     with_ticks (S (ticks w)) w).
Proof.
  intros H. unfold Functions.merge_metadata.
  unfold mbind at 1, M_bind at 1, lift at 1. rewrite H. reflexivity.
Qed.

(** C10. An authenticated PUT whose body is present but has no
    [processingMetadata], aimed at a document that exists, is answered 500
    with [success: false]: the branch for missing metadata reads [userId]
    from the absent property, and the exception reaches the outer handler
    before the store adapter's update is called.  The collection is left as
    it was. *)
Theorem update_without_metadata_is_500
  (request : Request) (w : World) (id : string) (fs : fields) :
  method request = "PUT" ->
  authenticated request w = true ->
  url_id (url request) = Some id ->
  truthy (body request) = true ->
  get_prop (body request) "processingMetadata" = Ret VUndefined ->
  stored id w = Some fs ->
  exists r w',
    Functions.updateReceiptById request w = (Ret r, w')
    /\ status r = 500 /\ success r = VBool false
    /\ receipts w' = receipts w.
Proof.
  intros Hm Ha Hu Hb Hpm Hs.
  destruct (stored_parse _ _ _ Hs) as (o & Hp & Hfs & Hid).
  rewrite authenticated_verdict in Ha.
  unfold Functions.updateReceiptById, try_catch. rewrite Hm. simpl.
  erewrite bind_ret by apply verifyAuthToken_run.
  rewrite Ha, Hu, Hb. simpl.
  destruct (reachable w) eqn:Hr.
  - destruct (getReceiptById_reachable id w Hid Hr) as (w1 & E & Hrec & _).
    erewrite bind_ret by exact E.
    rewrite (lookup_document_stored _ _ _ _ Hp Hfs). simpl.
    unfold Driver.document.
    erewrite bind_throw by (apply merge_metadata_missing; exact Hpm).
    eexists _, _. split; [reflexivity|]. simpl. repeat split. exact Hrec.
  - destruct (getReceiptById_unreachable id w Hid Hr) as (e & w1 & E & Hrec & _).
    erewrite bind_throw by exact E.
    eexists _, _. split; [reflexivity|]. simpl. repeat split. exact Hrec.
Qed.

Lemma update_without_metadata_is_500_witness :
  exists r w',
    Functions.updateReceiptById
      (Sample.put Sample.receipt_id (VObj [("note", VStr "paid")]))
      (Sample.saved Sample.world) = (Ret r, w')
    /\ status r = 500 /\ success r = VBool false
    /\ receipts w' = receipts (Sample.saved Sample.world).
Proof.
  eapply (update_without_metadata_is_500
            (Sample.put Sample.receipt_id (VObj [("note", VStr "paid")]))
            (Sample.saved Sample.world) Sample.receipt_id).
  - reflexivity.
  - vm_compute. reflexivity.
  - vm_compute. reflexivity.
  - reflexivity.
  - reflexivity.
  - vm_compute. reflexivity.
Defined.

Lemma getReceiptById_ret (id : string) (w w1 : World) (v : value) :
  Mongodb.getReceiptById id w = (Ret v, w1) ->
  id <> "" /\ reachable w = true /\ v = lookup_document id w /\ same_data w w1.
Proof.
  intros H. destruct (String.eqb_spec id "") as [->|Hid].
  { rewrite getReceiptById_empty in H. discriminate. }
  destruct (reachable w) eqn:Hr.
  - destruct (getReceiptById_reachable id w Hid Hr) as (w' & E & Hs).
    rewrite E in H. inversion H; subst. auto.
  - destruct (getReceiptById_unreachable id w Hid Hr) as (e & w' & E & _).
    congruence.
Qed.

Lemma lookup_document_truthy (id : string) (w : World) :
  truthy (lookup_document id w) = true ->
  exists o fs, ObjectId.parse id = Some o /\ receipts w !! o = Some fs
               /\ lookup_document id w = Driver.document o fs.
Proof.
  unfold lookup_document.
  destruct (ObjectId.parse id) as [o|]; [|discriminate].
  destruct (receipts w !! o) as [fs|] eqn:Hfs; [|discriminate].
  intros _. exists o, fs. repeat split; assumption || reflexivity.
Qed.

Lemma merge_metadata_ret
  (userId updateData : value) (efs : fields) (w w2 : World) (patch : value) :
  Functions.merge_metadata userId (VObj efs) updateData w = (Ret patch, w2) ->
  exists bfs,
    updateData = VObj bfs
    /\ w2 = with_ticks (S (ticks w)) w
    /\ let now := VDate (clock w (ticks w)) in
       let supplied := field "processingMetadata" bfs in
       (truthy supplied = true
        /\ patch = VObj (set_field "processingMetadata"
                           (supplied_metadata userId now supplied) bfs))
       \/ (truthy supplied = false
           /\ patch = VObj (set_field "processingMetadata"
                              (inherited_metadata userId now
                                 (field "processingMetadata" efs)) bfs)).
Proof.
  unfold Functions.merge_metadata. intros H.
  unfold mbind at 1, M_bind at 1, lift at 1 in H.
  destruct updateData as [| | | | | | | |bfs]; simpl in H; try discriminate.
  exists bfs. split; [reflexivity|].
  destruct (truthy (field "processingMetadata" bfs)) eqn:Ts; simpl in H.
  - unfold mbind, M_bind, lift in H. simpl in H. inversion H; subst.
    split; [reflexivity|]. left. split; reflexivity.
  - unfold mbind, M_bind, lift, mret, M_ret in H. simpl in H.
    destruct (field "processingMetadata" bfs); simpl in *; try discriminate;
      inversion H; subst; (split; [reflexivity|]); right; split; reflexivity.
Qed.

(** What a 200 from the update handler tells about its run. *)
Lemma update_handler_200 (request : Request) (w w' : World) (r : Response) :
  Functions.updateReceiptById request w = (Ret r, w') ->
  status r = 200 ->
  exists id o efs w1 patch,
    method request = "PUT"
    /\ truthy (verdict request w) = true
    /\ url_id (url request) = Some id
    /\ ObjectId.parse id = Some o /\ receipts w !! o = Some efs
    /\ same_data w w1
    /\ Functions.merge_metadata (verdict request w) (Driver.document o efs)
         (body request) w1 = (Ret patch, with_ticks (S (ticks w1)) w1)
    /\ Mongodb.updateReceiptById id patch (with_ticks (S (ticks w1)) w1)
       = (Ret true, w')
    /\ r = mkResponse 200 (VObj [("id", VStr id); ("success", VBool true)]).
Proof.
  unfold Functions.updateReceiptById, try_catch. intros H Hst.
  destruct (String.eqb_spec (method request) "PUT") as [Hm|Hm]; simpl in H.
  2:{ inversion H; subst. discriminate. }
  erewrite bind_ret in H by apply verifyAuthToken_run.
  destruct (truthy (verdict request w)) eqn:Ha; simpl in H.
  2:{ inversion H; subst. discriminate. }
  destruct (url_id (url request)) as [id|] eqn:Hu.
  2:{ inversion H; subst. discriminate. }
  destruct (truthy (body request)) eqn:Hb; simpl in H.
  2:{ inversion H; subst. discriminate. }
  unfold mbind at 1, M_bind at 1 in H.
  destruct (Mongodb.getReceiptById id w) as [[v|e|] w1] eqn:Eg.
  2:{ inversion H; subst. discriminate. }
  2:{ discriminate. }
  destruct (getReceiptById_ret _ _ _ _ Eg) as (Hid & Hr & -> & Hs).
  destruct (truthy (lookup_document id w)) eqn:Tv; simpl in H.
  2:{ inversion H; subst. discriminate. }
  destruct (lookup_document_truthy _ _ Tv) as (o & efs & Hp & Hfs & Hd).
  rewrite Hd in H.
  unfold mbind at 1, M_bind at 1 in H.
  destruct (Functions.merge_metadata _ _ _ w1) as [[patch|e|] w2] eqn:Em.
  2:{ inversion H; subst. discriminate. }
  2:{ discriminate. }
  assert (Hw2 : w2 = with_ticks (S (ticks w1)) w1).
  { unfold Driver.document in Em.
    destruct (merge_metadata_ret _ _ _ _ _ _ Em) as (bfs & _ & Hw & _).
    exact Hw. }
  subst w2.
  unfold mbind at 1, M_bind at 1, try_catch in H.
  unfold mbind at 1, M_bind at 1 in H.
  destruct (Mongodb.updateReceiptById id patch _) as [[[|]|e|] w3] eqn:Eu;
    simpl in H; inversion H; subst; try discriminate.
  exists id, o, efs, w1, patch.
  do 8 (split; [assumption || reflexivity|]). reflexivity.
Qed.

Lemma field_toBSON (k : string) (fs : fields) :
  field k (toBSON_fields fs) = match lookup_field k fs with
                               | Some v => toBSON v
                               | None => VUndefined
                               end.
Proof.
  unfold field. rewrite lookup_field_toBSON.
  destruct (lookup_field k fs); reflexivity.
Qed.

(** For every successful update whose patch brings a truthy
    [processingMetadata], the persisted metadata names the current caller
    as [userId] and as the only element of [updatedBy], whatever the patch
    said. *)
Lemma update_overwrites_userId
  (request : Request) (w w' : World) (r : Response) :
  Functions.updateReceiptById request w = (Ret r, w') ->
  status r = 200 ->
  truthy (property "processingMetadata" (body request)) = true ->
  exists id fs pm,
    url_id (url request) = Some id
    /\ stored id w' = Some fs
    /\ field "processingMetadata" fs = VObj pm
    /\ field "userId" pm = toBSON (subject request w)
    /\ field "updatedBy" pm = VArr [toBSON (subject request w)].
Proof.
  intros H Hst Hpm. rewrite subject_verdict.
  destruct (update_handler_200 _ _ _ _ H Hst)
    as (id & o & efs & w1 & patch & _ & _ & Hu & Hp & Hfs & Hs & Em & Eu & _).
  unfold Driver.document in Em.
  destruct (merge_metadata_ret _ _ _ _ _ _ Em) as (bfs & Hb & _ & Hcases).
  rewrite Hb in Hpm. simpl in Hpm. cbv zeta in Hcases.
  destruct Hcases as [[_ ->]|[Hf _]]; [|congruence].
  destruct (updateReceiptById_effect _ _ _ _ _ Eu)
    as (_ & _ & [[Hne _]|(o' & fs' & _ & Hp' & Hfs' & _ & _ & _ & _ & Hrec)]);
    [congruence|].
  rewrite Hp in Hp'. inversion Hp'; subst o'.
  exists id. eexists. eexists. split; [exact Hu|].
  unfold stored. rewrite Hp, Hrec, lookup_insert_eq.
  split; [reflexivity|].
  unfold field at 1. rewrite lookup_merged. simpl.
  rewrite lookup_field_set_eq. unfold supplied_metadata. rewrite toBSON_obj.
  split; [reflexivity|].
  rewrite !field_toBSON.
  rewrite lookup_field_set_ne by discriminate.
  rewrite !lookup_field_set_eq. split; reflexivity.
Qed.

(** C5 at a patch whose [processingMetadata] is falsy without being
    absent.  The update is answered 200, and the persisted metadata has
    [updatedBy] equal to the caller alone but [userId] equal to [null]: the
    branch for missing metadata takes [userId] from the patch's falsy
    [processingMetadata], not from the caller. *)
Theorem update_with_falsy_metadata_drops_caller :
  let request :=
    Sample.put Sample.receipt_id (VObj [("processingMetadata", VNum 0)]) in
  let w := Sample.saved Sample.world in
  subject request w = VStr "alice"
  /\ fst (Functions.updateReceiptById request w)
     = Ret (mkResponse 200
              (VObj [("id", VStr Sample.receipt_id); ("success", VBool true)]))
  /\ exists fs pm,
       stored Sample.receipt_id (snd (Functions.updateReceiptById request w))
       = Some fs
       /\ field "processingMetadata" fs = VObj pm
       /\ field "userId" pm = VNull
       /\ field "updatedBy" pm = VArr [VStr "alice"].
Proof.
  cbv zeta. split; [vm_compute; reflexivity|].
  split; [vm_compute; reflexivity|].
  eexists. eexists. split; [vm_compute; reflexivity|].
  split; [vm_compute; reflexivity|]. split; vm_compute; reflexivity.
Qed.

(** ** The save handler                                                *)

Lemma get_prop_truthy (v : value) (k : string) :
  truthy v = true -> get_prop v k = Ret (property k v).
Proof. destruct v; try discriminate; reflexivity. Qed.

Lemma lacks_items_spec (part : value) :
  truthy part = true ->
  Functions.lacks_items part = Ret (negb (carries_items part)).
Proof.
  intros H. unfold Functions.lacks_items, carries_items.
  rewrite (get_prop_truthy _ _ H). simpl. unfold mret, outcome_ret.
  destruct (property "items" part); simpl; rewrite ?orb_true_r; reflexivity.
Qed.

(** validateReceiptData computes the structural rule of the
    specification. *)
Lemma validateReceiptData_spec (data : value) :
  truthy data = true ->
  Functions.validateReceiptData data = Ret (structurally_valid data).
Proof.
  intros H. unfold Functions.validateReceiptData, structurally_valid, present.
  rewrite !(get_prop_truthy _ _ H). simpl.
  destruct (truthy (property "originalData" data)) eqn:To;
    destruct (truthy (property "processedData" data)) eqn:Tp;
    destruct (truthy (property "shareData" data)) eqn:Ts; simpl;
    rewrite ?lacks_items_spec by assumption; simpl;
    repeat match goal with
           | |- context [carries_items ?p] => destruct (carries_items p); simpl
           end; reflexivity.
Qed.

Lemma structurally_valid_object (data : value) :
  structurally_valid data = true -> exists bfs, data = VObj bfs.
Proof.
  unfold structurally_valid, present.
  destruct data; simpl; try discriminate. eauto.
Qed.

Lemma stamp_metadata_run (userId : value) (bfs : fields) (w : World) :
  Functions.stamp_metadata userId (VObj bfs) w
  = let supplied := field "processingMetadata" bfs in
    if truthy supplied
    then match set_prop supplied "userId" userId with
         | Ret stamped =>
             (Ret (VObj (set_field "processingMetadata" stamped bfs)), w)
         | Throw e => (Throw e, w)
         | Beyond => (Beyond, w)
         end
    else (Ret (VObj (set_field "processingMetadata"
                       (fresh_metadata userId (VDate (clock w (ticks w))))
                       bfs)),
          with_ticks (S (ticks w)) w).
Proof.
  unfold Functions.stamp_metadata, mbind, M_bind, lift. simpl.
  destruct (truthy (field "processingMetadata" bfs)); simpl; [|reflexivity].
  destruct (set_prop (field "processingMetadata" bfs) "userId" userId);
    reflexivity.
Qed.

Lemma stamp_metadata_ret
  (userId : value) (bfs : fields) (w w0 : World) (data : value) :
  Functions.stamp_metadata userId (VObj bfs) w = (Ret data, w0) ->
  (exists metadata, data = VObj (set_field "processingMetadata" metadata bfs))
  /\ receipts w0 = receipts w /\ clock w0 = clock w
  /\ ticks w <= ticks w0 <= S (ticks w)
  /\ pks w0 = pks w /\ minted w0 = minted w.
Proof.
  rewrite stamp_metadata_run. cbv zeta.
  destruct (truthy (field "processingMetadata" bfs)).
  - destruct (set_prop _ _ _); intros H; inversion H; subst.
    repeat split; eauto; lia.
  - intros H; inversion H; subst. simpl. repeat split; eauto; lia.
Qed.

Lemma saveReceipt_run (request : Request) (w : World) (bfs : fields) :
  method request = "POST" ->
  truthy (verdict request w) = true ->
  body request = VObj bfs ->
  structurally_valid (body request) = true ->
  Functions.saveReceipt request w
  = match Functions.stamp_metadata (verdict request w) (VObj bfs) w with
    | (Ret data, w0) =>
        match Mongodb.createReceiptDocument data w0 with
        | (Ret documentId, w') =>
            (Ret (if String.eqb documentId ""
                  then failure 500 "Failed to create receipt document"
                  else saved_answer documentId), w')
        | (Throw e, w') =>
            (Ret (failure 500 ("Database operation failed: " ++ e)), w')
        | (Beyond, w') => (Beyond, w')
        end
    | (Throw e, w0) =>
        (Ret (failure 500 ("Failed to save receipt data: " ++ e)), w0)
    | (Beyond, w0) => (Beyond, w0)
    end.
Proof.
  intros Hm Ha Hb Hv.
  unfold Functions.saveReceipt, try_catch. rewrite Hm. simpl.
  erewrite bind_ret by apply verifyAuthToken_run.
  rewrite Ha. simpl. rewrite Hb in *. simpl.
  unfold mbind at 1, M_bind at 1, lift at 1.
  rewrite validateReceiptData_spec by reflexivity. rewrite Hv. simpl.
  unfold mbind at 1, M_bind at 1.
  destruct (Functions.stamp_metadata _ _ w) as [[data|e|] w0]; try reflexivity.
  unfold mbind at 1, M_bind at 1, try_catch.
  unfold mbind at 1, M_bind at 1.
  destruct (Mongodb.createReceiptDocument data w0) as [[id|e|] w1];
    simpl; try reflexivity.
  destruct (String.eqb id ""); reflexivity.
Qed.

(** A request the save handler turns down for its shape. *)
Lemma saveReceipt_400 (request : Request) (w : World) :
  method request = "POST" ->
  truthy (verdict request w) = true ->
  truthy (body request) = false \/ structurally_valid (body request) = false ->
  exists msg, Functions.saveReceipt request w = (Ret (failure 400 msg), w).
Proof.
  intros Hm Ha Hb.
  unfold Functions.saveReceipt, try_catch. rewrite Hm. simpl.
  erewrite bind_ret by apply verifyAuthToken_run.
  rewrite Ha. simpl.
  destruct (truthy (body request)) eqn:Tb; simpl; [|eauto].
  destruct Hb as [Hb|Hb]; [discriminate|].
  unfold mbind at 1, M_bind at 1, lift at 1.
  rewrite validateReceiptData_spec by assumption. rewrite Hb. simpl. eauto.
Qed.

(** What a 200 from the save handler tells about its run. *)
Lemma save_handler_200 (request : Request) (w w' : World) (r : Response) :
  Functions.saveReceipt request w = (Ret r, w') ->
  status r = 200 ->
  exists bfs data w0 id,
    method request = "POST"
    /\ truthy (verdict request w) = true
    /\ body request = VObj bfs
    /\ structurally_valid (body request) = true
    /\ Functions.stamp_metadata (verdict request w) (VObj bfs) w = (Ret data, w0)
    /\ Mongodb.createReceiptDocument data w0 = (Ret id, w')
    /\ r = saved_answer id.
Proof.
  intros H Hst.
  destruct (String.eqb_spec (method request) "POST") as [Hm|Hm].
  2:{ unfold Functions.saveReceipt, try_catch in H.
      apply String.eqb_neq in Hm. rewrite Hm in H. simpl in H.
      inversion H; subst. discriminate. }
  destruct (truthy (verdict request w)) eqn:Ha.
  2:{ unfold Functions.saveReceipt, try_catch in H. rewrite Hm in H.
      simpl in H. erewrite bind_ret in H by apply verifyAuthToken_run.
      rewrite Ha in H. simpl in H. inversion H; subst. discriminate. }
  destruct (truthy (body request)) eqn:Tb.
  2:{ destruct (saveReceipt_400 request w Hm Ha (or_introl Tb)) as (msg & E).
      rewrite E in H. inversion H; subst. discriminate. }
  destruct (structurally_valid (body request)) eqn:Hv.
  2:{ destruct (saveReceipt_400 request w Hm Ha (or_intror Hv)) as (msg & E).
      rewrite E in H. inversion H; subst. discriminate. }
  destruct (structurally_valid_object _ Hv) as (bfs & Hb).
  rewrite (saveReceipt_run request w bfs Hm Ha Hb Hv) in H.
  destruct (Functions.stamp_metadata _ _ w) as [[data|e|] w0] eqn:Es.
  2:{ inversion H; subst. discriminate. }
  2:{ discriminate. }
  destruct (Mongodb.createReceiptDocument data w0) as [[id|e|] w1] eqn:Ec.
  2:{ inversion H; subst. discriminate. }
  2:{ discriminate. }
  destruct (String.eqb id "") eqn:Eid; inversion H; subst; [discriminate|].
  exists bfs, data, w0, id. repeat split; assumption || reflexivity.
Qed.

(** ** The load handler                                                *)

Lemma loadReceiptById_run
  (request : Request) (w : World) (id : string) (o : ObjectId.t) (fs : fields) :
  method request = "GET" ->
  truthy (verdict request w) = true ->
  url_id (url request) = Some id ->
  ObjectId.parse id = Some o -> receipts w !! o = Some fs ->
  reachable w = true ->
  exists w1,
    same_data w w1
    /\ Functions.loadReceiptById request w
       = (match load_response id (Driver.document o fs) with
          | Ret v => Ret (mkResponse 200 v)
          | Throw e => Ret (failure 500 ("Failed to load receipt: " ++ e))
          | Beyond => Beyond
          end, w1).
Proof.
  intros Hm Ha Hu Hp Hfs Hr.
  assert (Hid : id <> "") by (intros ->; discriminate Hp).
  destruct (getReceiptById_reachable id w Hid Hr) as (w1 & E & Hs).
  exists w1. split; [exact Hs|].
  unfold Functions.loadReceiptById, try_catch. rewrite Hm. simpl.
  erewrite bind_ret by apply verifyAuthToken_run.
  rewrite Ha, Hu. simpl.
  erewrite bind_ret by exact E.
  rewrite (lookup_document_stored _ _ _ _ Hp Hfs). simpl.
  unfold load_response, mbind, M_bind, outcome_bind, lift, mret, M_ret.
  destruct (Functions.inject_id "shareData" id _) as [r1|e|]; try reflexivity.
  destruct (Functions.inject_id "processedData" id r1) as [r2|e|];
    try reflexivity.
  destruct (set_prop r2 "documentId" (VStr id)) as [r3|e|]; try reflexivity.
  destruct (set_prop r3 "success" (VBool true)) as [r4|e|]; reflexivity.
Qed.




(** ** Save, then load                                                 *)

Lemma lookup_field_cons (k k' : string) (v : value) (r : fields) :
  lookup_field k ((k', v) :: r)
  = match lookup_field k r with
    | Some x => Some x
    | None => if String.eqb k' k then Some v else None
    end.
Proof. reflexivity. Qed.





Lemma fresh_key_parses (x : N) :
  ObjectId.parse (ObjectId.toString (x mod ObjectId.modulus)%N)
  = Some (x mod ObjectId.modulus)%N.
Proof. rewrite parse_toString, N.Div0.mod_mod. reflexivity. Qed.

(** What a 200 from the save handler has stored, for a payload without
    an [_id]. *)
Lemma save_handler_stored
  (request : Request) (w w1 : World) (r : Response) :
  nullish (property "_id" (body request)) = true ->
  Functions.saveReceipt request w = (Ret r, w1) ->
  status r = 200 ->
  exists bfs id o createdAt updatedAt metadata,
    body request = VObj bfs
    /\ structurally_valid (body request) = true
    /\ r = saved_answer id
    /\ ObjectId.parse id = Some o
    /\ receipts w !! o = None
    /\ receipts w1
       = <[o := toBSON_fields
                  (remove_field "_id"
                     (created_document (VDate createdAt) (VDate updatedAt)
                        (VObj (set_field "processingMetadata" metadata bfs))))]>
           (receipts w)
    /\ clock w1 = clock w
    /\ (exists n, ticks w <= n /\ S n < ticks w1
                  /\ createdAt = clock w n /\ updatedAt = clock w (S n)).
Proof.
  intros Hj H Hst.
  destruct (save_handler_200 _ _ _ _ H Hst)
    as (bfs & data & w0 & id & _ & _ & Hb & Hv & Es & Ec & Hr).
  destruct (stamp_metadata_ret _ _ _ _ _ Es)
    as ((md & ->) & Hrec0 & Hclock0 & Hticks0 & Hpks0 & Hmint0).
  destruct (createReceiptDocument_ret _ _ _ _ Ec)
    as (o & Hid & _ & Hnone & Hrec & Hclock & Hticks & Hkey).
  exists bfs, id, o, (clock w0 (ticks w0)), (clock w0 (S (ticks w0))), md.
  split; [exact Hb|]. split; [exact Hv|]. split; [exact Hr|].
  assert (Hparse : ObjectId.parse id = Some o).
  { destruct Hkey as [Hoid|[_ ->]].
    - exfalso. simpl in Hoid.
      rewrite field_set_ne in Hoid by discriminate.
      rewrite Hb in Hj. simpl in Hj. rewrite Hoid in Hj. discriminate.
    - subst id. apply fresh_key_parses. }
  split; [exact Hparse|].
  split; [rewrite <- Hrec0; exact Hnone|].
  split; [rewrite Hrec, Hrec0; reflexivity|].
  split; [congruence|].
  exists (ticks w0). rewrite Hclock0. repeat split; lia.
Qed.




(** ** What save accepts                                               *)

Lemma reachable_with_ticks (n : nat) (w : World) :
  reachable (with_ticks n w) = reachable w.
Proof.
  unfold reachable, Mongodb.connectToDatabase, try_catch, Driver.ping,
    Driver.connect, Driver.close, probe, record, modify, gets, throw,
    mbind, M_bind, mret, M_ret.
  simpl. destruct (cached w) eqn:C; simpl;
    destruct (net w (probes w)); simpl; rewrite ?C; simpl; try reflexivity.
  destruct (net w (S (probes w))); reflexivity.
Qed.

Lemma createReceiptDocument_inserts (receiptData : value) (w : World) :
  reachable w = true ->
  nullish (field "_id" (spread_props receiptData)) = true ->
  exists w1,
    receipts w1 = receipts w /\ refusal w1 = refusal w
    /\ Mongodb.createReceiptDocument receiptData w
       = match Driver.insert_at (next_key w)
                 (created_document (VDate (clock w (ticks w)))
                    (VDate (clock w (S (ticks w)))) receiptData) w1 with
         | (Ret o, w') => (Ret (ObjectId.toString o), w')
         | (Throw e, w') => (Throw e, w')
         | (Beyond, w') => (Beyond, w')
         end.
Proof.
  intros Hr Hn.
  destruct (reachable_connects w Hr)
    as (w0 & Ec & Hrec & Hclock & Hticks & Hpks & Hminted & _ & _ & Href & _).
  rewrite (createReceiptDocument_run receiptData w w0 Ec). cbv zeta.
  rewrite Hclock, Hticks.
  set (doc := created_document _ _ receiptData).
  assert (Hid : field "_id" doc = field "_id" (spread_props receiptData)).
  { unfold doc, created_document. rewrite !field_set_ne by discriminate.
    reflexivity. }
  exists (with_minted (S (minted w)) (with_ticks (S (S (ticks w))) w0)).
  split; [exact Hrec|]. split; [exact Href|].
  unfold Driver.insertOne. rewrite Hid.
  destruct (field "_id" (spread_props receiptData)); try discriminate;
    unfold Driver.createPk, gets, modify, mbind, M_bind, mret, M_ret;
    simpl; unfold next_key; rewrite Hpks, Hminted; reflexivity.
Qed.

Lemma createReceiptDocument_fresh (receiptData : value) (w : World) :
  reachable w = true ->
  nullish (field "_id" (spread_props receiptData)) = true ->
  receipts w !! next_key w = None ->
  storable w (created_document (VDate (clock w (ticks w)))
                (VDate (clock w (S (ticks w)))) receiptData) = true ->
  exists w',
    Mongodb.createReceiptDocument receiptData w
    = (Ret (ObjectId.toString (next_key w)), w').
Proof.
  intros Hr Hn Hfresh Hs.
  destruct (createReceiptDocument_inserts receiptData w Hr Hn)
    as (w1 & Hrec & Href & ->).
  rewrite insert_at_run. cbv zeta. unfold storable in Hs.
  destruct (bson_error _); [discriminate|].
  rewrite Hrec, Hfresh, Href.
  destruct (refusal w _); [discriminate|]. eauto.
Qed.

(** A creation that the store cannot take throws and stores nothing. *)
Lemma createReceiptDocument_refused (receiptData : value) (w : World) :
  nullish (field "_id" (spread_props receiptData)) = true ->
  reachable w = false
  \/ storable w (created_document (VDate (clock w (ticks w)))
                   (VDate (clock w (S (ticks w)))) receiptData) = false
  \/ receipts w !! next_key w <> None ->
  exists e w',
    Mongodb.createReceiptDocument receiptData w = (Throw e, w')
    /\ receipts w' = receipts w.
Proof.
  intros Hn H. destruct (reachable w) eqn:Hr.
  - destruct H as [H|H]; [discriminate|].
    destruct (createReceiptDocument_inserts receiptData w Hr Hn)
      as (w1 & Hrec & Href & ->).
    rewrite insert_at_run. cbv zeta. unfold storable in H.
    destruct (bson_error _); [eauto|].
    rewrite Hrec, Href.
    destruct (receipts w !! next_key w); [eauto|].
    destruct (refusal w _); [eauto|].
    destruct H as [H|H]; [discriminate | contradiction].
  - destruct (createReceiptDocument_unreachable receiptData w Hr)
      as (e & w' & E & Hrec & _). eauto.
Qed.

(** C4 fails when the store cannot be reached: the payload of the
    specification's own example, from an authenticated caller, is answered
    500. *)
Lemma save_is_500_when_the_store_is_down :
  authenticated (Sample.post Sample.latte) Sample.offline = true
  /\ structurally_valid Sample.latte = true
  /\ fst (Functions.saveReceipt (Sample.post Sample.latte) Sample.offline)
     = Ret (failure 500
              "Database operation failed: MongoDB connection failed: connect ECONNREFUSED").
Proof. repeat split; vm_compute; reflexivity. Qed.

Lemma stamp_metadata_saved (request : Request) (w : World) (bfs : fields) :
  body request = VObj bfs ->
  falsy_or_object (property "processingMetadata" (body request)) = true ->
  Functions.stamp_metadata (verdict request w) (VObj bfs) w
  = (Ret (VObj (set_field "processingMetadata" (stamped_metadata request w)
                  bfs)),
     if truthy (property "processingMetadata" (body request))
     then w else with_ticks (S (ticks w)) w).
Proof.
  intros Hb Hpm. rewrite stamp_metadata_run. cbv zeta.
  unfold stamped_metadata. rewrite Hb in *. simpl in *.
  destruct (truthy (field "processingMetadata" bfs)) eqn:T; [|reflexivity].
  unfold falsy_or_object in Hpm. rewrite T in Hpm. simpl in Hpm.
  destruct (field "processingMetadata" bfs); try discriminate; reflexivity.
Qed.

(** C4, as the code has it.  For an authenticated POST to save: a payload
    that is absent, that lacks all of [originalData], [processedData] and
    [shareData], or that has a [processedData] or [shareData] without an
    [items] array, is answered 400 with [success: false] and nothing is
    stored.  For a payload that passes this check, whose
    [processingMetadata] is absent, falsy or an object and which brings no
    [_id] of its own: when the store can be reached, the driver can
    serialize the document and the server takes it, and the generated key
    is not taken, the answer is 200 with [success: true] and an identifier
    that is not empty and under which the document is then stored; when one
    of these fails, the answer is 500 with [success: false] and nothing is
    stored. *)
Theorem save_accepts_well_formed_payloads (request : Request) (w : World) :
  method request = "POST" ->
  authenticated request w = true ->
  (truthy (body request) = false \/ structurally_valid (body request) = false ->
   exists r,
     Functions.saveReceipt request w = (Ret r, w)
     /\ status r = 400 /\ success r = VBool false)
  /\ (structurally_valid (body request) = true ->
      falsy_or_object (property "processingMetadata" (body request)) = true ->
      nullish (property "_id" (body request)) = true ->
      (reachable w = true ->
       storable w (saved_document request w) = true ->
       receipts w !! next_key w = None ->
       exists r w' id,
         Functions.saveReceipt request w = (Ret r, w')
         /\ status r = 200 /\ success r = VBool true
         /\ answer "id" r = VStr id /\ id <> ""
         /\ stored id w = None
         /\ stored id w'
            = Some (toBSON_fields
                      (remove_field "_id" (saved_document request w))))
      /\ (reachable w = false
          \/ storable w (saved_document request w) = false
          \/ receipts w !! next_key w <> None ->
          exists r w',
            Functions.saveReceipt request w = (Ret r, w')
            /\ status r = 500 /\ success r = VBool false
            /\ receipts w' = receipts w)).
Proof.
  intros Hm Ha. rewrite authenticated_verdict in Ha. split.
  - intros Hbad.
    destruct (saveReceipt_400 request w Hm Ha Hbad) as (msg & E).
    eexists. split; [exact E|]. split; reflexivity.
  - intros Hv Hpm Hid.
    destruct (structurally_valid_object _ Hv) as (bfs & Hb).
    rewrite (saveReceipt_run request w bfs Hm Ha Hb Hv).
    rewrite (stamp_metadata_saved request w bfs Hb Hpm).
    set (data := VObj (set_field "processingMetadata"
                         (stamped_metadata request w) bfs)).
    set (w0 := if truthy (property "processingMetadata" (body request))
               then w else with_ticks (S (ticks w)) w).
    assert (Hr0 : reachable w0 = reachable w)
      by (unfold w0; destruct (truthy (property "processingMetadata" (body request)));
          [reflexivity | apply reachable_with_ticks]).
    assert (Hrec0 : receipts w0 = receipts w)
      by (unfold w0; destruct (truthy (property "processingMetadata" (body request))); reflexivity).
    assert (Hkey0 : next_key w0 = next_key w)
      by (unfold w0; destruct (truthy (property "processingMetadata" (body request))); reflexivity).
    assert (Hdoc : created_document (VDate (clock w0 (ticks w0)))
                     (VDate (clock w0 (S (ticks w0)))) data
                   = saved_document request w).
    { unfold saved_document, data, w0. rewrite Hb. simpl.
      destruct (truthy (field "processingMetadata" bfs)); reflexivity. }
    assert (Hs0 : storable w0 (saved_document request w)
                  = storable w (saved_document request w))
      by (unfold w0; destruct (truthy (property "processingMetadata" (body request))); reflexivity).
    assert (Hn0 : nullish (field "_id" (spread_props data)) = true).
    { unfold data. simpl. rewrite field_set_ne by discriminate.
      rewrite Hb in Hid. exact Hid. }
    split.
    + intros Hr Hs Hfresh.
      destruct (createReceiptDocument_fresh data w0) as (w' & E).
      { rewrite Hr0. exact Hr. }
      { exact Hn0. }
      { rewrite Hrec0, Hkey0. exact Hfresh. }
      { rewrite Hdoc, Hs0. exact Hs. }
      rewrite E.
      destruct (createReceiptDocument_ret _ _ _ _ E)
        as (o & Ho & _ & Hnone & Hrec & _ & _ & Hkey).
      assert (Hparse : ObjectId.parse (ObjectId.toString o) = Some o).
      { destruct Hkey as [Hoid|[_ ->]].
        - rewrite Hoid in Hn0. discriminate.
        - apply fresh_key_parses. }
      assert (Hne : ObjectId.toString (next_key w0) <> "").
      { intros Hempty. pose proof (toString_not_empty (next_key w0)) as Hx.
        rewrite Hempty in Hx. discriminate. }
      apply String.eqb_neq in Hne as Hne'. rewrite Hne'.
      exists (saved_answer (ObjectId.toString (next_key w0))), w',
        (ObjectId.toString (next_key w0)).
      split; [reflexivity|]. split; [reflexivity|]. split; [reflexivity|].
      split; [reflexivity|]. split; [exact Hne|].
      rewrite Ho. unfold stored. rewrite Hparse.
      split; [rewrite <- Hrec0; exact Hnone|].
      rewrite Hrec, Hdoc. apply lookup_insert_eq.
    + intros Hbad.
      destruct (createReceiptDocument_refused data w0 Hn0)
        as (e & w' & E & Hrec).
      { rewrite Hr0, Hdoc, Hs0, Hrec0, Hkey0. exact Hbad. }
      rewrite E. eexists _, w'. split; [reflexivity|].
      split; [reflexivity|]. split; [reflexivity|]. congruence.
Qed.

Lemma save_accepts_well_formed_payloads_witness :
  exists r w' id,
    Functions.saveReceipt (Sample.post Sample.latte) Sample.world = (Ret r, w')
    /\ status r = 200 /\ success r = VBool true
    /\ answer "id" r = VStr id /\ id <> ""
    /\ stored id Sample.world = None
    /\ stored id w'
       = Some (toBSON_fields
                 (remove_field "_id"
                    (saved_document (Sample.post Sample.latte) Sample.world))).
Proof.
  assert (Ha : authenticated (Sample.post Sample.latte) Sample.world = true)
    by (vm_compute; reflexivity).
  destruct (save_accepts_well_formed_payloads (Sample.post Sample.latte)
              Sample.world eq_refl Ha) as [_ H].
  destruct (H eq_refl eq_refl eq_refl) as [Hok _].
  apply Hok.
  - reflexivity.
  - vm_compute. reflexivity.
  - vm_compute. reflexivity.
Defined.

(** A payload with a field name the driver cannot write, sent to a store
    that is up: the insert throws before anything is sent, and the save is
    answered 500. *)
Example save_is_500_on_a_name_with_nul :
  let payload :=
    VObj [("originalData",
           VObj [(String "a" (String zero "b"), VNum 1)])] in
  structurally_valid payload = true
  /\ fst (Functions.saveReceipt (Sample.post payload) Sample.world)
     = Ret (failure 500
              ("Database operation failed: key "
               ++ String "a" (String zero "b")
               ++ " must not contain null bytes"))
  /\ receipts (snd (Functions.saveReceipt (Sample.post payload) Sample.world))
     = receipts Sample.world.
Proof. cbv zeta. repeat split; vm_compute; reflexivity. Qed.

(** ** Save, update, then load                                         *)





(** With a clock that does not advance between the two readings, the
    [updatedAt] of the update equals the one of the save: "strictly later"
    rests on the clock, not on the code. *)
Example updatedAt_is_not_later_on_a_frozen_clock :
  exists fs fs',
    stored Sample.receipt_id (Sample.saved Sample.frozen) = Some fs
    /\ stored Sample.receipt_id
         (snd (Functions.updateReceiptById
                 (Sample.put Sample.receipt_id
                    (VObj [("processingMetadata", VObj [])]))
                 (Sample.saved Sample.frozen))) = Some fs'
    /\ field "updatedAt" fs = VDate 1700000000000
    /\ field "updatedAt" fs' = VDate 1700000000000.
Proof.
  eexists. eexists. split; [vm_compute; reflexivity|].
  split; [vm_compute; reflexivity|]. split; reflexivity.
Qed.





(** ** Further runs on concrete inputs                                 *)

(** A [processingMetadata] that is a string: the assignment of [userId] on
    it throws in strict mode and the save is answered 500. *)
Example save_is_500_on_a_primitive_processingMetadata :
  structurally_valid
    (VObj [("originalData", VObj [("imageUri", VStr "file:///r.jpg")]);
           ("processingMetadata", VStr "mobile")]) = true
  /\ fst (Functions.saveReceipt
            (Sample.post
               (VObj [("originalData", VObj [("imageUri", VStr "file:///r.jpg")]);
                      ("processingMetadata", VStr "mobile")]))
            Sample.world)
     = Ret (failure 500
              "Failed to save receipt data: Cannot create property 'userId' on string 'mobile'").
Proof. split; vm_compute; reflexivity. Qed.

(** A patch that names [_id]: the driver refuses to change the identifier
    and the adapter answers [false] although the document is there. *)
Example updateReceiptById_refuses_a_patch_with_an_id :
  fst (Mongodb.updateReceiptById Sample.receipt_id
         (VObj [("_id", VStr "000000000000000000000000")])
         (Sample.saved Sample.world)) = Ret false.
Proof. vm_compute. reflexivity. Qed.

(** The example of section 8 of the specification: save answers an
    identifier of 24 hex digits, and the load of it shows the first item and
    the identifier. *)
Example latte_round_trip :
  fst (Functions.saveReceipt (Sample.post Sample.latte) Sample.world)
  = Ret (saved_answer "507f1f77bcf86cd799439011")
  /\ exists r items first,
       fst (Functions.loadReceiptById (Sample.get Sample.receipt_id)
              (Sample.saved Sample.world)) = Ret r
       /\ property "items" (answer "processedData" r) = VArr items
       /\ head items = Some first
       /\ property "name" first = VStr "Latte"
       /\ answer "documentId" r = VStr "507f1f77bcf86cd799439011".
Proof.
  split; [vm_compute; reflexivity|].
  eexists. eexists. eexists.
  split; [vm_compute; reflexivity|].
  split; [vm_compute; reflexivity|].
  split; [reflexivity|]. split; reflexivity.
Qed.

(* ================================================================== *)
(** * Further properties of the code                                 *)
(* ================================================================== *)

Lemma append_cons (c : ascii) (a b : string) :
  (String c a ++ b)%string = String c (a ++ b).
Proof. reflexivity. Qed.

Lemma append_assoc (a b c : string) :
  ((a ++ b) ++ c = a ++ (b ++ c))%string.
Proof.
  induction a as [|x a IH]; [reflexivity|].
  rewrite !append_cons, IH. reflexivity.
Qed.

Lemma append_empty (a : string) : (a ++ "")%string = a.
Proof.
  induction a as [|x a IH]; [reflexivity|].
  rewrite append_cons, IH. reflexivity.
Qed.

Lemma prefix_append (a b : string) : String.prefix a (a ++ b)%string = true.
Proof.
  induction a as [|c a IH].
  - destruct b; reflexivity.
  - rewrite append_cons. cbn [String.prefix].
    destruct (ascii_dec c c) as [_|Hc]; [exact IH | congruence].
Qed.

(** Once a separator has been matched, its remaining characters are
    passed over. *)
Lemma split_go_skip (sep : string) (a : string) : forall cur c t,
  split_go sep (String.length a) cur (a ++ String c t)%string
  = split_go sep 0 cur (String c t).
Proof.
  induction a as [|x a IH]; intros cur c t; [reflexivity|].
  rewrite append_cons. cbn [String.length split_go]. apply IH.
Qed.

Lemma split_go_skip_all (sep : string) (a : string) : forall cur,
  split_go sep (String.length a) cur a = [cur].
Proof.
  induction a as [|x a IH]; intros cur; [reflexivity|].
  cbn [String.length split_go]. apply IH.
Qed.

(** A string in which the separator does not occur is one piece. *)
Lemma split_go_whole (sep : string) (t : string) : forall cur,
  occurs sep t = false -> split_go sep 0 cur t = [(cur ++ t)%string].
Proof.
  induction t as [|c r IH]; intros cur H.
  - cbn [split_go]. rewrite append_empty. reflexivity.
  - cbn [occurs] in H. apply orb_false_elim in H as [Hp Hr].
    cbn [split_go]. rewrite Hp. rewrite IH by exact Hr.
    rewrite append_assoc. reflexivity.
Qed.

Lemma split_separator_first (c : ascii) (sep t : string) :
  occurs (String c sep) t = false ->
  split (String c sep) (String c sep ++ t)%string = [""; t].
Proof.
  intros H. unfold split. rewrite append_cons. cbn [split_go].
  rewrite <- append_cons, prefix_append.
  replace (String.length (String c sep) - 1) with (String.length sep)
    by (cbn [String.length]; lia).
  destruct t as [|x t].
  - rewrite append_empty, split_go_skip_all. reflexivity.
  - rewrite split_go_skip, split_go_whole by exact H. reflexivity.
Qed.

Lemma bearer_of_header (token : string) :
  occurs "Bearer " token = false ->
  Auth.bearer ("Bearer " ++ token) = token.
Proof.
  intros H. unfold Auth.bearer.
  rewrite (split_separator_first "B" "earer " token H). reflexivity.
Qed.

Lemma prefix_empty (s : string) : String.prefix "" s = true.
Proof. destruct s; reflexivity. Qed.

Lemma prefix_char (a c : ascii) (r : string) :
  String.prefix (String a "") (String c r) = Ascii.eqb a c.
Proof.
  cbn [String.prefix]. rewrite prefix_empty.
  destruct (ascii_dec a c) as [->|Hn].
  - symmetry. apply Ascii.eqb_refl.
  - symmetry. apply Ascii.eqb_neq. exact Hn.
Qed.

Lemma occurs_char_app (a : ascii) (x y : string) :
  occurs (String a "") (x ++ y)%string
  = occurs (String a "") x || occurs (String a "") y.
Proof.
  induction x as [|c x IH].
  - change ("" ++ y)%string with y. reflexivity.
  - rewrite append_cons. cbn [occurs]. rewrite IH, !prefix_char.
    rewrite orb_assoc. reflexivity.
Qed.

(** The pieces of a split by one character do not hold it. *)
Lemma split_go_pieces (a : ascii) (s : string) : forall cur,
  occurs (String a "") cur = false ->
  Forall (fun p => occurs (String a "") p = false)
    (split_go (String a "") 0 cur s).
Proof.
  induction s as [|c r IH]; intros cur Hcur.
  - cbn [split_go]. repeat constructor. exact Hcur.
  - cbn [split_go]. rewrite prefix_char.
    destruct (Ascii.eqb a c) eqn:E.
    + constructor; [exact Hcur|]. apply IH. reflexivity.
    + apply IH. rewrite occurs_char_app, Hcur. cbn [occurs].
      rewrite prefix_char, E. reflexivity.
Qed.

(** What follows the last separator is split on its own. *)
Lemma split_go_last (a : ascii) (t : string) (p : string) : forall cur,
  exists l,
    split_go (String a "") 0 cur (p ++ String a t)%string
    = l ++ split_go (String a "") 0 "" t.
Proof.
  induction p as [|c r IH]; intros cur.
  - exists [cur]. change ("" ++ String a t)%string with (String a t).
    cbn [split_go]. rewrite prefix_char, Ascii.eqb_refl. reflexivity.
  - rewrite append_cons. cbn [split_go]. rewrite prefix_char.
    destruct (Ascii.eqb a c).
    + destruct (IH "") as [l E]. exists (cur :: l).
      cbn [String.length Nat.sub]. rewrite E. reflexivity.
    + apply IH.
Qed.

Lemma url_id_of_path (p id : string) :
  id <> "" -> occurs "/" id = false ->
  url_id (p ++ "/" ++ id) = Some id.
Proof.
  intros Hid Hno. unfold url_id, split.
  change ("/" ++ id)%string with (String "/" id).
  destruct (split_go_last "/" id p "") as [l ->].
  rewrite split_go_whole by exact Hno.
  change ("" ++ id)%string with id.
  rewrite List.filter_app. cbn [List.filter].
  apply String.eqb_neq in Hid. rewrite Hid. cbn [negb].
  apply last_snoc.
Qed.

Lemma url_id_segment (u id : string) :
  url_id u = Some id -> id <> "" /\ occurs "/" id = false.
Proof.
  unfold url_id, split. intros H.
  apply last_Some_elem_of in H.
  apply list_elem_of_In, List.filter_In in H as [Hin Hne].
  split.
  - apply String.eqb_neq. destruct (String.eqb id ""); [discriminate|reflexivity].
  - pose proof (split_go_pieces "/" u "" eq_refl) as Hall.
    rewrite Forall_forall in Hall. apply Hall, list_elem_of_In, Hin.
Qed.


Lemma hex_digit_no_slash (d : N) :
  Ascii.eqb "/" (ObjectId.hex_digit d) = false.
Proof.
  unfold ObjectId.hex_digit. generalize (N.to_nat d). intros n.
  do 16 (destruct n as [|n]; [reflexivity|]). reflexivity.
Qed.

Lemma hex_of_no_slash (k : nat) : forall n,
  occurs "/" (ObjectId.hex_of k n) = false.
Proof.
  induction k as [|k IH]; intros n; [reflexivity|].
  cbn [ObjectId.hex_of]. rewrite occurs_char_app, IH.
  cbn [occurs]. rewrite prefix_char, hex_digit_no_slash. reflexivity.
Qed.

(** X1. The identifier is the last piece of the URL between slashes that is
    not empty: whatever comes before the last slash, a non-empty [id] without
    a slash is read back from [.../id] (the URL api.ts builds with
    [`${LOAD_RECEIPT_URL}/${id}`]), and an identifier the handlers read is
    never empty and holds no slash. *)
Theorem url_id_is_the_last_segment :
  (forall p id : string,
     id <> "" -> occurs "/" id = false -> url_id (p ++ "/" ++ id) = Some id)
  /\ (forall u id : string,
        url_id u = Some id -> id <> "" /\ occurs "/" id = false).
Proof. split; [exact url_id_of_path | exact url_id_segment]. Qed.

(** X2. An identifier the store has issued, put after the endpoint's URL as
    api.ts does, is the identifier the load and update handlers read from
    the request, and it parses back to the ObjectId it was printed from. *)
Theorem issued_id_is_read_from_the_url (p : string) (o : ObjectId.t) :
  url_id (p ++ "/" ++ ObjectId.toString o) = Some (ObjectId.toString o)
  /\ ObjectId.parse (ObjectId.toString o) = Some (o mod ObjectId.modulus)%N.
Proof.
  split; [|apply parse_toString].
  apply url_id_of_path.
  - apply String.eqb_neq, toString_not_empty.
  - apply hex_of_no_slash.
Qed.

(** X3. The credential the client attaches is the one the server verifies: for
    a signed-in user whose token is not empty and does not hold the text
    "Bearer ", addAuthHeader gives options whose Authorization header is
    "Bearer " followed by the token, every other header and every other
    option being as given; and for a request that carries this header
    verifyAuthToken asks the identity provider about exactly that token and
    answers the [uid] it decodes. *)
Theorem client_credential_is_verified
  (user : Client.User) (token : string) (ofs : fields) (request : Request)
  (w : World) (d uid : value) :
  Client.getIdToken user = Client.Issued token ->
  token <> "" ->
  occurs "Bearer " token = false ->
  (truthy (field "headers" ofs) = false
   \/ exists hfs, field "headers" ofs = VObj hfs) ->
  exists init,
    Client.addAuthHeader (Some user) (VObj ofs) = Ret init
    /\ Client.header "Authorization" init = Some ("Bearer " ++ token)%string
    /\ (forall k, k <> "headers" -> property k init = field k ofs)
    /\ (forall k, k <> "Authorization" ->
          property k (property "headers" init)
          = property k (field "headers" ofs))
    /\ (authorization request = Client.header "Authorization" init ->
        verifyIdToken w token = Fulfilled d ->
        get_prop d "uid" = Ret uid ->
        truthy uid = true ->
        Auth.verifyAuthToken request w = (Ret uid, w)).
Proof.
  intros Htok Hne Hno Hh.
  unfold Client.addAuthHeader, Client.getAuthToken. rewrite Htok.
  assert (Tt : truthy (VStr token) = true).
  { simpl. apply String.eqb_neq in Hne. rewrite Hne. reflexivity. }
  rewrite Tt. cbn [negb get_prop mbind outcome_bind mret outcome_ret].
  eexists. split; [reflexivity|].
  assert (Hhd : forall hs,
    Client.header "Authorization"
      (VObj (set_field "headers"
               (VObj (set_field "Authorization" (VStr ("Bearer " ++ token)) hs))
               ofs)) = Some ("Bearer " ++ token)%string).
  { intros hs. unfold Client.header. cbn [property].
    rewrite field_set_eq. cbn [property]. rewrite field_set_eq. reflexivity. }
  split; [apply Hhd|].
  split; [|split].
  - intros k Hk. cbn [property]. apply field_set_ne. congruence.
  - intros k Hk. cbn [property]. rewrite field_set_eq. cbn [property].
    rewrite field_set_ne by congruence.
    destruct Hh as [Hf|[hfs Hf]]; rewrite Hf.
    + destruct (field "headers" ofs); try discriminate; reflexivity.
    + reflexivity.
  - rewrite Hhd. intros Ha Hv Hu Tu.
    rewrite verifyAuthToken_run. f_equal. f_equal.
    unfold verdict. rewrite Ha.
    assert (Th : truthy (VStr ("Bearer " ++ token)) = true) by reflexivity.
    rewrite Th, prefix_append, (bearer_of_header token Hno).
    apply String.eqb_neq in Hne. cbn [negb orb]. rewrite Hne, Hv.
    assert (Td : truthy d = true).
    { destruct d; simpl in Hu; try reflexivity; try discriminate;
        inversion Hu; subst; discriminate. }
    rewrite Td, Hu, Tu. reflexivity.
Qed.

Lemma client_credential_is_verified_witness :
  Auth.verifyAuthToken (Sample.get Sample.receipt_id) Sample.world
  = (Ret (VStr "alice"), Sample.world).
Proof.
  destruct (client_credential_is_verified
              (Client.mkUser "alice" (Client.Issued "alice-token"))
              "alice-token"
              [("method", VStr "GET");
               ("headers", VObj [("Accept", VStr "application/json")])]
              (Sample.get Sample.receipt_id) Sample.world
              (VObj [("uid", VStr "alice")]) (VStr "alice"))
    as (init & _ & Hh & _ & _ & Hv).
  - reflexivity.
  - discriminate.
  - reflexivity.
  - right. eexists. reflexivity.
  - apply Hv; [rewrite Hh|..]; reflexivity.
Defined.

(** ** connectToDatabase: the cached handle *)

Ltac run_connect :=
  unfold Mongodb.connectToDatabase, try_catch, Driver.ping, Driver.connect,
    Driver.close, probe, record, modify, gets, throw,
    mbind, M_bind, mret, M_ret;
  simpl.

Lemma connected_is_cached (w w1 : World) :
  Mongodb.connectToDatabase w = (Ret tt, w1) -> cached w1 = true.
Proof.
  run_connect.
  destruct (cached w) eqn:C; simpl;
    destruct (net w (probes w)); simpl; rewrite ?C; simpl;
    try (intros H; inversion H; subst; simpl; congruence); try discriminate.
  destruct (net w (S (probes w))); simpl;
    [intros H; inversion H; subst; reflexivity | discriminate].
Qed.

(** X4. connectToDatabase ends with a handle cached exactly when it
    succeeds: after a failure, which it reports as 'MongoDB connection
    failed: ...', no handle is left in the cache, stale or half-opened.
    Either way the collection is as it was. *)
Theorem connectToDatabase_caches_only_on_success (w : World) :
  (exists w',
     Mongodb.connectToDatabase w = (Ret tt, w')
     /\ cached w' = true /\ receipts w' = receipts w)
  \/ (exists e w',
        Mongodb.connectToDatabase w
        = (Throw ("MongoDB connection failed: " ++ e)%string, w')
        /\ cached w' = false /\ receipts w' = receipts w).
Proof.
  run_connect.
  destruct (cached w) eqn:C; simpl;
    destruct (net w (probes w)); simpl; rewrite ?C; simpl;
    try (left; eexists; split; [reflexivity|]; simpl; auto; fail);
    try (right; eexists; eexists; split; [reflexivity|]; simpl; auto; fail).
  destruct (net w (S (probes w))); simpl.
  - left. eexists. split; [reflexivity|]. simpl. auto.
  - right. eexists. eexists. split; [reflexivity|]. simpl. auto.
Qed.

(** X5. A connection that has been made is reused.  After a successful
    connectToDatabase, the next call only pings when the server answers the
    ping: no second connection is opened.  When the ping fails, the stale
    handle is closed and one fresh connection is attempted, whose outcome is
    the outcome of the call; there is no further retry. *)
Theorem connectToDatabase_reuses_the_connection (w w1 : World) :
  Mongodb.connectToDatabase w = (Ret tt, w1) ->
  (net w1 (probes w1) = true ->
   exists w2,
     Mongodb.connectToDatabase w1 = (Ret tt, w2)
     /\ journal w2 = EvPing :: journal w1
     /\ probes w2 = S (probes w1))
  /\ (net w1 (probes w1) = false ->
      exists r w2,
        Mongodb.connectToDatabase w1 = (r, w2)
        /\ journal w2 = EvConnect :: EvClose :: EvPing :: journal w1
        /\ probes w2 = S (S (probes w1))
        /\ (r = Ret tt <-> net w1 (S (probes w1)) = true)
        /\ cached w2 = net w1 (S (probes w1))).
Proof.
  intros H. apply connected_is_cached in H as C.
  clear H. split; intros Hn; run_connect; rewrite C; simpl; rewrite Hn; simpl.
  - eexists. split; [reflexivity|]. simpl. auto.
  - destruct (net w1 (S (probes w1))); simpl.
    + eexists. eexists. split; [reflexivity|]. simpl.
      repeat split; auto.
    + eexists. eexists. split; [reflexivity|]. simpl.
      repeat split; auto; discriminate.
Qed.

Lemma connectToDatabase_reuses_the_connection_witness :
  exists w2,
    Mongodb.connectToDatabase (snd (Mongodb.connectToDatabase Sample.world))
    = (Ret tt, w2)
    /\ journal w2 = [EvPing; EvConnect]
    /\ probes w2 = 2.
Proof.
  apply (connectToDatabase_reuses_the_connection Sample.world
           (snd (Mongodb.connectToDatabase Sample.world))).
  - apply injective_projections; reflexivity.
  - reflexivity.
Defined.

(** ** A request with another method *)

(** X6. Each endpoint answers a request whose method is neither OPTIONS nor
    its own with 405 and [success: false] before it looks at the credential,
    the URL or the body: the answer is the same for an authenticated caller,
    and the world is exactly as it was. *)
Theorem wrong_method_is_405 (ep : endpoint) (request : Request) (w : World) :
  preflight request = false ->
  method request <> verb ep ->
  handler ep request w = (Ret Functions.method_not_allowed, w)
  /\ status Functions.method_not_allowed = 405
  /\ success Functions.method_not_allowed = VBool false.
Proof.
  intros Hp Hm. apply String.eqb_neq in Hm.
  split; [|split; reflexivity].
  unfold handler, onRequest. rewrite Hp.
  destruct ep; simpl in *;
    [unfold Functions.processReceipt | unfold Functions.saveReceipt
    | unfold Functions.loadReceiptById | unfold Functions.updateReceiptById];
    unfold try_catch; rewrite Hm; reflexivity.
Qed.

Lemma wrong_method_is_405_witness :
  handler Update (Sample.post Sample.latte) Sample.world
  = (Ret Functions.method_not_allowed, Sample.world)
  /\ status Functions.method_not_allowed = 405
  /\ success Functions.method_not_allowed = VBool false.
Proof. apply wrong_method_is_405; [reflexivity | discriminate]. Defined.

(** ** The load handler: refusals, and what it leaves alone *)

Lemma set_prop_settles (v : value) (k : string) (x : value) :
  (exists v', set_prop v k x = Ret v' /\ (forall fs, v = VObj fs ->
      v' = VObj (set_field k x fs)) /\ (forall fs, v' = VObj fs ->
      exists fs0, v = VObj fs0))
  \/ exists e, set_prop v k x = Throw e.
Proof.
  destruct v; simpl; eauto;
    left; eexists; (split; [reflexivity|]); split; intros; try discriminate;
    try (inversion H; subst; eauto).
Qed.

Lemma inject_id_settles (k id : string) (cfs : fields) :
  (exists cfs', Functions.inject_id k id (VObj cfs) = Ret (VObj cfs'))
  \/ exists e, Functions.inject_id k id (VObj cfs) = Throw e.
Proof.
  unfold Functions.inject_id. simpl.
  destruct (truthy (field k cfs)); [|left; eauto].
  destruct (field k cfs); simpl; eauto.
Qed.

(** The body of a load's answer is an object that says [success: true], or
    building it throws. *)
Lemma load_response_settles (id : string) (o : ObjectId.t) (fs : fields) :
  (exists rf, load_response id (Driver.document o fs) = Ret (VObj rf)
              /\ field "success" rf = VBool true)
  \/ exists e, load_response id (Driver.document o fs) = Throw e.
Proof.
  unfold load_response, Driver.document. rewrite json_clone_obj.
  unfold mbind, outcome_bind.
  destruct (inject_id_settles "shareData" id
              (clone_fields (("_id", VOid o) :: fs))) as [[c1 E1]|[e E1]];
    rewrite E1; [|right; eauto].
  destruct (inject_id_settles "processedData" id c1) as [[c2 E2]|[e E2]];
    rewrite E2; [|right; eauto].
  left. simpl. eexists. split; [reflexivity|]. apply field_set_eq.
Qed.

Lemma same_data_refl (w : World) : same_data w w.
Proof. unfold same_data. repeat split; lia. Qed.

Lemma refused_failure (code : nat) (msg : string) :
  In code [400; 401; 404; 405; 500] -> refused (failure code msg).
Proof. intros H. split; [exact H | reflexivity]. Qed.

Ltac refuse :=
  apply refused_failure; simpl; tauto.

(** X7. The load handler always answers, and only reads: for every request
    and every world it returns a response (no exception escapes it), with
    status 200 and [success: true] or with one of 400, 401, 404, 405, 500 and
    [success: false]; the collection, the clock and the key generator are
    left as they were. *)
Theorem load_always_answers_and_only_reads (request : Request) (w : World) :
  exists r w',
    Functions.loadReceiptById request w = (Ret r, w')
    /\ same_data w w'
    /\ ((status r = 200 /\ success r = VBool true) \/ refused r).
Proof.
  destruct (String.eqb (method request) "GET") eqn:Hm.
  2:{ exists Functions.method_not_allowed, w.
      unfold Functions.loadReceiptById, try_catch. rewrite Hm.
      split; [reflexivity|]. split; [apply same_data_refl|right; refuse]. }
  apply String.eqb_eq in Hm.
  destruct (truthy (verdict request w)) eqn:Ha.
  2:{ exists Functions.unauthorized, w.
      unfold Functions.loadReceiptById, try_catch. rewrite Hm. simpl.
      erewrite bind_ret by apply verifyAuthToken_run. rewrite Ha.
      split; [reflexivity|]. split; [apply same_data_refl|right; refuse]. }
  destruct (url_id (url request)) as [id|] eqn:Hu.
  2:{ eexists _, w.
      unfold Functions.loadReceiptById, try_catch. rewrite Hm. simpl.
      erewrite bind_ret by apply verifyAuthToken_run. rewrite Ha, Hu.
      split; [reflexivity|]. split; [apply same_data_refl|right; refuse]. }
  destruct (url_id_segment _ _ Hu) as [Hid _].
  destruct (reachable w) eqn:Hr.
  - destruct (ObjectId.parse id) as [o|] eqn:Hp;
      [destruct (receipts w !! o) as [fs|] eqn:Hfs|].
    + destruct (loadReceiptById_run request w id o fs Hm Ha Hu Hp Hfs Hr)
        as (w1 & Hs & ->).
      destruct (load_response_settles id o fs) as [(rf & -> & Hok)|[e ->]].
      * eexists _, w1. split; [reflexivity|]. split; [exact Hs|].
        left. split; [reflexivity | exact Hok].
      * eexists _, w1. split; [reflexivity|]. split; [exact Hs|].
        right; refuse.
    + destruct (getReceiptById_reachable id w Hid Hr) as (w1 & E & Hs).
      eexists _, w1.
      unfold Functions.loadReceiptById, try_catch. rewrite Hm. simpl.
      erewrite bind_ret by apply verifyAuthToken_run. rewrite Ha, Hu. simpl.
      erewrite bind_ret by exact E.
      unfold lookup_document. rewrite Hp, Hfs. simpl.
      split; [reflexivity|]. split; [exact Hs|right; refuse].
    + destruct (getReceiptById_reachable id w Hid Hr) as (w1 & E & Hs).
      eexists _, w1.
      unfold Functions.loadReceiptById, try_catch. rewrite Hm. simpl.
      erewrite bind_ret by apply verifyAuthToken_run. rewrite Ha, Hu. simpl.
      erewrite bind_ret by exact E.
      unfold lookup_document. rewrite Hp. simpl.
      split; [reflexivity|]. split; [exact Hs|right; refuse].
  - destruct (getReceiptById_unreachable id w Hid Hr) as (e & w1 & E & Hs).
    eexists _, w1.
    unfold Functions.loadReceiptById, try_catch. rewrite Hm. simpl.
    erewrite bind_ret by apply verifyAuthToken_run. rewrite Ha, Hu. simpl.
    erewrite bind_throw by exact E.
    split; [reflexivity|]. split; [exact Hs|right; refuse].
Qed.

Ltac enter_load Hm Ha :=
  unfold Functions.loadReceiptById, try_catch; rewrite Hm; simpl;
  erewrite bind_ret by apply verifyAuthToken_run; rewrite Ha.

(** X8. What the load handler refuses, for an authenticated GET.  With no
    identifier in the URL it answers 400 without going to the store.  When
    the store is reached and holds no document under the identifier, or the
    identifier is not the text of an ObjectId, it answers 404.  When the
    store cannot be reached it answers 500.  The collection is unchanged in
    each case. *)
Theorem load_refusals (request : Request) (w : World) :
  method request = "GET" ->
  authenticated request w = true ->
  (url_id (url request) = None ->
   Functions.loadReceiptById request w
   = (Ret (failure 400 "Receipt ID is required"), w))
  /\ (forall id, url_id (url request) = Some id ->
        reachable w = true -> stored id w = None ->
        exists w',
          Functions.loadReceiptById request w
          = (Ret (failure 404 "Receipt not found"), w')
          /\ same_data w w')
  /\ (forall id, url_id (url request) = Some id ->
        reachable w = false ->
        exists e w',
          Functions.loadReceiptById request w
          = (Ret (failure 500 ("Failed to load receipt: " ++ e)%string), w')
          /\ same_data w w').
Proof.
  intros Hm Ha. rewrite authenticated_verdict in Ha.
  split; [|split].
  - intros Hu. enter_load Hm Ha. rewrite Hu. reflexivity.
  - intros id Hu Hr Hs.
    destruct (url_id_segment _ _ Hu) as [Hid _].
    destruct (getReceiptById_reachable id w Hid Hr) as (w1 & E & Hsd).
    exists w1. split; [|exact Hsd].
    enter_load Hm Ha. rewrite Hu. simpl.
    erewrite bind_ret by exact E.
    assert (Hl : lookup_document id w = VNull).
    { unfold lookup_document. unfold stored in Hs.
      destruct (ObjectId.parse id); [rewrite Hs|]; reflexivity. }
    rewrite Hl. reflexivity.
  - intros id Hu Hr.
    destruct (url_id_segment _ _ Hu) as [Hid _].
    destruct (getReceiptById_unreachable id w Hid Hr) as (e & w1 & E & Hsd).
    exists e, w1. split; [|exact Hsd].
    enter_load Hm Ha. rewrite Hu. simpl.
    erewrite bind_throw by exact E. reflexivity.
Qed.

Lemma load_refusals_witness :
  exists w',
    Functions.loadReceiptById (Sample.get "not-an-object-id") Sample.world
    = (Ret (failure 404 "Receipt not found"), w')
    /\ same_data Sample.world w'.
Proof.
  destruct (load_refusals (Sample.get "not-an-object-id") Sample.world)
    as (_ & H & _); [reflexivity | reflexivity |].
  apply (H "not-an-object-id"); reflexivity.
Defined.

(** X9. The load handler does not look at who is asking: two requests with
    the same method and the same URL, each authenticated or each not, get
    the same answer and leave the same world, whoever their subjects are.
    Any authenticated caller reads any receipt. *)
Theorem load_does_not_depend_on_the_caller
  (request request' : Request) (w : World) :
  method request = method request' ->
  url request = url request' ->
  authenticated request w = authenticated request' w ->
  Functions.loadReceiptById request w = Functions.loadReceiptById request' w.
Proof.
  intros Hm Hu Ha. rewrite !authenticated_verdict in Ha.
  unfold Functions.loadReceiptById, try_catch.
  rewrite <- Hm, <- Hu.
  destruct (String.eqb (method request) "GET"); simpl; [|reflexivity].
  rewrite (bind_ret _ _ w w _ (verifyAuthToken_run request w)).
  rewrite (bind_ret _ _ w w _ (verifyAuthToken_run request' w)).
  rewrite <- Ha. reflexivity.
Qed.

Lemma load_does_not_depend_on_the_caller_witness :
  Functions.loadReceiptById (Sample.get Sample.receipt_id)
    (mkWorld ∅ false (fun _ => true) 0 (fun _ => 0%Z) 0 (fun _ => 0%N) 0
       (fun token => Fulfilled (VObj [("uid", VStr token)]))
       (fun _ _ => Rejected "") (fun _ => None) [])
  = Functions.loadReceiptById
      (mkRequest "GET" (Some "Bearer bob-token") ("/" ++ Sample.receipt_id)
         VUndefined)
      (mkWorld ∅ false (fun _ => true) 0 (fun _ => 0%Z) 0 (fun _ => 0%N) 0
         (fun token => Fulfilled (VObj [("uid", VStr token)]))
         (fun _ _ => Rejected "") (fun _ => None) []).
Proof.
  apply load_does_not_depend_on_the_caller; reflexivity.
Defined.

(** ** The update handler: refusals, and what it leaves alone *)

Ltac enter_update Hm Ha :=
  unfold Functions.updateReceiptById, try_catch; rewrite Hm; simpl;
  erewrite bind_ret by apply verifyAuthToken_run; rewrite Ha.

(** X10. What the update handler refuses, for an authenticated PUT.  With no
    identifier in the URL, or with a falsy body, it answers 400 without going
    to the store.  When the store is reached and holds no document under the
    identifier it answers 404 and creates none: the collection is as it
    was.  When the store cannot be reached it answers 500. *)
Theorem update_refusals (request : Request) (w : World) :
  method request = "PUT" ->
  authenticated request w = true ->
  (url_id (url request) = None ->
   Functions.updateReceiptById request w
   = (Ret (failure 400 "Receipt ID is required"), w))
  /\ (is_Some (url_id (url request)) -> truthy (body request) = false ->
      Functions.updateReceiptById request w
      = (Ret (failure 400 "Update data is required"), w))
  /\ (forall id, url_id (url request) = Some id ->
        truthy (body request) = true ->
        reachable w = true -> stored id w = None ->
        exists w',
          Functions.updateReceiptById request w
          = (Ret (failure 404 "Receipt not found"), w')
          /\ same_data w w')
  /\ (forall id, url_id (url request) = Some id ->
        truthy (body request) = true ->
        reachable w = false ->
        exists e w',
          Functions.updateReceiptById request w
          = (Ret (failure 500 ("Failed to update receipt: " ++ e)%string), w')
          /\ same_data w w').
Proof.
  intros Hm Ha. rewrite authenticated_verdict in Ha.
  split; [|split; [|split]].
  - intros Hu. enter_update Hm Ha. rewrite Hu. reflexivity.
  - intros [id Hu] Hb. enter_update Hm Ha. rewrite Hu, Hb. reflexivity.
  - intros id Hu Hb Hr Hs.
    destruct (url_id_segment _ _ Hu) as [Hid _].
    destruct (getReceiptById_reachable id w Hid Hr) as (w1 & E & Hsd).
    exists w1. split; [|exact Hsd].
    enter_update Hm Ha. rewrite Hu, Hb. simpl.
    erewrite bind_ret by exact E.
    assert (Hl : lookup_document id w = VNull).
    { unfold lookup_document. unfold stored in Hs.
      destruct (ObjectId.parse id); [rewrite Hs|]; reflexivity. }
    rewrite Hl. reflexivity.
  - intros id Hu Hb Hr.
    destruct (url_id_segment _ _ Hu) as [Hid _].
    destruct (getReceiptById_unreachable id w Hid Hr) as (e & w1 & E & Hsd).
    exists e, w1. split; [|exact Hsd].
    enter_update Hm Ha. rewrite Hu, Hb. simpl.
    erewrite bind_throw by exact E. reflexivity.
Qed.

Lemma update_refusals_witness :
  exists w',
    Functions.updateReceiptById
      (Sample.put Sample.receipt_id (VObj [("processingMetadata", VObj [])]))
      Sample.world
    = (Ret (failure 404 "Receipt not found"), w')
    /\ same_data Sample.world w'.
Proof.
  destruct (update_refusals
              (Sample.put Sample.receipt_id
                 (VObj [("processingMetadata", VObj [])])) Sample.world)
    as (_ & _ & H & _); [reflexivity | reflexivity |].
  apply (H Sample.receipt_id); reflexivity.
Defined.

Lemma keeps_rewrites (id : string) (updateData : value) (c0 : gmap N fields) :
  keeps (rewrites id c0) (Mongodb.updateReceiptById id updateData).
Proof.
  intros w r w' HQ E.
  destruct (updateReceiptById_effect _ _ _ _ _ E)
    as (_ & _ & [[_ Hrec]|(o' & fs' & _ & Hp' & Hfs' & _ & _ & _ & _ & Hrec)]);
    rewrite Hrec; [exact HQ|].
  destruct HQ as [Hc|(o & fs & fs1 & Hp & Hfs & Hc)]; rewrite Hc in *.
  - right. exists o', fs'. eexists. repeat split; eassumption || reflexivity.
  - assert (o' = o) by congruence. subst o'.
    right. exists o, fs. eexists. split; [exact Hp|]. split; [exact Hfs|].
    apply insert_insert_eq.
Qed.

Lemma update_handler_rewrites (request : Request) (c0 : gmap N fields) :
  keeps (fun c => c = c0
                  \/ exists id, url_id (url request) = Some id
                                /\ rewrites id c0 c)
    (Functions.updateReceiptById request).
Proof.
  unfold Functions.updateReceiptById.
  apply keeps_try; [|intros ?; apply keeps_ret].
  destruct (negb (String.eqb (method request) "PUT")); [apply keeps_ret|].
  apply keeps_bind; [apply keeps_verifyAuthToken|intros userId].
  destruct (negb (truthy userId)); [apply keeps_ret|].
  destruct (url_id (url request)) as [id|] eqn:Hu; [|apply keeps_ret].
  destruct (negb (truthy (body request))); [apply keeps_ret|].
  apply keeps_bind; [apply keeps_getReceiptById|intros existing].
  destruct (negb (truthy existing)); [apply keeps_ret|].
  apply keeps_bind.
  { unfold Functions.merge_metadata. repeat keeps_pure. }
  intros patch.
  apply keeps_bind.
  - apply keeps_try; [|intros ?; apply keeps_ret].
    apply keeps_bind; [|intros ?; apply keeps_ret].
    intros w r w' HQ E.
    assert (HQ' : rewrites id c0 (receipts w)).
    { destruct HQ as [->|(id' & Hu' & HQ)]; [left; reflexivity|].
      congruence. }
    right. exists id. split; [reflexivity|].
    exact (keeps_rewrites id patch c0 w r w' HQ' E).
  - intros [[|]|resp]; apply keeps_ret.
Qed.

(** X11. An update changes at most the document it addresses.  Whatever the
    request and however the handler ends, the collection is afterwards as
    it was, or differs only in the document stored under the identifier of
    the URL, which was there before: no document is created, none is
    deleted, and no other document is touched. *)
Theorem update_changes_only_the_addressed_document
  (request : Request) (w w' : World) (r : outcome Response) :
  Functions.updateReceiptById request w = (r, w') ->
  (receipts w' = receipts w
   \/ exists id o fs fs',
        url_id (url request) = Some id /\ ObjectId.parse id = Some o
        /\ receipts w !! o = Some fs
        /\ receipts w' = <[o := fs']> (receipts w))
  /\ (forall o, is_Some (receipts w' !! o) <-> is_Some (receipts w !! o)).
Proof.
  intros E.
  assert (H : receipts w' = receipts w
              \/ exists id o fs fs',
                   url_id (url request) = Some id /\ ObjectId.parse id = Some o
                   /\ receipts w !! o = Some fs
                   /\ receipts w' = <[o := fs']> (receipts w)).
  { destruct (update_handler_rewrites request (receipts w) w r w'
                (or_introl eq_refl) E)
      as [H|(id & Hu & [H|(o & fs & fs' & Hp & Hfs & H)])];
      [left; exact H | left; exact H |].
    right. exists id, o, fs, fs'. auto. }
  split; [exact H|].
  intros o. destruct H as [->|(id & o' & fs & fs' & _ & _ & Hfs & ->)];
    [reflexivity|].
  destruct (N.eq_dec o' o) as [->|Hne].
  - rewrite lookup_insert_eq. split; intros _; [exists fs; exact Hfs | eauto].
  - rewrite lookup_insert_ne by exact Hne. reflexivity.
Qed.

Lemma update_changes_only_the_addressed_document_witness :
  let request :=
    Sample.put Sample.receipt_id
      (VObj [("note", VStr "paid"); ("processingMetadata", VObj [])]) in
  let w := Sample.saved Sample.world in
  let w' := snd (Functions.updateReceiptById request w) in
  (receipts w' = receipts w
   \/ exists id o fs fs',
        url_id (url request) = Some id /\ ObjectId.parse id = Some o
        /\ receipts w !! o = Some fs
        /\ receipts w' = <[o := fs']> (receipts w))
  /\ (forall o, is_Some (receipts w' !! o) <-> is_Some (receipts w !! o)).
Proof.
  intros request w w'.
  apply (update_changes_only_the_addressed_document request w w'
           (fst (Functions.updateReceiptById request w))).
  apply surjective_pairing.
Defined.

(** ** Documents are never deleted *)

Section grows.
Variable Q : gmap N fields -> Prop.
(** [Q] stays true when a document is written. *)
Hypothesis Q_insert : forall c k v, Q c -> Q (<[k := v]> c).

Lemma grows_createPk : keeps Q Driver.createPk.
Proof.
  unfold Driver.createPk.
  repeat (apply keeps_bind; [|intros ?]);
    try apply keeps_gets; try apply keeps_ret.
  apply keeps_modify. reflexivity.
Qed.

Lemma grows_insert_at (o : ObjectId.t) (doc : fields) :
  keeps Q (Driver.insert_at o doc).
Proof.
  intros w r w' HQ E. rewrite insert_at_run in E. cbv zeta in E.
  destruct (bson_error _); [inversion E; subst; exact HQ|].
  destruct (receipts w !! o); [inversion E; subst; exact HQ|].
  destruct (refusal w _); inversion E; subst; simpl;
    [exact HQ | apply Q_insert, HQ].
Qed.

Lemma grows_insertOne (doc : fields) : keeps Q (Driver.insertOne doc).
Proof.
  unfold Driver.insertOne.
  destruct (field "_id" doc);
    try apply keeps_beyond; try apply grows_insert_at;
    (apply keeps_bind; [apply grows_createPk | intros ?; apply grows_insert_at]).
Qed.

Lemma grows_createReceiptDocument (receiptData : value) :
  keeps Q (Mongodb.createReceiptDocument receiptData).
Proof.
  unfold Mongodb.createReceiptDocument.
  repeat first [apply grows_insertOne | keeps_pure].
Qed.

Lemma grows_updateReceiptById (id : string) (updateData : value) :
  keeps Q (Mongodb.updateReceiptById id updateData).
Proof.
  intros w r w' HQ E.
  destruct (updateReceiptById_effect _ _ _ _ _ E)
    as (_ & _ & [[_ Hrec]|(o & fs & _ & _ & _ & _ & _ & _ & _ & Hrec)]);
    rewrite Hrec; [exact HQ | apply Q_insert, HQ].
Qed.

Lemma grows_handler (ep : endpoint) (request : Request) :
  keeps Q (handler ep request).
Proof.
  unfold handler, onRequest.
  destruct (preflight request); [apply keeps_ret|].
  destruct ep; simpl;
    [ unfold Functions.processReceipt, Functions.processReceiptWithGemini
    | unfold Functions.saveReceipt, Functions.stamp_metadata
    | unfold Functions.loadReceiptById
    | unfold Functions.updateReceiptById, Functions.merge_metadata ];
    repeat first
      [ apply grows_updateReceiptById | apply grows_createReceiptDocument
      | keeps_pure ].
Qed.

Lemma grows_perform (k : call) (w : World) :
  Q (receipts w) -> Q (receipts (perform k w)).
Proof.
  intros H. destruct k as [d|id|id d|ep request]; simpl.
  - destruct (Mongodb.createReceiptDocument d w) as [r w'] eqn:E.
    exact (grows_createReceiptDocument d w r w' H E).
  - destruct (Mongodb.getReceiptById id w) as [r w'] eqn:E.
    exact (keeps_getReceiptById _ id w r w' H E).
  - destruct (Mongodb.updateReceiptById id d w) as [r w'] eqn:E.
    exact (grows_updateReceiptById id d w r w' H E).
  - destruct (handler ep request w) as [r w'] eqn:E.
    exact (grows_handler ep request w r w' H E).
Qed.

Lemma grows_run (cs : list call) : forall w,
  Q (receipts w) -> Q (receipts (run cs w)).
Proof.
  unfold run. induction cs as [|k cs IH]; intros w H; [exact H|].
  simpl. apply IH. apply grows_perform. exact H.
Qed.

End grows.

(** X12. No operation deletes a document.  A document that is stored stays
    stored under its identifier through every sequence of calls of the store
    adapter and of the four handlers, however the calls end; and the
    collection never gets smaller. *)
Theorem documents_are_never_deleted (cs : list call) (w : World) :
  (forall o, is_Some (receipts w !! o) -> is_Some (receipts (run cs w) !! o))
  /\ size (receipts w) <= size (receipts (run cs w)).
Proof.
  split.
  - intros o. apply (grows_run (fun c => is_Some (c !! o))).
    intros c k v H. rewrite lookup_insert_is_Some.
    destruct (N.eq_dec k o); auto.
  - apply (grows_run (fun c => size (receipts w) <= size c)); [|lia].
    intros c k v H. rewrite map_size_insert.
    destruct (c !! k); simpl; lia.
Qed.

(** ** The process handler *)

Lemma processReceiptWithGemini_run (image type : value) (w : World) :
  Functions.processReceiptWithGemini image type w
  = (await (extraction w image type),
     with_journal (EvGenerateContent :: journal w) w).
Proof.
  unfold Functions.processReceiptWithGemini, try_catch, record, modify, gets,
    lift, throw, mbind, M_bind. simpl.
  destruct (extraction w image type); reflexivity.
Qed.

(** The process handler on an authenticated POST whose body is an object. *)
Lemma processReceipt_run (request : Request) (w : World) (bfs : fields) :
  method request = "POST" ->
  truthy (verdict request w) = true ->
  body request = VObj bfs ->
  Functions.processReceipt request w
  = if truthy (field "image" bfs)
    then
      (match extraction w (field "image" bfs) (mime_type (VObj bfs)) with
       | Fulfilled result =>
           match set_prop result "userId" (verdict request w) with
           | Ret result1 =>
               match set_prop result1 "success" (VBool true) with
               | Ret result2 => Ret (mkResponse 200 result2)
               | Throw e => Ret (process_failure e)
               | Beyond => Beyond
               end
           | Throw e => Ret (process_failure e)
           | Beyond => Beyond
           end
       | Rejected e => Ret (process_failure e)
       end,
       with_journal (EvGenerateContent :: journal w) w)
    else (Ret (failure 400 "No image provided"), w).
Proof.
  intros Hm Ha Hb.
  unfold Functions.processReceipt, try_catch. rewrite Hm. simpl.
  erewrite bind_ret by apply verifyAuthToken_run. rewrite Ha, Hb. simpl.
  unfold mbind at 1, M_bind at 1, lift at 1. simpl.
  destruct (truthy (field "image" bfs)); simpl; [|reflexivity].
  unfold mbind at 1, M_bind at 1. rewrite processReceiptWithGemini_run.
  unfold mime_type, property, process_failure. cbv zeta.
  destruct (extraction w _ _) as [result|e]; simpl; [|reflexivity].
  unfold mbind, M_bind, lift.
  destruct (set_prop result "userId" _) as [r1|e|]; simpl; try reflexivity.
  destruct (set_prop r1 "success" _) as [r2|e|]; simpl; reflexivity.
Qed.

(** X13. The process handler always answers and never goes to the store.
    For every request it returns a response, with status 200 or with one of
    400, 401, 405, 500 and [success: false].  The world is left exactly as it
    was, except that an authenticated POST that brings an image has called
    the extraction service, once: no connection is opened, the clock is not
    read, and the collection is not touched. *)
Theorem process_always_answers_and_leaves_the_store
  (request : Request) (w : World) :
  exists r w',
    Functions.processReceipt request w = (Ret r, w')
    /\ (w' = w
        \/ (w' = with_journal (EvGenerateContent :: journal w) w
            /\ method request = "POST"
            /\ authenticated request w = true
            /\ truthy (property "image" (body request)) = true))
    /\ (status r = 200 \/ (refused r /\ status r <> 404)).
Proof.
  assert (R : forall code msg, In code [400; 401; 405; 500] ->
                status (failure code msg) = 200
                \/ (refused (failure code msg) /\ status (failure code msg) <> 404)).
  { intros code msg H. right. split.
    - apply refused_failure. simpl in *. tauto.
    - simpl in *. intros E. subst code. repeat destruct H as [H|H]; try discriminate; exact H. }
  destruct (String.eqb (method request) "POST") eqn:Hm.
  2:{ exists Functions.method_not_allowed, w.
      unfold Functions.processReceipt, try_catch. rewrite Hm.
      split; [reflexivity|]. split; [left; reflexivity|].
      apply R. simpl. tauto. }
  apply String.eqb_eq in Hm.
  destruct (truthy (verdict request w)) eqn:Ha.
  2:{ exists Functions.unauthorized, w.
      unfold Functions.processReceipt, try_catch. rewrite Hm. simpl.
      erewrite bind_ret by apply verifyAuthToken_run. rewrite Ha.
      split; [reflexivity|]. split; [left; reflexivity|].
      apply R. simpl. tauto. }
  destruct (body request) as [| | | | | | | |bfs] eqn:Hb;
    try (eexists _, w;
         unfold Functions.processReceipt, try_catch; rewrite Hm; simpl;
         erewrite bind_ret by apply verifyAuthToken_run; rewrite Ha, Hb;
         split; [reflexivity|]; split; [left; reflexivity|];
         apply R; simpl; tauto).
  rewrite (processReceipt_run request w bfs Hm Ha Hb).
  destruct (truthy (field "image" bfs)) eqn:Ti.
  2:{ eexists _, w. split; [reflexivity|]. split; [left; reflexivity|].
      apply R. simpl. tauto. }
  assert (Hw : with_journal (EvGenerateContent :: journal w) w = w
          \/ (with_journal (EvGenerateContent :: journal w) w
              = with_journal (EvGenerateContent :: journal w) w
              /\ method request = "POST"
              /\ authenticated request w = true
              /\ truthy (property "image" (VObj bfs)) = true)).
  { right. rewrite authenticated_verdict. auto. }
  destruct (extraction w _ _) as [result|e].
  2:{ eexists _, _. split; [reflexivity|]. split; [exact Hw|].
      apply R. simpl. tauto. }
  destruct (set_prop_settles result "userId" (verdict request w))
    as [(r1 & -> & _)|[e ->]].
  2:{ eexists _, _. split; [reflexivity|]. split; [exact Hw|].
      apply R. simpl. tauto. }
  destruct (set_prop_settles r1 "success" (VBool true))
    as [(r2 & -> & _)|[e ->]].
  2:{ eexists _, _. split; [reflexivity|]. split; [exact Hw|].
      apply R. simpl. tauto. }
  eexists _, _. split; [reflexivity|]. split; [exact Hw|]. left. reflexivity.
Qed.

(** X14. What the process handler answers to an authenticated POST whose body
    is an object.  Without an image it answers 400 and does not call the
    extraction.  Otherwise it calls the extraction with the image and the
    MIME type of the body, 'image/jpeg' when the body names none; when the
    extraction fails the answer is 500 with the message of the failure; when
    it gives an object the answer is 200 with that object, on which [userId]
    is the caller and [success] is [true], whatever the extraction had put
    under these two names. *)
Theorem process_answers (request : Request) (w : World) (bfs : fields) :
  method request = "POST" ->
  authenticated request w = true ->
  body request = VObj bfs ->
  (truthy (field "image" bfs) = false ->
   Functions.processReceipt request w
   = (Ret (failure 400 "No image provided"), w))
  /\ (truthy (field "image" bfs) = true ->
      (field "type" bfs = VUndefined ->
       mime_type (body request) = VStr "image/jpeg")
      /\ (forall e,
            extraction w (field "image" bfs) (mime_type (body request))
            = Rejected e ->
            e <> "" ->
            fst (Functions.processReceipt request w) = Ret (failure 500 e))
      /\ (forall fs,
            extraction w (field "image" bfs) (mime_type (body request))
            = Fulfilled (VObj fs) ->
            exists rf,
              fst (Functions.processReceipt request w)
              = Ret (mkResponse 200 (VObj rf))
              /\ field "userId" rf = subject request w
              /\ field "success" rf = VBool true
              /\ forall k, k <> "userId" -> k <> "success" ->
                   lookup_field k rf = lookup_field k fs)).
Proof.
  intros Hm Ha Hb. rewrite authenticated_verdict in Ha.
  rewrite (processReceipt_run request w bfs Hm Ha Hb), Hb.
  split; [intros ->; reflexivity|].
  intros ->. split; [|split].
  - intros Ht. unfold mime_type. simpl. rewrite Ht. reflexivity.
  - intros e -> He. simpl. unfold process_failure.
    apply String.eqb_neq in He. rewrite He. reflexivity.
  - intros fs ->. simpl. eexists. split; [reflexivity|].
    rewrite subject_verdict.
    split; [rewrite field_set_ne by discriminate; apply field_set_eq|].
    split; [apply field_set_eq|].
    intros k K1 K2. rewrite !lookup_field_set_ne by congruence. reflexivity.
Qed.

Lemma process_answers_witness :
  exists rf,
    fst (Functions.processReceipt
           (Sample.post (VObj [("image", VStr "aGVsbG8=")])) extracting)
    = Ret (mkResponse 200 (VObj rf))
    /\ field "userId" rf = VStr "alice"
    /\ field "success" rf = VBool true
    /\ field "items" rf = VArr [].
Proof.
  destruct (process_answers
              (Sample.post (VObj [("image", VStr "aGVsbG8=")])) extracting
              [("image", VStr "aGVsbG8=")])
    as (_ & H); [reflexivity | reflexivity | reflexivity |].
  destruct H as (_ & _ & H); [reflexivity|].
  destruct (H [("items", VArr []); ("userId", VStr "model")] eq_refl)
    as (rf & E & Hu & Hs & Hk).
  exists rf. split; [exact E|]. split; [exact Hu|]. split; [exact Hs|].
  unfold field. rewrite Hk by discriminate. reflexivity.
Defined.

(** ** createReceiptDocument: what is stored, and what a failure leaves *)

Lemma insertOne_throws (doc : fields) (w w' : World) (e : string) :
  Driver.insertOne doc w = (Throw e, w') ->
  receipts w' = receipts w.
Proof.
  unfold Driver.insertOne.
  destruct (field "_id" doc); try discriminate;
    unfold Driver.createPk, gets, modify, mbind, M_bind, mret, M_ret;
    simpl; rewrite insert_at_run; cbv zeta; simpl;
    repeat match goal with
           | |- context [match ?x with Some _ => _ | None => _ end] =>
               destruct x
           end;
    intros H; inversion H; reflexivity.
Qed.

Lemma createReceiptDocument_failure_frame
  (receiptData : value) (w w' : World) (e : string) :
  Mongodb.createReceiptDocument receiptData w = (Throw e, w') ->
  receipts w' = receipts w.
Proof.
  intros H. destruct (reachable w) eqn:Hr.
  - destruct (reachable_connects w Hr) as (w0 & Ec & Hrec & _).
    rewrite (createReceiptDocument_run receiptData w w0 Ec) in H.
    cbv zeta in H.
    destruct (Driver.insertOne _ _) as [[o|e'|] w1] eqn:Ei;
      inversion H; subst.
    pose proof (insertOne_throws _ _ _ _ Ei) as Hw.
    simpl in Hw. congruence.
  - destruct (createReceiptDocument_unreachable receiptData w Hr)
      as (e' & w1 & E & Hrec & _).
    rewrite E in H. inversion H; subst. exact Hrec.
Qed.

(** X15. What a creation stores.  When createReceiptDocument returns an
    identifier, the collection has one more document, under that identifier,
    which was free; every other document is as it was.  The new document has
    the two times read at the creation as [createdAt] and [updatedAt],
    whatever the payload said under these names, and every other property of
    the payload as the store writes it; the identifier parses back to the
    key of the document when that key is below [2^96].  The payload brings
    no [_id] of its own, or an ObjectId. *)
Theorem createReceiptDocument_stores_the_payload
  (receiptData : value) (w w' : World) (id : string) :
  nullish (field "_id" (spread_props receiptData)) = true
  \/ (exists o, field "_id" (spread_props receiptData) = VOid o) ->
  Mongodb.createReceiptDocument receiptData w = (Ret id, w') ->
  exists o fs,
    id = ObjectId.toString o
    /\ receipts w !! o = None
    /\ receipts w' = <[o := fs]> (receipts w)
    /\ field "createdAt" fs = VDate (clock w (ticks w))
    /\ field "updatedAt" fs = VDate (clock w (S (ticks w)))
    /\ lookup_field "_id" fs = None
    /\ (forall k, k <> "_id" -> k <> "createdAt" -> k <> "updatedAt" ->
          lookup_field k fs = toBSON <$> lookup_field k (spread_props receiptData))
    /\ ((o < ObjectId.modulus)%N -> stored id w' = Some fs).
Proof.
  intros _ H.
  destruct (createReceiptDocument_ret _ _ _ _ H)
    as (o & Hid & _ & Hnone & Hrec & _ & _ & _).
  exists o. eexists. split; [exact Hid|]. split; [exact Hnone|].
  split; [exact Hrec|].
  unfold field, created_document.
  rewrite !lookup_field_toBSON, !lookup_field_remove_ne by discriminate.
  rewrite lookup_field_remove_eq.
  rewrite lookup_field_set_eq.
  rewrite lookup_field_set_ne by discriminate. rewrite lookup_field_set_eq.
  do 3 (split; [reflexivity|]).
  split.
  - intros k K1 K2 K3.
    rewrite lookup_field_toBSON, lookup_field_remove_ne by congruence.
    rewrite !lookup_field_set_ne by congruence. reflexivity.
  - intros Ho. unfold stored. rewrite Hid, parse_toString.
    rewrite N.mod_small by exact Ho. rewrite Hrec. apply lookup_insert_eq.
Qed.

Lemma createReceiptDocument_stores_the_payload_witness :
  exists o fs,
    Sample.receipt_id = ObjectId.toString o
    /\ receipts Sample.world !! o = None
    /\ receipts (snd (Mongodb.createReceiptDocument
                        (VObj [("createdAt", VNum 0); ("note", VStr "paid")])
                        Sample.world))
       = <[o := fs]> (receipts Sample.world)
    /\ field "createdAt" fs = VDate 1700000000000
    /\ field "updatedAt" fs = VDate 1700000000001
    /\ field "note" fs = VStr "paid".
Proof.
  destruct (createReceiptDocument_stores_the_payload
              (VObj [("createdAt", VNum 0); ("note", VStr "paid")])
              Sample.world
              (snd (Mongodb.createReceiptDocument
                      (VObj [("createdAt", VNum 0); ("note", VStr "paid")])
                      Sample.world))
              Sample.receipt_id)
    as (o & fs & H1 & H2 & H3 & H4 & H5 & _ & H7 & _).
  - left. reflexivity.
  - assert (E : fst (Mongodb.createReceiptDocument
                       (VObj [("createdAt", VNum 0); ("note", VStr "paid")])
                       Sample.world) = Ret Sample.receipt_id)
      by (vm_compute; reflexivity).
    rewrite <- E. apply surjective_pairing.
  - exists o, fs. do 5 (split; [assumption|]).
    unfold field. rewrite H7 by discriminate. reflexivity.
Defined.

(** ** The save handler: what it stores *)

Lemma stamp_metadata_frame
  (userId : value) (bfs : fields) (w w0 : World) (r : outcome value) :
  Functions.stamp_metadata userId (VObj bfs) w = (r, w0) ->
  receipts w0 = receipts w.
Proof.
  rewrite stamp_metadata_run. cbv zeta.
  destruct (truthy (field "processingMetadata" bfs)).
  - destruct (set_prop _ _ _); intros H; inversion H; subst; reflexivity.
  - intros H; inversion H; subst. reflexivity.
Qed.

(** X16. A save stores one document, or nothing, for a payload that brings
    no [_id] of its own.  When the save handler answers 200 the collection
    has exactly one more document, stored under the identifier of the
    answer, which was free before, and every other document is as it was.
    With any other answer the collection is as it was. *)
Theorem save_stores_one_document_or_nothing
  (request : Request) (w w' : World) (r : Response) :
  nullish (property "_id" (body request)) = true ->
  Functions.saveReceipt request w = (Ret r, w') ->
  (status r = 200 ->
   exists o fs,
     answer "id" r = VStr (ObjectId.toString o)
     /\ receipts w !! o = None
     /\ receipts w' = <[o := fs]> (receipts w))
  /\ (status r <> 200 -> receipts w' = receipts w).
Proof.
  intros _ H. split.
  - intros Hst.
    destruct (save_handler_200 _ _ _ _ H Hst)
      as (bfs & data & w0 & id & _ & _ & _ & _ & Es & Ec & ->).
    apply stamp_metadata_frame in Es.
    destruct (createReceiptDocument_ret _ _ _ _ Ec)
      as (o & -> & _ & Hnone & Hrec & _).
    exists o. eexists. split; [reflexivity|].
    rewrite <- Es. split; [exact Hnone | exact Hrec].
  - intros Hst.
    destruct (String.eqb_spec (method request) "POST") as [Hm|Hm].
    2:{ unfold Functions.saveReceipt, try_catch in H.
        apply String.eqb_neq in Hm. rewrite Hm in H. simpl in H.
        inversion H; subst. reflexivity. }
    destruct (truthy (verdict request w)) eqn:Ha.
    2:{ unfold Functions.saveReceipt, try_catch in H. rewrite Hm in H.
        simpl in H. erewrite bind_ret in H by apply verifyAuthToken_run.
        rewrite Ha in H. simpl in H. inversion H; subst. reflexivity. }
    destruct (truthy (body request)) eqn:Tb.
    2:{ destruct (saveReceipt_400 request w Hm Ha (or_introl Tb)) as (msg & E).
        rewrite E in H. inversion H; subst. reflexivity. }
    destruct (structurally_valid (body request)) eqn:Hv.
    2:{ destruct (saveReceipt_400 request w Hm Ha (or_intror Hv)) as (msg & E).
        rewrite E in H. inversion H; subst. reflexivity. }
    destruct (structurally_valid_object _ Hv) as (bfs & Hb).
    rewrite (saveReceipt_run request w bfs Hm Ha Hb Hv) in H.
    destruct (Functions.stamp_metadata _ _ w) as [[data|e|] w0] eqn:Es;
      [|inversion H; subst; exact (stamp_metadata_frame _ _ _ _ _ Es)
       |discriminate].
    apply stamp_metadata_frame in Es.
    destruct (Mongodb.createReceiptDocument data w0) as [[id|e|] w1] eqn:Ec;
      [| |discriminate].
    + destruct (createReceiptDocument_ret _ _ _ _ Ec) as (o & -> & _).
      rewrite toString_not_empty in H. inversion H; subst.
      exfalso. apply Hst. reflexivity.
    + inversion H; subst.
      pose proof (createReceiptDocument_failure_frame _ _ _ _ Ec) as Hw.
      congruence.
Qed.

Lemma save_stores_one_document_or_nothing_witness :
  exists o fs,
    VStr Sample.receipt_id = VStr (ObjectId.toString o)
    /\ receipts Sample.world !! o = None
    /\ receipts (Sample.saved Sample.world) = <[o := fs]> (receipts Sample.world).
Proof.
  assert (E : fst (Functions.saveReceipt (Sample.post Sample.latte) Sample.world)
              = Ret (saved_answer Sample.receipt_id))
    by (vm_compute; reflexivity).
  refine (proj1 (save_stores_one_document_or_nothing
                   (Sample.post Sample.latte) Sample.world
                   (Sample.saved Sample.world)
                   (saved_answer Sample.receipt_id) eq_refl _) eq_refl).
  rewrite <- E. apply surjective_pairing.
Defined.



(** ** The update handler: the metadata it writes *)

(** X18. An update replaces the metadata.  When the update handler answers
    200 to a patch whose [processingMetadata] is truthy, the stored
    [processingMetadata] is the one of the patch with three properties set
    by the handler: [updatedAt] is the time read by the handler, [userId] is
    the caller, and [updatedBy] lists the caller alone.  What the document
    had under [processingMetadata] before is not merged in: a property that
    the patch's metadata does not name is not in the stored one. *)
Theorem update_replaces_the_metadata
  (request : Request) (w w' : World) (r : Response) :
  Functions.updateReceiptById request w = (Ret r, w') ->
  status r = 200 ->
  truthy (property "processingMetadata" (body request)) = true ->
  exists id fs pm,
    url_id (url request) = Some id
    /\ stored id w' = Some fs
    /\ field "processingMetadata" fs = VObj pm
    /\ field "updatedAt" pm = VDate (clock w (ticks w))
    /\ field "userId" pm = toBSON (subject request w)
    /\ field "updatedBy" pm = VArr [toBSON (subject request w)]
    /\ (forall k, k <> "updatedAt" -> k <> "userId" -> k <> "updatedBy" ->
          lookup_field k pm
          = toBSON <$> lookup_field k
                         (spread_props
                            (property "processingMetadata" (body request)))).
Proof.
  intros H Hst Hpm. rewrite subject_verdict.
  destruct (update_handler_200 _ _ _ _ H Hst)
    as (id & o & efs & w1 & patch & _ & _ & Hu & Hp & Hfs & Hs & Em & Eu & _).
  unfold Driver.document in Em.
  destruct (merge_metadata_ret _ _ _ _ _ _ Em) as (bfs & Hb & _ & Hcases).
  rewrite Hb in *. simpl in Hpm. cbv zeta in Hcases.
  destruct Hcases as [[_ ->]|[Hf _]]; [|congruence].
  destruct (updateReceiptById_effect _ _ _ _ _ Eu)
    as (_ & _ & [[Hne _]|(o' & fs' & _ & Hp' & Hfs' & _ & _ & _ & _ & Hrec)]);
    [congruence|].
  rewrite Hp in Hp'. inversion Hp'; subst o'.
  destruct Hs as (_ & Hclock & Hticks & _).
  exists id. eexists. eexists. split; [exact Hu|].
  unfold stored. rewrite Hp, Hrec, lookup_insert_eq.
  split; [reflexivity|].
  unfold field at 1. rewrite lookup_merged. simpl.
  rewrite lookup_field_set_eq. unfold supplied_metadata. rewrite toBSON_obj.
  split; [reflexivity|].
  rewrite !field_toBSON.
  rewrite (lookup_field_set_ne "updatedBy" "updatedAt") by discriminate.
  rewrite (lookup_field_set_ne "userId" "updatedAt") by discriminate.
  rewrite (lookup_field_set_ne "updatedBy" "userId") by discriminate.
  rewrite !lookup_field_set_eq.
  split; [simpl; rewrite Hclock, Hticks; reflexivity|].
  do 2 (split; [reflexivity|]).
  intros k K1 K2 K3.
  rewrite lookup_field_toBSON, !lookup_field_set_ne by congruence.
  reflexivity.
Qed.

Lemma update_replaces_the_metadata_witness :
  let request :=
    Sample.put Sample.receipt_id
      (VObj [("processingMetadata",
              VObj [("userId", VStr "mallory");
                    ("updatedBy", VArr [VStr "mallory"; VStr "eve"])])]) in
  let w := Sample.saved Sample.world in
  exists id fs pm,
    url_id (url request) = Some id
    /\ stored id (snd (Functions.updateReceiptById request w)) = Some fs
    /\ field "processingMetadata" fs = VObj pm
    /\ field "updatedAt" pm = VDate (clock w (ticks w))
    /\ field "userId" pm = toBSON (subject request w)
    /\ field "updatedBy" pm = VArr [toBSON (subject request w)]
    /\ (forall k, k <> "updatedAt" -> k <> "userId" -> k <> "updatedBy" ->
          lookup_field k pm
          = toBSON <$> lookup_field k
                         (spread_props
                            (property "processingMetadata" (body request)))).
Proof.
  intros request w.
  apply (update_replaces_the_metadata request w _
           (mkResponse 200
              (VObj [("id", VStr Sample.receipt_id); ("success", VBool true)]))).
  - assert (E : fst (Functions.updateReceiptById request w)
                = Ret (mkResponse 200
                         (VObj [("id", VStr Sample.receipt_id);
                                ("success", VBool true)])))
      by (vm_compute; reflexivity).
    rewrite <- E. apply surjective_pairing.
  - reflexivity.
  - reflexivity.
Defined.

(** ** validateReceiptData *)

(** X19. validateReceiptData decides the structural rule.  On [undefined]
    and [null] it throws (the handler tests the payload before it calls it);
    on every other value it returns, and it returns [true] exactly when at
    least one of [originalData], [processedData], [shareData] is present and
    each of [processedData], [shareData] that is present has an array as
    [items].  A value that is not an object is never valid. *)
Theorem validateReceiptData_decides_the_structural_rule (data : value) :
  (nullish data = true -> exists e, Functions.validateReceiptData data = Throw e)
  /\ (nullish data = false ->
      Functions.validateReceiptData data = Ret (structurally_valid data))
  /\ (structurally_valid data = true -> exists fs, data = VObj fs).
Proof.
  split; [|split].
  - destruct data; try discriminate; intros _; eexists; reflexivity.
  - intros Hn. destruct (truthy data) eqn:T.
    + apply validateReceiptData_spec. exact T.
    + destruct data; try discriminate; reflexivity.
  - apply structurally_valid_object.
Qed.

(** ** A client that is not signed in *)

(** X20. A client without a token is refused.  When there is no current user,
    or the user's token cannot be obtained, addAuthHeader returns the
    options as they were given; a request made from options that carry no
    Authorization header of their own then gets 401 from the endpoint whose
    method it uses, and the world is as it was. *)
Theorem signed_out_client_is_refused
  (currentUser : option Client.User) (ofs : fields) (request : Request)
  (ep : endpoint) (w : World) :
  Client.getAuthToken currentUser = None ->
  Client.header "Authorization" (VObj ofs) = None ->
  Client.addAuthHeader currentUser (VObj ofs) = Ret (VObj ofs)
  /\ (authorization request = Client.header "Authorization" (VObj ofs) ->
      method request = verb ep ->
      handler ep request w = (Ret Functions.unauthorized, w)).
Proof.
  intros Ht Hh. split.
  - unfold Client.addAuthHeader. rewrite Ht. reflexivity.
  - rewrite Hh. intros Ha Hm.
    assert (Hv : truthy (verdict request w) = false).
    { unfold verdict. rewrite Ha. reflexivity. }
    unfold handler, onRequest, preflight. rewrite Hm.
    destruct ep; simpl in *;
      [unfold Functions.processReceipt | unfold Functions.saveReceipt
      | unfold Functions.loadReceiptById | unfold Functions.updateReceiptById];
      unfold try_catch; rewrite Hm; simpl;
      erewrite bind_ret by apply verifyAuthToken_run; rewrite Hv; reflexivity.
Qed.

Lemma signed_out_client_is_refused_witness :
  Client.addAuthHeader
    (Some (Client.mkUser "alice" (Client.Denied "auth/network-request-failed")))
    (VObj [("method", VStr "GET");
           ("headers", VObj [("Accept", VStr "application/json")])])
  = Ret (VObj [("method", VStr "GET");
               ("headers", VObj [("Accept", VStr "application/json")])])
  /\ handler Load (mkRequest "GET" None ("/" ++ Sample.receipt_id) VUndefined)
       (Sample.saved Sample.world)
     = (Ret Functions.unauthorized, Sample.saved Sample.world).
Proof.
  destruct (signed_out_client_is_refused
              (Some (Client.mkUser "alice"
                       (Client.Denied "auth/network-request-failed")))
              [("method", VStr "GET");
               ("headers", VObj [("Accept", VStr "application/json")])]
              (mkRequest "GET" None ("/" ++ Sample.receipt_id) VUndefined)
              Load (Sample.saved Sample.world))
    as [H1 H2]; [reflexivity | reflexivity |].
  split; [exact H1|]. apply H2; reflexivity.
Defined.

(** ** Identifiers are issued once *)

(** X21. An identifier is never issued twice.  When the save handler has
    answered 200 to a payload that brings no [_id] of its own, and later,
    after any sequence of calls of the store adapter and of the handlers, it
    answers 200 to another such payload, the two answers carry different
    identifiers. *)
Theorem saved_ids_are_distinct
  (first second : Request) (w w1 w2 : World) (r1 r2 : Response)
  (cs : list call) :
  nullish (property "_id" (body first)) = true ->
  Functions.saveReceipt first w = (Ret r1, w1) ->
  status r1 = 200 ->
  nullish (property "_id" (body second)) = true ->
  Functions.saveReceipt second (run cs w1) = (Ret r2, w2) ->
  status r2 = 200 ->
  answer "id" r1 <> answer "id" r2.
Proof.
  intros Hj1 H1 S1 Hj2 H2 S2.
  destruct (save_handler_stored _ _ _ _ Hj1 H1 S1)
    as (bfs1 & id1 & o1 & c1 & u1 & m1 & _ & _ & -> & Hp1 & _ & Hrec1 & _).
  destruct (save_handler_stored _ _ _ _ Hj2 H2 S2)
    as (bfs2 & id2 & o2 & c2 & u2 & m2 & _ & _ & -> & Hp2 & Hnone2 & _).
  simpl. intros E. inversion E; subst id2.
  assert (o2 = o1) by congruence. subst o2.
  assert (Hs : is_Some (receipts (run cs w1) !! o1)).
  { apply (grows_run (fun c => is_Some (c !! o1))).
    - intros c k v H. rewrite lookup_insert_is_Some.
      destruct (N.eq_dec k o1); auto.
    - rewrite Hrec1, lookup_insert_eq. eauto. }
  rewrite Hnone2 in Hs. destruct Hs as [x Hx]. discriminate.
Qed.

Lemma saved_ids_are_distinct_witness :
  answer "id" (saved_answer "507f1f77bcf86cd799439011")
  <> answer "id" (saved_answer "507f1f77bcf86cd799439012").
Proof.
  apply (saved_ids_are_distinct (Sample.post Sample.latte)
           (Sample.post Sample.latte) Sample.world (Sample.saved Sample.world)
           (snd (Functions.saveReceipt (Sample.post Sample.latte)
                   (run [GetReceiptById Sample.receipt_id]
                      (Sample.saved Sample.world))))
           _ _ [GetReceiptById Sample.receipt_id]).
  - reflexivity.
  - assert (E : fst (Functions.saveReceipt (Sample.post Sample.latte)
                       Sample.world)
                = Ret (saved_answer "507f1f77bcf86cd799439011"))
      by (vm_compute; reflexivity).
    rewrite <- E. apply surjective_pairing.
  - reflexivity.
  - reflexivity.
  - assert (E : fst (Functions.saveReceipt (Sample.post Sample.latte)
                       (run [GetReceiptById Sample.receipt_id]
                          (Sample.saved Sample.world)))
                = Ret (saved_answer "507f1f77bcf86cd799439012"))
      by (vm_compute; reflexivity).
    rewrite <- E. apply surjective_pairing.
  - reflexivity.
Defined.

(** ** A part that cannot take the identifier *)

Lemma lookup_clone_fields_none (k : string) (fs : fields) :
  lookup_field k fs = None -> lookup_field k (clone_fields fs) = None.
Proof.
  induction fs as [|[k' x] r IH]; [reflexivity|].
  rewrite lookup_field_cons.
  destruct (lookup_field k r); [discriminate|].
  destruct (String.eqb k' k) eqn:E; [discriminate|]. intros _.
  cbn [clone_fields].
  destruct x; try exact (IH eq_refl);
    rewrite lookup_field_cons, (IH eq_refl), E; reflexivity.
Qed.

Lemma lookup_clone_fields_some (k : string) (v : value) (fs : fields) :
  lookup_field k fs = Some v -> v <> VUndefined ->
  lookup_field k (clone_fields fs) = Some (json_clone v).
Proof.
  intros H Hv. induction fs as [|[k' x] r IH]; [discriminate|].
  rewrite lookup_field_cons in H.
  destruct (lookup_field k r) as [y|] eqn:El.
  - inversion H; subst y. specialize (IH eq_refl).
    cbn [clone_fields].
    destruct x; try exact IH; rewrite lookup_field_cons, IH; reflexivity.
  - destruct (String.eqb k' k) eqn:E; [|discriminate].
    inversion H; subst x. cbn [clone_fields].
    pose proof (lookup_clone_fields_none k r El) as Hn.
    destruct v; try congruence;
      rewrite lookup_field_cons, Hn, E; reflexivity.
Qed.

Lemma inject_id_throws (k id : string) (cfs : fields) (e : string) :
  Functions.inject_id k id (VObj cfs) = Throw e ->
  String.prefix cannot_create e = true.
Proof.
  unfold Functions.inject_id. simpl.
  destruct (truthy (field k cfs)) eqn:T; [|discriminate].
  destruct (field k cfs) as [| |b|x|s| | | |]; simpl; try discriminate;
    intros H; inversion H; reflexivity.
Qed.

Lemma inject_id_primitive (k id : string) (cfs : fields) :
  truthy_primitive (field k cfs) = true ->
  exists e, Functions.inject_id k id (VObj cfs) = Throw e.
Proof.
  unfold Functions.inject_id, truthy_primitive. simpl.
  destruct (field k cfs); simpl; try discriminate;
    intros H; apply andb_true_iff in H as [-> _]; eauto.
Qed.

Lemma inject_id_others (k id : string) (cfs cfs' : fields) :
  Functions.inject_id k id (VObj cfs) = Ret (VObj cfs') ->
  forall k', k' <> k -> field k' cfs' = field k' cfs.
Proof.
  unfold Functions.inject_id. simpl.
  destruct (truthy (field k cfs)).
  - destruct (field k cfs); simpl; try discriminate;
      intros H; inversion H; subst; intros k' Hk;
      apply field_set_ne; congruence.
  - intros H; inversion H; subst. reflexivity.
Qed.

(** X22. A receipt whose [shareData] or [processedData] is a truthy boolean,
    finite number or string cannot be loaded: the handler cannot put the
    identifier on it, and answers 500 with the TypeError of the assignment
    for a document that is stored and that the store gave back.  The update
    handler accepts such a patch, so an accepted update can leave a receipt
    that load no longer returns. *)
Theorem load_is_500_when_a_part_is_a_primitive
  (request : Request) (w : World) (id : string) (fs : fields) (k : string) :
  method request = "GET" ->
  authenticated request w = true ->
  url_id (url request) = Some id ->
  reachable w = true ->
  stored id w = Some fs ->
  k = "shareData" \/ k = "processedData" ->
  truthy_primitive (field k fs) = true ->
  exists e w',
    Functions.loadReceiptById request w
    = (Ret (failure 500 ("Failed to load receipt: " ++ e)), w')
    /\ String.prefix cannot_create e = true
    /\ same_data w w'.
Proof.
  intros Hm Ha Hu Hr Hs Hk Hprim. rewrite authenticated_verdict in Ha.
  destruct (stored_parse _ _ _ Hs) as (o & Hp & Hfs & _).
  destruct (loadReceiptById_run request w id o fs Hm Ha Hu Hp Hfs Hr)
    as (w1 & Hsd & ->).
  assert (Hc : field k (cloned o fs) = field k fs).
  { unfold field in *.
    destruct (lookup_field k fs) as [v|] eqn:El; [|discriminate].
    unfold cloned. rewrite lookup_field_cons.
    rewrite (lookup_clone_fields_some k v fs El).
    - simpl in *. unfold truthy_primitive in Hprim.
      destruct v as [| |b|x|s| | | |]; try discriminate; try reflexivity.
      destruct x; try reflexivity;
        apply andb_true_iff in Hprim as [_ Hprim]; discriminate.
    - intros ->. discriminate. }
  assert (Ht : exists e, load_response id (Driver.document o fs) = Throw e
                         /\ String.prefix cannot_create e = true).
  { unfold load_response, Driver.document. rewrite json_clone_obj.
    change (clone_fields (("_id", VOid o) :: fs)) with (cloned o fs).
    destruct (Functions.inject_id "shareData" id (VObj (cloned o fs)))
      as [c1|e|] eqn:E1.
    - destruct (inject_id_settles "shareData" id (cloned o fs))
        as [[c1' E]|[e E]]; rewrite E in E1; inversion E1; subst c1.
      destruct Hk as [-> | ->].
      + destruct (inject_id_primitive "shareData" id (cloned o fs)) as [e E'];
          [rewrite Hc; exact Hprim | congruence].
      + unfold mbind at 1, outcome_bind at 1.
        destruct (inject_id_primitive "processedData" id c1') as [e E'].
        { rewrite (inject_id_others _ _ _ _ E) by discriminate.
          rewrite Hc. exact Hprim. }
        rewrite E'. exists e. split; [reflexivity|].
        exact (inject_id_throws _ _ _ _ E').
    - exists e. split; [reflexivity|]. exact (inject_id_throws _ _ _ _ E1).
    - destruct (inject_id_settles "shareData" id (cloned o fs))
        as [[c1' E]|[e E]]; rewrite E in E1; discriminate. }
  destruct Ht as (e & -> & He).
  exists e, w1. split; [reflexivity|]. split; [exact He | exact Hsd].
Qed.

Lemma load_is_500_when_a_part_is_a_primitive_witness :
  let w :=
    snd (Functions.updateReceiptById
           (Sample.put Sample.receipt_id
              (VObj [("shareData", VStr "none");
                     ("processingMetadata", VObj [])]))
           (Sample.saved Sample.world)) in
  exists e w',
    Functions.loadReceiptById (Sample.get Sample.receipt_id) w
    = (Ret (failure 500 ("Failed to load receipt: " ++ e)), w')
    /\ String.prefix cannot_create e = true
    /\ same_data w w'.
Proof.
  assert (H : exists fs,
            stored Sample.receipt_id
              (snd (Functions.updateReceiptById
                      (Sample.put Sample.receipt_id
                         (VObj [("shareData", VStr "none");
                                ("processingMetadata", VObj [])]))
                      (Sample.saved Sample.world))) = Some fs
            /\ truthy_primitive (field "shareData" fs) = true)
    by (eexists; split; vm_compute; reflexivity).
  destruct H as (fs & Hs & Hp). intros w.
  apply (load_is_500_when_a_part_is_a_primitive
           (Sample.get Sample.receipt_id) w Sample.receipt_id fs "shareData").
  - reflexivity.
  - vm_compute. reflexivity.
  - reflexivity.
  - vm_compute. reflexivity.
  - exact Hs.
  - left. reflexivity.
  - exact Hp.
Defined.

(** The text of the answer in that case. *)
Example load_of_a_primitive_shareData :
  fst (Functions.loadReceiptById (Sample.get Sample.receipt_id)
         (snd (Functions.updateReceiptById
                 (Sample.put Sample.receipt_id
                    (VObj [("shareData", VStr "none");
                           ("processingMetadata", VObj [])]))
                 (Sample.saved Sample.world))))
  = Ret (failure 500
           "Failed to load receipt: Cannot create property 'documentId' on string 'none'").
Proof. vm_compute. reflexivity. Qed.
